(** * MockRequests: the demo-mode request simulator of the product-management app

    A shallow embedding of [localService/MockRequests.js] (the mock request
    handlers that simulate the function imports EditProduct, CopyProduct and
    ActivateProduct, and the defaulting of freshly added drafts), together
    with the properties of its specification.

    JavaScript objects are shared and mutated in place, so entities live in
    a heap of objects and collections hold references to them. *)

From stdpp Require Import base gmap strings list pretty.

Open Scope string_scope.
Open Scope list_scope.

(** ** JavaScript values *)

Abbreviation loc := nat.

(** The numbers this program computes with are the id counter and the
    constant [0]: integers that a double holds exactly, hence [Z] (the
    counter's arithmetic is written out at [increment] below). *)
Inductive value :=
  | VUndef
  | VNull
  | VBool (b : bool)
  | VNum (n : Z)
  | VStr (s : string)
  | VRef (l : loc).

Global Instance value_eq_dec : EqDecision value.
Proof. solve_decision. Defined.

(** An object is a finite map from property names to values; reading a
    property that is not there gives [undefined]. *)
Abbreviation obj := (gmap string value).

(** ToBoolean. *)
Definition truthy (v : value) : bool :=
  match v with
  | VUndef | VNull => false
  | VBool b => b
  | VNum n => negb (n =? 0)%Z
  | VStr s => negb (String.eqb s "")
  | VRef _ => true
  end.

(** [v === w]: same type and same value; two references are equal when they
    point to the same object. *)
Definition strict_eq (v w : value) : bool := bool_decide (v = w).

(** [typeof v === "undefined"]. *)
Definition typeof_undefined (v : value) : bool :=
  match v with VUndef => true | _ => false end.

(** ToString, as used by [+] with a string operand. *)
Definition ToString (v : value) : string :=
  match v with
  | VUndef => "undefined"
  | VNull => "null"
  | VBool true => "true"
  | VBool false => "false"
  | VNum n => pretty n
  | VStr s => s
  | VRef _ => "[object Object]"
  end.

(** ** The state: heap, mock server and the instance fields *)

Inductive error :=
  | TypeError (msg : string)
  | URIError (msg : string).

(** Modelled from the spec: the host's mock server is not part of the
    repository.  Its store contract is [getEntitySetData(name) -> rows[]],
    [setEntitySetData(name, rows[])], [getRootUri() -> string] and the optional
    [attachAfter] hook.  The rows are the server's own entity objects, so the
    store maps a name to a list of references. *)
Record state := State {
  heap : gmap loc obj;
  entitySets : gmap string (list loc);
  rootUri : string;
  hasAttachAfter : bool;
  iLastId : Z;
  alerts : list string;
}.

Definition set_heap (f : gmap loc obj → gmap loc obj) (σ : state) : state :=
  State (f (heap σ)) (entitySets σ) (rootUri σ) (hasAttachAfter σ)
        (iLastId σ) (alerts σ).

Definition set_entitySets
    (f : gmap string (list loc) → gmap string (list loc)) (σ : state) : state :=
  State (heap σ) (f (entitySets σ)) (rootUri σ) (hasAttachAfter σ)
        (iLastId σ) (alerts σ).

Definition set_iLastId (f : Z → Z) (σ : state) : state :=
  State (heap σ) (entitySets σ) (rootUri σ) (hasAttachAfter σ)
        (f (iLastId σ)) (alerts σ).

Definition add_alert (s : string) (σ : state) : state :=
  State (heap σ) (entitySets σ) (rootUri σ) (hasAttachAfter σ)
        (iLastId σ) (alerts σ ++ [s]).

(** The object at a reference, and one of its properties. *)
Definition hobj (h : gmap loc obj) (l : loc) : obj := default ∅ (h !! l).

Definition oget (o : obj) (k : string) : value := default VUndef (o !! k).

Definition field (σ : state) (l : loc) (k : string) : value :=
  oget (hobj (heap σ) l) k.

(** The elementary heap updates: put an object at a reference, assign a
    property, delete a property; and the reference of the next new object. *)
Definition place (l : loc) (o : obj) (σ : state) : state :=
  set_heap (insert l o) σ.

Definition store_prop (l : loc) (k : string) (x : value) (σ : state) : state :=
  place l (<[k := x]> (hobj (heap σ) l)) σ.

Definition remove_prop (l : loc) (k : string) (σ : state) : state :=
  place l (delete k (hobj (heap σ) l)) σ.

Definition next_loc (σ : state) : loc := fresh (dom (heap σ)).

(** 2^53: up to here every integer is a double, and [2^53 + 1] is not. *)
Definition twoTo53 : Z := 9007199254740992.

(** [n + 1] in the arithmetic of doubles, for the values of the id counter.
    The counter starts at [0] and only [this._iLastId++] changes it, so its
    values are integers from [0] to 2^53: below 2^53 the sum is exact, and
    [2^53 + 1] is rounded (to even) to 2^53 again, where the counter stays. *)
Definition increment (n : Z) : Z :=
  if decide (n < twoTo53)%Z then (n + 1)%Z else n.

(** [this._iLastId++]. *)
Definition next_id (σ : state) : state := set_iLastId increment σ.

(** ** A state and exception monad for the handlers *)

Inductive result (A : Type) :=
  | Ok (a : A) (σ : state)
  | Throw (e : error) (σ : state).
Arguments Ok {A} a σ.
Arguments Throw {A} e σ.

Definition M (A : Type) : Type := state → result A.

Global Instance M_ret : MRet M := λ A a σ, Ok a σ.
Global Instance M_bind : MBind M := λ A B f m σ,
  match m σ with
  | Ok a σ' => f a σ'
  | Throw e σ' => Throw e σ'
  end.

Definition gets {A} (f : state → A) : M A := λ σ, Ok (f σ) σ.
Definition modify (f : state → state) : M unit := λ σ, Ok tt (f σ).
Definition throw {A} (e : error) : M A := λ σ, Throw e σ.

(** The final state of a run, whether it returned or threw. *)
Definition final {A} (r : result A) : state :=
  match r with Ok _ σ => σ | Throw _ σ => σ end.

(** ** Property access (strict mode) *)

(** The names every object inherits from [Object.prototype]; a boolean
    inherits the same names ([Boolean.prototype] adds none).  An object is
    given here by its own properties, and a read of one of these names would
    give the inherited value where the object has none of its own: the reads
    below are those of the program for every name but these.  The program
    itself reads none of them. *)
Definition inheritedNames : list string :=
  [ "constructor"; "toString"; "toLocaleString"; "valueOf"; "hasOwnProperty";
    "isPrototypeOf"; "propertyIsEnumerable"; "__proto__"; "__defineGetter__";
    "__defineSetter__"; "__lookupGetter__"; "__lookupSetter__" ].

(** The module runs under ["use strict"].  Reading a property of a boolean,
    number or string primitive gives [undefined] for every property name this
    program uses (none of them is on a prototype); on [undefined] and [null]
    it throws.  Assigning to a property of a primitive throws in strict mode;
    deleting one does nothing. *)
Definition getProp (v : value) (k : string) : M value :=
  match v with
  | VRef l => gets (λ σ, field σ l k)
  | VUndef | VNull => throw (TypeError "Cannot read properties of undefined")
  | _ => mret VUndef
  end.

Definition setProp (v : value) (k : string) (x : value) : M unit :=
  match v with
  | VRef l => modify (store_prop l k x)
  | VUndef | VNull => throw (TypeError "Cannot set properties of undefined")
  | _ => throw (TypeError "Cannot create property on primitive")
  end.

Definition deleteProp (v : value) (k : string) : M unit :=
  match v with
  | VRef l => modify (remove_prop l k)
  | VUndef | VNull => throw (TypeError "Cannot convert undefined to object")
  | _ => mret tt
  end.

(** An object literal: a new object at a reference not in use. *)
Definition newObject (o : obj) : M loc := λ σ,
  Ok (next_loc σ) (place (next_loc σ) o σ).

(** [jQuery.extend(target, options)] (shallow): every enumerable property of
    [options] whose value is not [undefined] and is not [target] itself is
    assigned to [target].  A primitive [false] has no enumerable property. *)
Definition extend_fields (target : loc) (options o : obj) : obj :=
  filter (λ kv, kv.2 ≠ VUndef ∧ kv.2 ≠ VRef target) options ∪ o.

Definition jQuery_extend (target : loc) (options : state → obj) : M unit :=
  modify (λ σ, place target
    (extend_fields target (options σ) (hobj (heap σ) target)) σ).

(** The enumerable properties of a value, as [jQuery.extend] sees them when the
    value is an entity or the [false] of a failed lookup. *)
Definition props_of (v : value) (σ : state) : obj :=
  match v with
  | VRef l => hobj (heap σ) l
  | _ => ∅
  end.

(** ** The mock server's store *)

(** An entity set the server does not know has no rows. *)
Definition getEntitySetData (sEntitySetName : string) (σ : state) : list loc :=
  default [] (entitySets σ !! sEntitySetName).

Definition put_rows (sEntitySetName : string) (aData : list loc) (σ : state)
    : state :=
  set_entitySets (insert sEntitySetName aData) σ.

Definition setEntitySetData (sEntitySetName : string) (aData : list loc)
    : M unit :=
  modify (put_rows sEntitySetName aData).

Definition getRootUri : M string := gets rootUri.

(** ** Entity store adapter *)

(** [jQuery.grep] keeps the rows on which the callback is truthy; the result
    of [aFound.length > 0 && aFound[0]] is the [false] of the comparison when
    nothing was found.  The callback compares the row's own property, so the
    key name is taken not to be one of [inheritedNames] (the program passes
    "Unit", "Shorttext" or nothing). *)
Definition _getFirstFoundEntity
    (sEntitySetName : string) (sId : value) (sKeyName : option string)
    : M value :=
  aEntities ← gets (getEntitySetData sEntitySetName);
  let key := match sKeyName with
             | Some k => if truthy (VStr k) then k else "Id"
             | None => "Id"
             end in
  aFound ← gets (λ σ, filter (λ oFound, strict_eq (field σ oFound key) sId) aEntities);
  if bool_decide (0 < length aFound)
  then mret (default VUndef (VRef <$> aFound !! 0))
  else mret (VBool false).

Definition _getProduct (sProductId : value) : M value :=
  _getFirstFoundEntity "Products" sProductId None.

Definition _getProductDraft (sDraftId : value) : M value :=
  _getFirstFoundEntity "ProductDrafts" sDraftId None.

Definition _getMainCategory (sMainCategoryId : value) : M value :=
  _getFirstFoundEntity "MainCategories" sMainCategoryId None.

Definition _getSubCategory (sSubCategoryId : value) : M value :=
  _getFirstFoundEntity "SubCategories" sSubCategoryId None.

Definition _getDimensionText (sDimensionUnit : value) : M value :=
  e ← _getFirstFoundEntity "DimensionUnits" sDimensionUnit (Some "Unit");
  getProp e "Shorttext".

Definition _getDimensionUnit (sDimensionText : value) : M value :=
  e ← _getFirstFoundEntity "DimensionUnits" sDimensionText (Some "Shorttext");
  getProp e "Unit".

Definition _getWeightText (sWeightUnit : value) : M value :=
  e ← _getFirstFoundEntity "WeightUnits" sWeightUnit (Some "Unit");
  getProp e "Shorttext".

Definition _getWeightUnit (sWeightText : value) : M value :=
  e ← _getFirstFoundEntity "WeightUnits" sWeightText (Some "Shorttext");
  getProp e "Unit".

(** [aRows.push(v)]: the entity sets hold entity objects; every caller has
    assigned a property to [v] before, which throws unless [v] is one. *)
Definition push (aRows : list loc) (v : value) : M (list loc) :=
  match v with
  | VRef l => mret (aRows ++ [l])
  | _ => throw (TypeError "not an entity object")
  end.

Definition _extendMetadata
    (oEntity : value) (sEntityTypeName sEntitySetName : string) : M value :=
  sRoot ← getRootUri;
  vId ← getProp oEntity "Id";
  let sUri := sRoot +:+ sEntitySetName +:+ "('" +:+ ToString vId +:+ "')" in
  oMeta ← newObject {[ "id" := VStr sUri;
                       "type" := VStr ("EPM_REF_APPS_PROD_MAN_SRV." +:+ sEntityTypeName);
                       "uri" := VStr sUri ]};
  setProp oEntity "__metadata" (VRef oMeta);;
  mret oEntity.

Definition _createProduct (oProduct : value) : M unit :=
  aProducts ← gets (getEntitySetData "Products");
  oProduct ← _extendMetadata oProduct "Product" "Products";
  aProducts ← push aProducts oProduct;
  setEntitySetData "Products" aProducts.

Definition _createProductDraft (oDraft : value) : M unit :=
  aProductDrafts ← gets (getEntitySetData "ProductDrafts");
  sRoot ← getRootUri;
  vId ← getProp oDraft "Id";
  oDeferred ← newObject
    {[ "uri" := VStr (sRoot +:+ "ProductDrafts('" +:+ ToString vId +:+ "')/Images") ]};
  oImages ← newObject {[ "__deferred" := VRef oDeferred ]};
  setProp oDraft "Images" (VRef oImages);;
  oDraft ← _extendMetadata oDraft "ProductDraft" "ProductDrafts";
  aProductDrafts ← push aProductDrafts oDraft;
  setEntitySetData "ProductDrafts" aProductDrafts.

(** [aEntities.map(updateEntity)]: the rows are visited in order, each one
    merged in place when its [Id] is the given one, and the same rows are
    written back. *)
Definition updateEntity
    (sId : value) (oUpdatedProperties : state → obj) (oEntity : loc) : M loc :=
  vId ← getProp (VRef oEntity) "Id";
  if strict_eq vId sId
  then jQuery_extend oEntity oUpdatedProperties;; mret oEntity
  else mret oEntity.

Fixpoint Array_map (f : loc → M loc) (a : list loc) : M (list loc) :=
  match a with
  | [] => mret []
  | x :: a' => y ← f x; ys ← Array_map f a'; mret (y :: ys)
  end.

Definition _updateEntity
    (sEntitySetName : string) (sId : value) (oUpdatedProperties : state → obj)
    : M unit :=
  aEntities ← gets (getEntitySetData sEntitySetName);
  aUpdatedEntities ← Array_map (updateEntity sId oUpdatedProperties) aEntities;
  setEntitySetData sEntitySetName aUpdatedEntities.

Definition _updateProduct (sId : value) (oUpdatedProperties : state → obj)
    : M unit :=
  _updateEntity "Products" sId oUpdatedProperties.

Definition _updateProductDraft (sDraftId : value) (oUpdatedProperties : state → obj)
    : M unit :=
  _updateEntity "ProductDrafts" sDraftId oUpdatedProperties.

Definition _deleteProductDraft (sDraftId : value) : M unit :=
  aProductDrafts ← gets (getEntitySetData "ProductDrafts");
  aProductDrafts ← gets (λ σ,
    filter (λ oDraft, negb (strict_eq (field σ oDraft "Id") sDraftId)) aProductDrafts);
  setEntitySetData "ProductDrafts" aProductDrafts.

(** ** The MockRequests object *)

Definition constructor
    (h : gmap loc obj) (sets : gmap string (list loc)) (sRoot : string)
    (bAttachAfter : bool) : state :=
  State h sets sRoot bAttachAfter 0 [].

Definition _oNewDraftDefaultValues : obj :=
  {[ "CurrencyCode" := VStr "EUR";
     "DimensionUnit" := VStr "MTR";
     "IsDirty" := VBool false;
     "IsNewProduct" := VBool true;
     "QuantityUnit" := VStr "EA";
     "MeasureUnit" := VStr "each";
     "WeightUnit" := VStr "KGM" ]}.

(** The response written with [oXhr.respondJSON(status, {}, JSON.stringify({d: ...}))]. *)
Record response := Response {
  status : Z;
  d : value;
}.

Definition respondJSON (iStatus : Z) (vD : value) : M response :=
  mret (Response iStatus vD).

Definition alert (sText : string) : M unit := modify (add_alert sText).

Definition _getNewId : M value :=
  modify next_id;;
  gets (λ σ, VNum (iLastId σ)).

Definition _buildProductFromDraft (oDraft : value) : M value :=
  let oProduct := oDraft in
  bIsNewProduct ← getProp oDraft "IsNewProduct";
  let bIsNewProduct :=
    if typeof_undefined bIsNewProduct then VBool true else bIsNewProduct in
  deleteProp oProduct "__metadata";;
  deleteProp oProduct "SubCategoryName";;
  deleteProp oProduct "MainCategoryName";;
  deleteProp oProduct "Images";;
  deleteProp oProduct "IsNewProduct";;
  deleteProp oProduct "ExpiresAt";;
  deleteProp oProduct "ProductId";;
  deleteProp oProduct "IsDirty";;
  vDraftId ← getProp oDraft "Id";
  _deleteProductDraft vDraftId;;
  vSubName ← getProp oProduct "SubCategoryName";
  (if negb (truthy vSubName)
   then vSubId ← getProp oProduct "SubCategoryId";
        oSub ← _getSubCategory vSubId;
        vName ← getProp oSub "Name";
        setProp oProduct "SubCategoryName" vName
   else mret tt);;
  vMainName ← getProp oProduct "MainCategoryName";
  (if negb (truthy vMainName)
   then vMainId ← getProp oProduct "MainCategoryId";
        oMain ← _getMainCategory vMainId;
        vName ← getProp oMain "Name";
        setProp oProduct "MainCategoryName" vName
   else mret tt);;
  vWeightUnit ← getProp oDraft "WeightUnit";
  vWeightText ← _getWeightText vWeightUnit;
  setProp oProduct "WeightUnit" vWeightText;;
  vDimensionUnit ← getProp oDraft "DimensionUnit";
  vDimensionText ← _getDimensionText vDimensionUnit;
  setProp oProduct "DimensionUnit" vDimensionText;;
  (if truthy bIsNewProduct
   then setProp oProduct "RatingCount" (VNum 0);;
        setProp oProduct "AverageRating" (VNum 0);;
        setProp oProduct "StockQuantity" (VNum 0);;
        vImageUrl ← getProp oProduct "ImageUrl";
        if negb (truthy vImageUrl)
        then setProp oProduct "ImageUrl" (VStr "")
        else mret tt
   else mret tt);;
  mret oProduct.

Definition _createDraft (sProductId : string) (bNewProduct : bool) : M response :=
  oProduct ← _getProduct (VStr sProductId);
  lDraft ← newObject ∅;
  let oDraft := VRef lDraft in
  jQuery_extend lDraft (props_of oProduct);;
  deleteProp oDraft "HasReviewOfCurrentUser";;
  deleteProp oDraft "RatingCount";;
  deleteProp oDraft "IsFavoriteOfCurrentUser";;
  deleteProp oDraft "StockQuantity";;
  deleteProp oDraft "AverageRating";;
  deleteProp oDraft "__metadata";;
  setProp oDraft "CreatedBy" (VStr "Test User");;
  setProp oDraft "IsNewProduct" (VBool bNewProduct);;
  setProp oDraft "IsDirty" (VBool false);;
  (if bNewProduct
   then vNew ← _getNewId;
        setProp oDraft "Id" (VStr ("EPM-" +:+ ToString vNew));;
        vId ← getProp oDraft "Id";
        setProp oDraft "ProductId" vId
   else setProp oDraft "Id" (VStr sProductId);;
        setProp oDraft "ProductId" (VStr sProductId));;
  vWeightText ← getProp oProduct "WeightUnit";
  vWeightUnit ← _getWeightUnit vWeightText;
  setProp oDraft "WeightUnit" vWeightUnit;;
  vDimensionText ← getProp oProduct "DimensionUnit";
  vDimensionUnit ← _getDimensionUnit vDimensionText;
  setProp oDraft "DimensionUnit" vDimensionUnit;;
  _createProductDraft oDraft;;
  vId ← getProp oDraft "Id";
  oCreated ← _getProductDraft vId;
  respondJSON 200 oCreated.

(** ** The handlers

    The url parameter of a handler is the capture group of its path, a text
    of the request.  [decodeURIComponent] either decodes such a text to a
    string, or throws a URIError: when a [%] is not followed by two
    hexadecimal digits, or when the escaped bytes are not the UTF-8 encoding
    of a character.  A url parameter is given here by what it encodes. *)
Inductive urlParameter :=
  | Encoded (sDecoded : string)
  | Malformed.

Definition decodeURIComponent (sParameter : urlParameter) : M string :=
  match sParameter with
  | Encoded sDecoded => mret sDecoded
  | Malformed => throw (URIError "URI malformed")
  end.

(** [oEvt.getParameters().oEntity] is the entity the server has just created. *)
Definition onAfterDraftCreated (oEntity : loc) : M unit :=
  vProductId ← getProp (VRef oEntity) "ProductId";
  if negb (truthy vProductId)
  then jQuery_extend oEntity (λ _, _oNewDraftDefaultValues)
  else mret tt.

(** [oDraft] is the object read from the response text of the creation
    request, [this._textToJsonObject(oXhr.responseText).d]: a copy of the
    created draft, of which only [ProductId] and [Id] are read. *)
Definition _mockAddProduct_response (oDraft : obj) : M unit :=
  if negb (truthy (oget oDraft "ProductId"))
  then _updateProductDraft (oget oDraft "Id") (λ _, _oNewDraftDefaultValues)
  else mret tt.

Definition sLimitation : string :=
  "Limitation: The upload control is not supported in demo mode with mock data.".

Definition _mockEditProduct_response (sProductId : urlParameter) : M response :=
  alert sLimitation;;
  sDecoded ← decodeURIComponent sProductId;
  _createDraft sDecoded false.

Definition _mockCopyProduct_response (sProductId : urlParameter) : M response :=
  alert sLimitation;;
  sDecoded ← decodeURIComponent sProductId;
  _createDraft sDecoded true.

Definition _mockActivateProduct_response (sDraftIdInUrl : urlParameter)
    : M response :=
  sDraftId ← decodeURIComponent sDraftIdInUrl;
  oProdDraft ← _getProductDraft (VStr sDraftId);
  bIsNewProduct ← getProp oProdDraft "IsNewProduct";
  oProduct ← _buildProductFromDraft oProdDraft;
  (if truthy bIsNewProduct || typeof_undefined bIsNewProduct
   then _createProduct oProduct
   else vId ← getProp oProduct "Id";
        _updateProduct vId (props_of oProduct));;
  vId ← getProp oProduct "Id";
  oRead ← _getProduct vId;
  respondJSON 200 oRead.

(** The mock requests: method, path pattern and handler. *)
Inductive handler :=
  | OnResponse (f : obj → M unit)
  | OnParameter (f : urlParameter → M response).

Record mockRequest := MockRequest {
  method : string;
  path : string;
  handle : handler;
}.

Definition _mockAddProduct : mockRequest :=
  MockRequest "POST" "ProductDrafts" (OnResponse _mockAddProduct_response).

Definition _mockEditProduct : mockRequest :=
  MockRequest "POST" "EditProduct\?ProductId='(.*)'"
    (OnParameter _mockEditProduct_response).

Definition _mockCopyProduct : mockRequest :=
  MockRequest "POST" "CopyProduct\?ProductId='(.*)'"
    (OnParameter _mockCopyProduct_response).

Definition _mockActivateProduct : mockRequest :=
  MockRequest "POST" "ActivateProduct\?ProductDraftId='(.*)'"
    (OnParameter _mockActivateProduct_response).

Definition getRequests (σ : state) : list mockRequest :=
  if hasAttachAfter σ
  then [ _mockActivateProduct; _mockEditProduct; _mockCopyProduct ]
  else [ _mockActivateProduct; _mockAddProduct; _mockEditProduct;
         _mockCopyProduct ].

(** One call into the simulator, and the state it leaves behind (also when
    the handler throws half way). *)
Inductive call :=
  | AfterDraftCreated (oEntity : loc)
  | AddProduct (oDraft : obj)
  | EditProduct (sProductId : urlParameter)
  | CopyProduct (sProductId : urlParameter)
  | ActivateProduct (sDraftId : urlParameter).

Definition run (c : call) (σ : state) : state :=
  match c with
  | AfterDraftCreated oEntity => final (onAfterDraftCreated oEntity σ)
  | AddProduct oDraft => final (_mockAddProduct_response oDraft σ)
  | EditProduct sProductId => final (_mockEditProduct_response sProductId σ)
  | CopyProduct sProductId => final (_mockCopyProduct_response sProductId σ)
  | ActivateProduct sDraftId => final (_mockActivateProduct_response sDraftId σ)
  end.

Definition run_all (cs : list call) (σ : state) : state :=
  foldl (λ σ c, run c σ) σ cs.

(** * The handlers as functions of the state

    What each function of the program leaves behind, written as a function
    from state to state; the lemmas of the next part show that the program
    computes exactly these. *)

(** ** The lookup *)

Definition keyName (sKeyName : option string) : string :=
  match sKeyName with
  | Some k => if truthy (VStr k) then k else "Id"
  | None => "Id"
  end.

Definition matching (σ : state) (key : string) (sId : value) (a : list loc)
    : list loc :=
  filter (λ oFound, strict_eq (field σ oFound key) sId) a.

Definition found (n : string) (sId : value) (key : string) (σ : state) : value :=
  match matching σ key sId (getEntitySetData n σ) with
  | [] => VBool false
  | l :: _ => VRef l
  end.

(** What a lookup can return: an entity, or [false]. *)
Definition entityOrFalse (v : value) : Prop := v = VBool false ∨ ∃ l, v = VRef l.

(** Reading a property of such a result never throws. *)
Definition prop_of (σ : state) (v : value) (k : string) : value :=
  match v with
  | VRef l => field σ l k
  | _ => VUndef
  end.

(** The four unit conversions, as functions of the state. *)
Definition convert (n from to : string) (v : value) (σ : state) : value :=
  prop_of σ (found n v from σ) to.

(** The first row of [a] whose property [key] is [v]; no such row. *)
Definition firstMatch (σ : state) (key : string) (v : value) (a : list loc)
    (l : loc) : Prop :=
  ∃ pre post, a = pre ++ l :: post ∧ field σ l key = v
              ∧ ∀ x, x ∈ pre → field σ x key ≠ v.

Definition noMatch (σ : state) (key : string) (v : value) (a : list loc) : Prop :=
  ∀ x, x ∈ a → field σ x key ≠ v.

(** ** Creating and deleting rows *)

Definition without_drafts (v : value) (σ : state) : state :=
  put_rows "ProductDrafts"
    (filter (λ oDraft, negb (strict_eq (field σ oDraft "Id") v))
            (getEntitySetData "ProductDrafts" σ)) σ.

Definition remove_props (l : loc) (ks : list string) (σ : state) : state :=
  foldl (λ σ k, remove_prop l k σ) σ ks.

Definition extended (l : loc) (src : state → obj) (σ : state) : state :=
  place l (extend_fields l (src σ) (hobj (heap σ) l)) σ.

Definition allocated (o : obj) (σ : state) : state := place (next_loc σ) o σ.

Definition metadata_of (sRoot sEntityTypeName sEntitySetName : string) (vId : value)
    : obj :=
  let sUri := sRoot +:+ sEntitySetName +:+ "('" +:+ ToString vId +:+ "')" in
  {[ "id" := VStr sUri;
     "type" := VStr ("EPM_REF_APPS_PROD_MAN_SRV." +:+ sEntityTypeName);
     "uri" := VStr sUri ]}.

Definition with_metadata (l : loc) (sEntityTypeName sEntitySetName : string)
    (σ : state) : state :=
  store_prop l "__metadata" (VRef (next_loc σ))
    (allocated (metadata_of (rootUri σ) sEntityTypeName sEntitySetName
                  (field σ l "Id")) σ).

Definition with_images (l : loc) (σ : state) : state :=
  let σ1 := allocated
    {[ "uri" := VStr (rootUri σ +:+ "ProductDrafts('" +:+ ToString (field σ l "Id")
                      +:+ "')/Images") ]} σ in
  let σ2 := allocated {[ "__deferred" := VRef (next_loc σ) ]} σ1 in
  store_prop l "Images" (VRef (next_loc σ1)) σ2.

Definition created_product (l : loc) (σ : state) : state :=
  put_rows "Products" (getEntitySetData "Products" σ ++ [l])
    (with_metadata l "Product" "Products" σ).

Definition created_draft (l : loc) (σ : state) : state :=
  put_rows "ProductDrafts" (getEntitySetData "ProductDrafts" σ ++ [l])
    (with_metadata l "ProductDraft" "ProductDrafts" (with_images l σ)).

(** ** Merging into the rows with a given id *)

Fixpoint merged (sId : value) (src : state → obj) (a : list loc) (σ : state)
    : state :=
  match a with
  | [] => σ
  | x :: a' =>
      merged sId src a'
        (if strict_eq (field σ x "Id") sId then extended x src σ else σ)
  end.

Definition updated (n : string) (sId : value) (src : state → obj) (σ : state)
    : state :=
  put_rows n (getEntitySetData n σ) (merged sId src (getEntitySetData n σ) σ).

(** ** From a draft to a product *)

Definition draftOnly : list string :=
  [ "__metadata"; "SubCategoryName"; "MainCategoryName"; "Images";
    "IsNewProduct"; "ExpiresAt"; "ProductId"; "IsDirty" ].

Definition with_name (l : loc) (sName sId sSet : string) (σ : state) : state :=
  store_prop l sName (prop_of σ (found sSet (field σ l sId) "Id" σ) "Name") σ.

Definition with_text (l : loc) (sField sSet : string) (σ : state) : state :=
  store_prop l sField (convert sSet "Unit" "Shorttext" (field σ l sField) σ) σ.

Definition with_new_defaults (l : loc) (σ : state) : state :=
  let σ' := store_prop l "StockQuantity" (VNum 0)
             (store_prop l "AverageRating" (VNum 0)
               (store_prop l "RatingCount" (VNum 0) σ)) in
  if negb (truthy (field σ l "ImageUrl"))
  then store_prop l "ImageUrl" (VStr "") σ'
  else σ'.

Definition isNew (v : value) : bool :=
  truthy (if typeof_undefined v then VBool true else v).

Definition built (l : loc) (σ : state) : state :=
  let σ1 := remove_props l draftOnly σ in
  let σ2 := without_drafts (field σ1 l "Id") σ1 in
  let σ3 := with_name l "SubCategoryName" "SubCategoryId" "SubCategories" σ2 in
  let σ4 := with_name l "MainCategoryName" "MainCategoryId" "MainCategories" σ3 in
  let σ5 := with_text l "WeightUnit" "WeightUnits" σ4 in
  let σ6 := with_text l "DimensionUnit" "DimensionUnits" σ5 in
  if isNew (field σ l "IsNewProduct") then with_new_defaults l σ6 else σ6.

(** ** From a product to a draft *)

Definition productOnly : list string :=
  [ "HasReviewOfCurrentUser"; "RatingCount"; "IsFavoriteOfCurrentUser";
    "StockQuantity"; "AverageRating"; "__metadata" ].

Definition with_unit (l : loc) (vProduct : value) (sField sSet : string)
    (σ : state) : state :=
  store_prop l sField
    (convert sSet "Shorttext" "Unit" (prop_of σ vProduct sField) σ) σ.

Definition stamped (l : loc) (bNewProduct : bool) (σ : state) : state :=
  store_prop l "IsDirty" (VBool false)
    (store_prop l "IsNewProduct" (VBool bNewProduct)
      (store_prop l "CreatedBy" (VStr "Test User") σ)).

Definition newId (σ : state) : string :=
  "EPM-" +:+ ToString (VNum (increment (iLastId σ))).

Definition identified (l : loc) (sProductId : string) (bNewProduct : bool)
    (σ : state) : state :=
  if bNewProduct
  then store_prop l "ProductId" (VStr (newId σ))
         (store_prop l "Id" (VStr (newId σ)) (next_id σ))
  else store_prop l "ProductId" (VStr sProductId)
         (store_prop l "Id" (VStr sProductId) σ).

Definition drafted (sProductId : string) (bNewProduct : bool) (σ : state) : state :=
  let vProduct := found "Products" (VStr sProductId) "Id" σ in
  let l := next_loc σ in
  let σ1 := extended l (props_of vProduct) (allocated ∅ σ) in
  let σ2 := stamped l bNewProduct (remove_props l productOnly σ1) in
  let σ3 := identified l sProductId bNewProduct σ2 in
  let σ4 := with_unit l vProduct "WeightUnit" "WeightUnits" σ3 in
  let σ5 := with_unit l vProduct "DimensionUnit" "DimensionUnits" σ4 in
  created_draft l σ5.

(** ** Activation *)

Definition activated (l : loc) (σ : state) : state :=
  let b := field σ l "IsNewProduct" in
  let σ1 := built l σ in
  if truthy b || typeof_undefined b
  then created_product l σ1
  else updated "Products" (field σ1 l "Id") (props_of (VRef l)) σ1.

(** The uniqueness invariant of the drafts: no two rows with the same [Id]. *)
Definition ids (n : string) (σ : state) : list value :=
  (λ l, field σ l "Id") <$> getEntitySetData n σ.


(** Every row is an object of the heap. *)
Definition rowsAllocated (σ : state) : Prop :=
  ∀ n l, l ∈ getEntitySetData n σ → l ∈ dom (heap σ).

(** ** Example stores *)

(** The six entity sets of the service, with the given rows. *)
Definition entitySetsOf
    (aProducts aProductDrafts aMainCategories aSubCategories aWeightUnits
       aDimensionUnits : list loc) : gmap string (list loc) :=
  {[ "Products" := aProducts;
     "ProductDrafts" := aProductDrafts;
     "MainCategories" := aMainCategories;
     "SubCategories" := aSubCategories;
     "WeightUnits" := aWeightUnits;
     "DimensionUnits" := aDimensionUnits ]}.

(** ** Reference tables *)

(** No two entries of a unit table have the same text and different units. *)
Definition textDeterminesUnit (n : string) (σ : state) : Prop :=
  ∀ e1 e2, e1 ∈ getEntitySetData n σ → e2 ∈ getEntitySetData n σ →
    field σ e1 "Shorttext" = field σ e2 "Shorttext" →
    field σ e1 "Unit" = field σ e2 "Unit".

(** A unit table in which two units have the same text. *)
Definition ambiguousUnits : state :=
  constructor
    {[ 0 := {[ "Unit" := VStr "G"; "Shorttext" := VStr "x" ]};
       1 := {[ "Unit" := VStr "KG"; "Shorttext" := VStr "x" ]} ]}
    (entitySetsOf [] [] [] [] [0; 1] [0; 1])
    "/" true.

(** The unit table of the specification's scenario. *)
Definition kiloUnits : state :=
  constructor
    {[ 0 := {[ "Unit" := VStr "KG"; "Shorttext" := VStr "kg" ]} ]}
    (entitySetsOf [] [] [] [] [0] [0])
    "/" true.

(** Two product rows with the same id. *)
Definition oneProduct : state :=
  constructor
    {[ 0 := {[ "Id" := VStr "P1"; "Name" := VStr "first" ]};
       1 := {[ "Id" := VStr "P1"; "Name" := VStr "second" ]} ]}
    (entitySetsOf [0; 1] [] [] [] [] [])
    "/" true.

(** ** The defaults of a new draft *)

Definition hasDefaults (σ : state) (l : loc) : Prop :=
  field σ l "CurrencyCode" = VStr "EUR"
  ∧ field σ l "DimensionUnit" = VStr "MTR"
  ∧ field σ l "IsDirty" = VBool false
  ∧ field σ l "IsNewProduct" = VBool true
  ∧ field σ l "QuantityUnit" = VStr "EA"
  ∧ field σ l "MeasureUnit" = VStr "each"
  ∧ field σ l "WeightUnit" = VStr "KGM".

(** The state after the "+" button: one draft without [ProductId], created
    by the server's generic path. *)
Definition addedDraft : state :=
  constructor
    {[ 0 := {[ "Id" := VStr "D1"; "Name" := VStr "new"; "WeightUnit" := VStr "LB" ]} ]}
    (entitySetsOf [] [0] [] [] [] [])
    "/" false.

(** The state after the server has created a draft for an existing product. *)
Definition editedDraft : state :=
  constructor
    {[ 0 := {[ "Id" := VStr "D1"; "ProductId" := VStr "P1";
               "WeightUnit" := VStr "LB" ]} ]}
    (entitySetsOf [] [0] [] [] [] [])
    "/" false.

(** The properties [_buildProductFromDraft] may write, and the smaller set it
    writes for a draft that is not a new product. *)
Definition convertedKeys : list string := [ "WeightUnit"; "DimensionUnit" ].

Definition newProductKeys : list string :=
  [ "RatingCount"; "AverageRating"; "StockQuantity"; "ImageUrl" ].

(** The draft of the specification's scenario, and its two categories. *)
Definition snackDraft : state :=
  constructor
    {[ 0 := {[ "Id" := VStr "S1"; "Name" := VStr "Snacks" ]};
       1 := {[ "Id" := VStr "M1"; "Name" := VStr "Food" ]};
       2 := {[ "Id" := VStr "EPM-1"; "ProductId" := VStr "EPM-1";
               "IsNewProduct" := VBool true;
               "SubCategoryId" := VStr "S1"; "MainCategoryId" := VStr "M1" ]} ]}
    (entitySetsOf [] [2] [1] [0] [] [])
    "/" true.

(** The same draft carrying a category name of its own. *)
Definition staleDraft : state :=
  constructor
    {[ 0 := {[ "Id" := VStr "S1"; "Name" := VStr "Snacks" ]};
       1 := {[ "Id" := VStr "M1"; "Name" := VStr "Food" ]};
       2 := {[ "Id" := VStr "EPM-1"; "ProductId" := VStr "EPM-1";
               "IsNewProduct" := VBool true;
               "SubCategoryId" := VStr "S1"; "MainCategoryId" := VStr "M1";
               "SubCategoryName" := VStr "Stale" ]} ]}
    (entitySetsOf [] [2] [1] [0] [] [])
    "/" true.

(** ** Objects in use *)

(** [x] is an object of the heap: a reference the program can hold. *)
Definition live (σ : state) (x : loc) : Prop := x ∈ dom (heap σ).

(** The properties [_createDraft] writes on the draft after the copy. *)
Definition draftKeys : list string :=
  [ "CreatedBy"; "IsNewProduct"; "IsDirty"; "Id"; "ProductId"; "WeightUnit";
    "DimensionUnit"; "Images"; "__metadata" ].

(** A store whose only product already has an id of the generated form,
    in a session that has not generated any id yet. *)
Definition epmProduct : state :=
  constructor
    {[ 0 := {[ "Id" := VStr "EPM-1"; "Name" := VStr "Notebook" ]} ]}
    (entitySetsOf [0] [] [] [] [] [])
    "/" true.

(** A store with one product of another id. *)
Definition htProduct : state :=
  constructor
    {[ 0 := {[ "Id" := VStr "HT-1000"; "Name" := VStr "Notebook" ]} ]}
    (entitySetsOf [0] [] [] [] [] [])
    "/" true.

(** One product and a pending edit of it. *)
Definition pendingEdit : state :=
  constructor
    {[ 0 := {[ "Id" := VStr "HT-1000"; "Name" := VStr "Notebook";
               "Price" := VNum 10; "RatingCount" := VNum 3 ]};
       1 := {[ "Id" := VStr "HT-1000"; "ProductId" := VStr "HT-1000";
               "IsNewProduct" := VBool false; "IsDirty" := VBool true;
               "Name" := VStr "Notebook"; "Price" := VNum 12 ]} ]}
    (entitySetsOf [0] [1] [] [] [] [])
    "/" true.


(** The properties an edit and its activation may change on the product. *)
Definition roundTripKeys : list string :=
  [ "CreatedBy"; "SubCategoryName"; "MainCategoryName"; "WeightUnit";
    "DimensionUnit" ].

(** A product whose category name is not the name in the category table,
    and which carries a creator of its own. *)
Definition renamedCategory : state :=
  constructor
    {[ 0 := {[ "Id" := VStr "HT-1000"; "SubCategoryId" := VStr "S1";
               "SubCategoryName" := VStr "Old"; "CreatedBy" := VStr "Alice";
               "RatingCount" := VNum 3 ]};
       1 := {[ "Id" := VStr "S1"; "Name" := VStr "Snacks" ]} ]}
    (entitySetsOf [0] [] [] [1] [] [])
    "/" true.

(** ** More example stores *)

(** Two drafts of different ids. *)
Definition twoDrafts : state :=
  constructor
    {[ 0 := {[ "Id" := VStr "D1"; "Name" := VStr "one" ]};
       1 := {[ "Id" := VStr "D2"; "Name" := VStr "two" ]} ]}
    (entitySetsOf [] [0; 1] [] [] [] [])
    "/" true.

(** The resource address of the entity [vId] of an entity set. *)
Definition uriOf (sRoot sEntitySetName : string) (vId : value) : string :=
  sRoot +:+ sEntitySetName +:+ "('" +:+ ToString vId +:+ "')".

(** ** The instance fields *)

(** The fields of the MockRequests object besides the store of its server. *)
Definition instanceFields (σ : state) : string * bool * Z * list string :=
  (rootUri σ, hasAttachAfter σ, iLastId σ, alerts σ).

(** A Copy call whose parameter decodes: the calls that reach [_getNewId]. *)
Definition isCopy (c : call) : bool :=
  match c with CopyProduct (Encoded _) => true | _ => false end.

(** The alerts of a call: Edit and Copy alert before they decode. *)
Definition alertsOf (c : call) : list string :=
  match c with
  | EditProduct _ | CopyProduct _ => [sLimitation]
  | _ => []
  end.

(** The edit draft of a product that is no longer there, beside another
    product. *)
Definition orphanEdit : state :=
  constructor
    {[ 0 := {[ "Id" := VStr "P1"; "ProductId" := VStr "P1";
               "IsNewProduct" := VBool false; "Name" := VStr "changed" ]};
       1 := {[ "Id" := VStr "P2"; "Name" := VStr "other" ]} ]}
    (entitySetsOf [1] [0] [] [] [] [])
    "/" true.

(** The number of copies among the calls of a session. *)
Definition copies (cs : list call) : Z := Z.of_nat (length (filter isCopy cs)).

(** The names of the default values of a new draft. *)
Definition defaultKeys : list string :=
  [ "CurrencyCode"; "DimensionUnit"; "IsDirty"; "IsNewProduct"; "QuantityUnit";
    "MeasureUnit"; "WeightUnit" ].

(** No two entries of a unit table have the same unit and different texts. *)
Definition unitDeterminesText (n : string) (σ : state) : Prop :=
  ∀ e1 e2, e1 ∈ getEntitySetData n σ → e2 ∈ getEntitySetData n σ →
    field σ e1 "Unit" = field σ e2 "Unit" →
    field σ e1 "Shorttext" = field σ e2 "Shorttext".

(** A product whose weight unit text is in the table of weight units. *)
Definition kiloProduct : state :=
  constructor
    {[ 0 := {[ "Id" := VStr "HT-1000"; "WeightUnit" := VStr "kg" ]};
       1 := {[ "Unit" := VStr "KG"; "Shorttext" := VStr "kg" ]} ]}
    (entitySetsOf [0] [] [] [] [1] [1])
    "/" true.

Definition isActivate (c : call) : bool :=
  match c with ActivateProduct _ => true | _ => false end.


(** Every reference held by the object [x] is to an object in use. *)
Definition refsInUse (σ : state) (x : loc) : Prop :=
  ∀ k y, field σ x k = VRef y → live σ y.

(** What [jQuery.extend] leaves in a property of the object [x]: the new
    value when that is defined and is not [x] itself, the old value
    otherwise. *)
Definition extendedValue (x : loc) (vNew vOld : value) : value :=
  if decide (vNew ≠ VUndef ∧ vNew ≠ VRef x) then vNew else vOld.

(** * Properties *)

(** ** Reading the state after an elementary update *)

Section heap_lemmas.
Implicit Types (σ : state) (l : loc) (k n : string) (o : obj) (x : value).

Lemma oget_insert o k x k' :
  oget (<[k := x]> o) k' = if decide (k' = k) then x else oget o k'.
Proof.
  unfold oget. case_decide as E.
  - subst. by rewrite lookup_insert_eq.
  - by rewrite lookup_insert_ne.
Qed.

Lemma oget_delete o k k' :
  oget (delete k o) k' = if decide (k' = k) then VUndef else oget o k'.
Proof.
  unfold oget. case_decide as E.
  - subst. by rewrite lookup_delete_eq.
  - by rewrite lookup_delete_ne.
Qed.

Lemma oget_empty k : oget ∅ k = VUndef.
Proof. unfold oget. by rewrite lookup_empty. Qed.

Lemma hobj_place σ l o l' :
  hobj (heap (place l o σ)) l' = if decide (l' = l) then o else hobj (heap σ) l'.
Proof.
  unfold hobj, place, set_heap; simpl. case_decide as E.
  - subst. by rewrite lookup_insert_eq.
  - by rewrite lookup_insert_ne.
Qed.

Lemma hobj_store_prop σ l k x l' :
  hobj (heap (store_prop l k x σ)) l'
  = if decide (l' = l) then <[k := x]> (hobj (heap σ) l) else hobj (heap σ) l'.
Proof. apply hobj_place. Qed.

Lemma hobj_remove_prop σ l k l' :
  hobj (heap (remove_prop l k σ)) l'
  = if decide (l' = l) then delete k (hobj (heap σ) l) else hobj (heap σ) l'.
Proof. apply hobj_place. Qed.

Lemma hobj_put_rows σ n a l : hobj (heap (put_rows n a σ)) l = hobj (heap σ) l.
Proof. done. Qed.

Lemma field_place σ l o l' k :
  field (place l o σ) l' k = if decide (l' = l) then oget o k else field σ l' k.
Proof. unfold field. rewrite hobj_place. by case_decide. Qed.

Lemma field_store_prop σ l k x l' k' :
  field (store_prop l k x σ) l' k'
  = if decide (l' = l ∧ k' = k) then x else field σ l' k'.
Proof.
  unfold field. rewrite hobj_store_prop.
  destruct (decide (l' = l)) as [->|Hl].
  - rewrite oget_insert. destruct (decide (k' = k)) as [->|Hk].
    + by rewrite decide_True.
    + rewrite decide_False; [done|]. by intros [_ ?].
  - rewrite decide_False; [done|]. by intros [? _].
Qed.

Lemma field_remove_prop σ l k l' k' :
  field (remove_prop l k σ) l' k'
  = if decide (l' = l ∧ k' = k) then VUndef else field σ l' k'.
Proof.
  unfold field. rewrite hobj_remove_prop.
  destruct (decide (l' = l)) as [->|Hl].
  - rewrite oget_delete. destruct (decide (k' = k)) as [->|Hk].
    + by rewrite decide_True.
    + rewrite decide_False; [done|]. by intros [_ ?].
  - rewrite decide_False; [done|]. by intros [? _].
Qed.

Lemma field_put_rows σ n a l k : field (put_rows n a σ) l k = field σ l k.
Proof. done. Qed.

Lemma field_add_alert σ s l k : field (add_alert s σ) l k = field σ l k.
Proof. done. Qed.

Lemma field_next_id σ l k : field (next_id σ) l k = field σ l k.
Proof. done. Qed.

Lemma field_store_prop_same σ l k x : field (store_prop l k x σ) l k = x.
Proof. rewrite field_store_prop. by rewrite decide_True. Qed.

Lemma field_store_prop_key_ne σ l k x l' k' :
  k' ≠ k → field (store_prop l k x σ) l' k' = field σ l' k'.
Proof.
  intros. rewrite field_store_prop. rewrite decide_False; [done|]. by intros [_ ?].
Qed.

Lemma field_store_prop_loc_ne σ l k x l' k' :
  l' ≠ l → field (store_prop l k x σ) l' k' = field σ l' k'.
Proof.
  intros. rewrite field_store_prop. rewrite decide_False; [done|]. by intros [? _].
Qed.

Lemma field_remove_prop_same σ l k : field (remove_prop l k σ) l k = VUndef.
Proof. rewrite field_remove_prop. by rewrite decide_True. Qed.

Lemma field_remove_prop_key_ne σ l k l' k' :
  k' ≠ k → field (remove_prop l k σ) l' k' = field σ l' k'.
Proof.
  intros. rewrite field_remove_prop. rewrite decide_False; [done|]. by intros [_ ?].
Qed.

Lemma field_remove_prop_loc_ne σ l k l' k' :
  l' ≠ l → field (remove_prop l k σ) l' k' = field σ l' k'.
Proof.
  intros. rewrite field_remove_prop. rewrite decide_False; [done|]. by intros [? _].
Qed.

Lemma field_place_same σ l o k : field (place l o σ) l k = oget o k.
Proof. rewrite field_place. by rewrite decide_True. Qed.

Lemma field_place_ne σ l o l' k : l' ≠ l → field (place l o σ) l' k = field σ l' k.
Proof. intros. rewrite field_place. by rewrite decide_False. Qed.

Lemma rows_place σ n l o : getEntitySetData n (place l o σ) = getEntitySetData n σ.
Proof. done. Qed.

Lemma rows_store_prop σ n l k x :
  getEntitySetData n (store_prop l k x σ) = getEntitySetData n σ.
Proof. done. Qed.

Lemma rows_remove_prop σ n l k :
  getEntitySetData n (remove_prop l k σ) = getEntitySetData n σ.
Proof. done. Qed.

Lemma rows_add_alert σ n s : getEntitySetData n (add_alert s σ) = getEntitySetData n σ.
Proof. done. Qed.

Lemma rows_next_id σ n : getEntitySetData n (next_id σ) = getEntitySetData n σ.
Proof. done. Qed.

Lemma rows_put_rows_same σ n a : getEntitySetData n (put_rows n a σ) = a.
Proof.
  unfold getEntitySetData, put_rows, set_entitySets; simpl.
  by rewrite lookup_insert_eq.
Qed.

Lemma rows_put_rows_ne σ n n' a :
  n ≠ n' → getEntitySetData n (put_rows n' a σ) = getEntitySetData n σ.
Proof.
  intros. unfold getEntitySetData, put_rows, set_entitySets; simpl.
  by rewrite lookup_insert_ne.
Qed.


(** A reference in use is never handed out again. *)
Lemma next_loc_fresh σ : next_loc σ ∉ dom (heap σ).
Proof. unfold next_loc. apply is_fresh. Qed.

Lemma next_loc_empty σ : hobj (heap σ) (next_loc σ) = ∅.
Proof.
  unfold hobj. pose proof (next_loc_fresh σ) as H.
  apply not_elem_of_dom in H. by rewrite H.
Qed.

Lemma field_next_loc σ k : field σ (next_loc σ) k = VUndef.
Proof. unfold field. by rewrite next_loc_empty, oget_empty. Qed.

Lemma dom_place σ l o : dom (heap (place l o σ)) = {[ l ]} ∪ dom (heap σ).
Proof. unfold place, set_heap; simpl. by rewrite dom_insert_L. Qed.

Lemma dom_store_prop σ l k x :
  dom (heap (store_prop l k x σ)) = {[ l ]} ∪ dom (heap σ).
Proof. apply dom_place. Qed.

Lemma dom_remove_prop σ l k :
  dom (heap (remove_prop l k σ)) = {[ l ]} ∪ dom (heap σ).
Proof. apply dom_place. Qed.

(** An object with a property is at a reference in use. *)
Lemma field_defined_in_dom σ l k : field σ l k ≠ VUndef → l ∈ dom (heap σ).
Proof.
  unfold field, hobj. intros H. apply elem_of_dom.
  destruct (heap σ !! l); [done|]. by rewrite oget_empty in H.
Qed.
End heap_lemmas.

Global Opaque place store_prop remove_prop put_rows next_loc next_id add_alert.

(** Normalise what is read from a state built with the elementary updates. *)
Ltac fsimp :=
  repeat first
    [ rewrite field_put_rows
    | rewrite field_add_alert
    | rewrite field_next_id
    | rewrite field_store_prop_same
    | rewrite field_remove_prop_same
    | rewrite field_place_same
    | rewrite field_store_prop_key_ne by done
    | rewrite field_remove_prop_key_ne by done
    | rewrite field_store_prop_loc_ne by done
    | rewrite field_remove_prop_loc_ne by done
    | rewrite field_place_ne by done
    | rewrite rows_store_prop
    | rewrite rows_remove_prop
    | rewrite rows_place
    | rewrite rows_add_alert
    | rewrite rows_next_id
    | rewrite rows_put_rows_same
    | rewrite rows_put_rows_ne by done ].

(** ** Running the monad *)

Lemma bind_run {A B} (m : M A) (f : A → M B) σ :
  (m ≫= f) σ = match m σ with Ok a σ' => f a σ' | Throw e σ' => Throw e σ' end.
Proof. reflexivity. Qed.

Lemma mret_run {A} (a : A) σ : (mret a : M A) σ = Ok a σ.
Proof. reflexivity. Qed.

Lemma gets_run {A} (f : state → A) σ : gets f σ = Ok (f σ) σ.
Proof. reflexivity. Qed.

Lemma modify_run f σ : modify f σ = Ok tt (f σ).
Proof. reflexivity. Qed.

Lemma decodeURIComponent_run s σ : decodeURIComponent (Encoded s) σ = Ok s σ.
Proof. reflexivity. Qed.

Lemma decodeURIComponent_malformed σ :
  decodeURIComponent Malformed σ = Throw (URIError "URI malformed") σ.
Proof. reflexivity. Qed.

Lemma getProp_ref l k σ : getProp (VRef l) k σ = Ok (field σ l k) σ.
Proof. reflexivity. Qed.

Lemma setProp_ref l k x σ : setProp (VRef l) k x σ = Ok tt (store_prop l k x σ).
Proof. reflexivity. Qed.

Lemma deleteProp_ref l k σ : deleteProp (VRef l) k σ = Ok tt (remove_prop l k σ).
Proof. reflexivity. Qed.

Lemma newObject_run o σ : newObject o σ = Ok (next_loc σ) (place (next_loc σ) o σ).
Proof. reflexivity. Qed.

Lemma jQuery_extend_run l f σ :
  jQuery_extend l f σ
  = Ok tt (place l (extend_fields l (f σ) (hobj (heap σ) l)) σ).
Proof. reflexivity. Qed.

Lemma setEntitySetData_run n a σ : setEntitySetData n a σ = Ok tt (put_rows n a σ).
Proof. reflexivity. Qed.

Lemma getRootUri_run σ : getRootUri σ = Ok (rootUri σ) σ.
Proof. reflexivity. Qed.

Global Opaque gets modify throw getProp setProp deleteProp newObject
  jQuery_extend setEntitySetData getRootUri M_bind M_ret.

(** ** The lookups *)

Lemma _getFirstFoundEntity_run n sId sKeyName σ :
  _getFirstFoundEntity n sId sKeyName σ = Ok (found n sId (keyName sKeyName) σ) σ.
Proof.
  unfold _getFirstFoundEntity, found, matching, keyName.
  rewrite bind_run, gets_run. cbv beta iota zeta.
  rewrite bind_run, gets_run. cbv beta iota.
  destruct (filter _ _) as [|l a]; [done|].
  rewrite bool_decide_true by (simpl; lia). done.
Qed.

Lemma found_entityOrFalse n sId key σ : entityOrFalse (found n sId key σ).
Proof. unfold found. destruct (matching _ _ _ _); [by left|right; eauto]. Qed.

Lemma getProp_entityOrFalse v k σ :
  entityOrFalse v → getProp v k σ = Ok (prop_of σ v k) σ.
Proof. by intros [->|[l ->]]. Qed.

Lemma getProp_found n sId key σ0 k σ :
  getProp (found n sId key σ0) k σ = Ok (prop_of σ (found n sId key σ0) k) σ.
Proof. apply getProp_entityOrFalse, found_entityOrFalse. Qed.

Lemma _getProduct_run v σ : _getProduct v σ = Ok (found "Products" v "Id" σ) σ.
Proof. apply _getFirstFoundEntity_run. Qed.

Lemma _getProductDraft_run v σ :
  _getProductDraft v σ = Ok (found "ProductDrafts" v "Id" σ) σ.
Proof. apply _getFirstFoundEntity_run. Qed.

Lemma _getSubCategory_run v σ :
  _getSubCategory v σ = Ok (found "SubCategories" v "Id" σ) σ.
Proof. apply _getFirstFoundEntity_run. Qed.

Lemma _getMainCategory_run v σ :
  _getMainCategory v σ = Ok (found "MainCategories" v "Id" σ) σ.
Proof. apply _getFirstFoundEntity_run. Qed.

Lemma convert_run n from to v σ :
  truthy (VStr from) = true →
  (e ← _getFirstFoundEntity n v (Some from); getProp e to) σ
  = Ok (convert n from to v σ) σ.
Proof.
  intros H. rewrite bind_run, _getFirstFoundEntity_run. cbv beta iota.
  unfold keyName. rewrite H. apply getProp_found.
Qed.

Lemma _getWeightText_run v σ :
  _getWeightText v σ = Ok (convert "WeightUnits" "Unit" "Shorttext" v σ) σ.
Proof. by apply convert_run. Qed.

Lemma _getWeightUnit_run v σ :
  _getWeightUnit v σ = Ok (convert "WeightUnits" "Shorttext" "Unit" v σ) σ.
Proof. by apply convert_run. Qed.

Lemma _getDimensionText_run v σ :
  _getDimensionText v σ = Ok (convert "DimensionUnits" "Unit" "Shorttext" v σ) σ.
Proof. by apply convert_run. Qed.

Lemma _getDimensionUnit_run v σ :
  _getDimensionUnit v σ = Ok (convert "DimensionUnits" "Shorttext" "Unit" v σ) σ.
Proof. by apply convert_run. Qed.

Lemma _deleteProductDraft_run v σ :
  _deleteProductDraft v σ = Ok tt (without_drafts v σ).
Proof. reflexivity. Qed.

Global Opaque _getFirstFoundEntity _getProduct _getProductDraft _getSubCategory
  _getMainCategory _getWeightText _getWeightUnit _getDimensionText
  _getDimensionUnit _deleteProductDraft.

(** One step of a run: expose the first action and replace it by its result. *)
Ltac run_step :=
  first
    [ rewrite bind_run
    | rewrite mret_run
    | rewrite gets_run
    | rewrite modify_run
    | rewrite decodeURIComponent_run
    | rewrite getProp_ref
    | rewrite setProp_ref
    | rewrite deleteProp_ref
    | rewrite newObject_run
    | rewrite jQuery_extend_run
    | rewrite setEntitySetData_run
    | rewrite getRootUri_run
    | rewrite getProp_found
    | rewrite _getProduct_run
    | rewrite _getProductDraft_run
    | rewrite _getSubCategory_run
    | rewrite _getMainCategory_run
    | rewrite _getWeightText_run
    | rewrite _getWeightUnit_run
    | rewrite _getDimensionText_run
    | rewrite _getDimensionUnit_run
    | rewrite _deleteProductDraft_run ];
  cbv beta iota zeta.

Ltac run := repeat run_step.

(** ** The program computes the state functions *)

Lemma push_ref a l σ : push a (VRef l) σ = Ok (a ++ [l]) σ.
Proof. reflexivity. Qed.

Lemma _extendMetadata_run l t n σ :
  _extendMetadata (VRef l) t n σ = Ok (VRef l) (with_metadata l t n σ).
Proof. unfold _extendMetadata. run. reflexivity. Qed.

Global Opaque _extendMetadata push.

Lemma _createProduct_run l σ :
  _createProduct (VRef l) σ = Ok tt (created_product l σ).
Proof.
  unfold _createProduct. run. rewrite _extendMetadata_run. run.
  rewrite push_ref. run. reflexivity.
Qed.

Lemma _createProductDraft_run l σ :
  _createProductDraft (VRef l) σ = Ok tt (created_draft l σ).
Proof.
  unfold _createProductDraft. run. rewrite _extendMetadata_run. run.
  rewrite push_ref. run. reflexivity.
Qed.

Lemma Array_map_run sId src a σ :
  Array_map (updateEntity sId src) a σ = Ok a (merged sId src a σ).
Proof.
  revert σ. induction a as [|x a IH]; intros σ; simpl.
  - reflexivity.
  - run. unfold updateEntity at 1. run.
    destruct (strict_eq _ _); run; rewrite IH; run; reflexivity.
Qed.

Lemma _updateEntity_run n sId src σ :
  _updateEntity n sId src σ = Ok tt (updated n sId src σ).
Proof. unfold _updateEntity. run. rewrite Array_map_run. run. reflexivity. Qed.

Lemma _getNewId_run σ :
  _getNewId σ = Ok (VNum (increment (iLastId σ))) (next_id σ).
Proof. reflexivity. Qed.

Global Opaque _createProduct _createProductDraft _updateEntity _getNewId.


Section stage_lemmas.
Implicit Types (σ : state) (l : loc) (k n : string) (o : obj) (x v : value).

Lemma field_without_drafts v σ l k : field (without_drafts v σ) l k = field σ l k.
Proof. unfold without_drafts. by fsimp. Qed.

Lemma field_remove_props σ l ks l' k :
  field (remove_props l ks σ) l' k
  = if decide (l' = l ∧ k ∈ ks) then VUndef else field σ l' k.
Proof.
  unfold remove_props. revert σ. induction ks as [|k0 ks IH]; intros σ; simpl.
  - rewrite decide_False; [done|]. intros [_ H]. by apply elem_of_nil in H.
  - rewrite IH, field_remove_prop.
    destruct (decide (l' = l ∧ k ∈ ks)) as [[-> Hin]|Hn].
    + rewrite decide_True; [done|]. split; [done|]. by right.
    + destruct (decide (l' = l ∧ k = k0)) as [[-> ->]|Hn'].
      * rewrite decide_True; [done|]. split; [done|]. by left.
      * rewrite decide_False; [done|]. intros [-> Hin].
        apply elem_of_cons in Hin as [->|Hin]; [by apply Hn'|by apply Hn].
Qed.

Lemma field_remove_props_in σ l ks k :
  k ∈ ks → field (remove_props l ks σ) l k = VUndef.
Proof. intros. rewrite field_remove_props. by rewrite decide_True. Qed.

Lemma field_remove_props_notin σ l ks l' k :
  k ∉ ks → field (remove_props l ks σ) l' k = field σ l' k.
Proof.
  intros. rewrite field_remove_props. rewrite decide_False; [done|]. by intros [_ ?].
Qed.

Lemma field_remove_props_loc_ne σ l ks l' k :
  l' ≠ l → field (remove_props l ks σ) l' k = field σ l' k.
Proof.
  intros. rewrite field_remove_props. rewrite decide_False; [done|]. by intros [? _].
Qed.
End stage_lemmas.

Lemma _buildProductFromDraft_run l σ :
  _buildProductFromDraft (VRef l) σ = Ok (VRef l) (built l σ).
Proof.
  unfold _buildProductFromDraft.
  run.
  change (remove_prop l "IsDirty" _) with (remove_props l draftOnly σ).
  set (σ1 := remove_props l draftOnly σ).
  set (σ2 := without_drafts _ σ1).
  assert (field σ2 l "SubCategoryName" = VUndef) as ->.
  { subst σ2 σ1. rewrite field_without_drafts. apply field_remove_props_in. set_solver. }
  cbn [negb truthy]. run.
  change (store_prop l "SubCategoryName" _ σ2)
    with (with_name l "SubCategoryName" "SubCategoryId" "SubCategories" σ2).
  set (σ3 := with_name _ _ _ _ σ2).
  assert (field σ3 l "MainCategoryName" = VUndef) as ->.
  { subst σ3 σ2 σ1. unfold with_name. fsimp. rewrite field_without_drafts.
    apply field_remove_props_in. set_solver. }
  cbn [negb truthy]. run.
  change (store_prop l "MainCategoryName" _ σ3)
    with (with_name l "MainCategoryName" "MainCategoryId" "MainCategories" σ3).
  set (σ4 := with_name _ _ _ _ σ3).
  change (store_prop l "WeightUnit" _ σ4) with (with_text l "WeightUnit" "WeightUnits" σ4).
  set (σ5 := with_text _ _ _ σ4).
  change (store_prop l "DimensionUnit" _ σ5)
    with (with_text l "DimensionUnit" "DimensionUnits" σ5).
  set (σ6 := with_text _ _ _ σ5).
  fold (isNew (field σ l "IsNewProduct")).
  unfold built. fold σ1. cbv zeta. fold σ2 σ3 σ4 σ5 σ6.
  destruct (isNew _); run; [|done].
  unfold with_new_defaults. cbv zeta. fsimp.
  destruct (negb _); run; done.
Qed.

Lemma iLastId_next_id σ : iLastId (next_id σ) = increment (iLastId σ).
Proof. reflexivity. Qed.

Lemma respondJSON_run i v σ : respondJSON i v σ = Ok (Response i v) σ.
Proof. reflexivity. Qed.

Global Opaque respondJSON.

Lemma _createDraft_run sProductId bNewProduct σ :
  _createDraft sProductId bNewProduct σ
  = let σ' := drafted sProductId bNewProduct σ in
    Ok (Response 200 (found "ProductDrafts" (field σ' (next_loc σ) "Id") "Id" σ')) σ'.
Proof.
  unfold _createDraft. run.
  set (l := next_loc σ).
  set (vP := found "Products" (VStr sProductId) "Id" σ).
  change (place l ∅ σ) with (allocated ∅ σ).
  change (place l _ (allocated ∅ σ)) with (extended l (props_of vP) (allocated ∅ σ)).
  set (σ1 := extended l _ _).
  change (remove_prop l "__metadata" _) with (remove_props l productOnly σ1).
  change (store_prop l "IsDirty" _ _)
    with (stamped l bNewProduct (remove_props l productOnly σ1)).
  set (σ2 := stamped l _ _).
  match goal with
  | |- context [ (if bNewProduct then ?a else ?b) σ2 ] =>
      assert ((if bNewProduct then a else b) σ2
              = Ok tt (identified l sProductId bNewProduct σ2)) as ->
  end.
  { unfold identified, newId. destruct bNewProduct; run.
    - rewrite _getNewId_run. run. fsimp. done.
    - done. }
  cbv beta iota.
  set (σ3 := identified _ _ _ _).
  rewrite ?bind_run, (getProp_entityOrFalse vP) by apply found_entityOrFalse.
  cbv beta iota. run.
  change (store_prop l "WeightUnit" _ σ3) with (with_unit l vP "WeightUnit" "WeightUnits" σ3).
  set (σ4 := with_unit _ _ _ _ σ3).
  rewrite ?bind_run, (getProp_entityOrFalse vP) by apply found_entityOrFalse.
  cbv beta iota. run.
  change (store_prop l "DimensionUnit" _ σ4)
    with (with_unit l vP "DimensionUnit" "DimensionUnits" σ4).
  set (σ5 := with_unit _ _ _ _ σ4).
  rewrite _createProductDraft_run. run. rewrite respondJSON_run.
  reflexivity.
Qed.

Lemma getProp_bool b k σ : getProp (VBool b) k σ = Ok VUndef σ.
Proof. reflexivity. Qed.

Lemma deleteProp_bool b k σ : deleteProp (VBool b) k σ = Ok tt σ.
Proof. reflexivity. Qed.

Lemma setProp_bool b k x σ :
  setProp (VBool b) k x σ
  = Throw (TypeError "Cannot create property on primitive") σ.
Proof. reflexivity. Qed.

Lemma _buildProductFromDraft_false σ :
  _buildProductFromDraft (VBool false) σ
  = Throw (TypeError "Cannot create property on primitive")
      (without_drafts VUndef σ).
Proof.
  unfold _buildProductFromDraft.
  repeat first [ rewrite getProp_bool | rewrite deleteProp_bool | run_step ].
  cbn [negb truthy].
  repeat first [ rewrite getProp_bool | rewrite deleteProp_bool
               | rewrite setProp_bool | run_step ].
  done.
Qed.

Global Opaque _buildProductFromDraft _createDraft.

Lemma _updateProduct_run sId src σ :
  _updateProduct sId src σ = Ok tt (updated "Products" sId src σ).
Proof. apply _updateEntity_run. Qed.

Lemma _updateProductDraft_run sId src σ :
  _updateProductDraft sId src σ = Ok tt (updated "ProductDrafts" sId src σ).
Proof. apply _updateEntity_run. Qed.

Global Opaque _updateProduct _updateProductDraft.

Lemma _mockActivateProduct_run sDraftId l σ :
  found "ProductDrafts" (VStr sDraftId) "Id" σ = VRef l →
  _mockActivateProduct_response (Encoded sDraftId) σ
  = let σ' := activated l σ in
    Ok (Response 200 (found "Products" (field σ' l "Id") "Id" σ')) σ'.
Proof.
  intros Hl. unfold _mockActivateProduct_response. run. rewrite Hl. run.
  rewrite _buildProductFromDraft_run. run.
  unfold activated. cbv zeta.
  destruct (truthy _ || typeof_undefined _); run.
  - rewrite _createProduct_run. run. rewrite respondJSON_run. done.
  - rewrite _updateProduct_run. run. rewrite respondJSON_run. done.
Qed.

Lemma _mockActivateProduct_missing sDraftId σ :
  found "ProductDrafts" (VStr sDraftId) "Id" σ = VBool false →
  _mockActivateProduct_response (Encoded sDraftId) σ
  = Throw (TypeError "Cannot create property on primitive")
      (without_drafts VUndef σ).
Proof.
  intros Hl. unfold _mockActivateProduct_response. run. rewrite Hl.
  rewrite _buildProductFromDraft_false. done.
Qed.

(** ** Merging objects *)

Section merge_lemmas.
Implicit Types (σ : state) (l x : loc) (k n : string) (o s : obj) (v : value).

Lemma oget_extend_fields l s o k :
  oget (extend_fields l s o) k
  = if decide (oget s k ≠ VUndef ∧ oget s k ≠ VRef l) then oget s k else oget o k.
Proof.
  destruct (decide _) as [H|H]; unfold extend_fields, oget in *;
    rewrite lookup_union, map_lookup_filter;
    destruct (s !! k) as [v|]; simpl in *.
  - rewrite option_guard_True by done. simpl. by destruct (o !! k).
  - by destruct H.
  - rewrite option_guard_False by done. simpl. by destruct (o !! k).
  - by destruct (o !! k).
Qed.

Lemma extend_fields_idemp l s o :
  extend_fields l s (extend_fields l s o) = extend_fields l s o.
Proof.
  unfold extend_fields. apply map_eq. intros i. rewrite !lookup_union.
  by destruct (filter _ s !! i), (o !! i).
Qed.

Lemma extend_fields_self l s : extend_fields l s s = s.
Proof.
  unfold extend_fields. apply map_eq. intros i. rewrite lookup_union.
  destruct (filter _ s !! i) as [v|] eqn:E.
  - apply map_lookup_filter_Some in E as [-> _]. done.
  - by destruct (s !! i).
Qed.

Lemma extend_fields_empty l o : extend_fields l ∅ o = o.
Proof.
  unfold extend_fields. rewrite map_filter_empty. apply (left_id_L ∅ (∪)).
Qed.

Lemma hobj_extended l src σ x :
  hobj (heap (extended l src σ)) x
  = if decide (x = l) then extend_fields l (src σ) (hobj (heap σ) l)
    else hobj (heap σ) x.
Proof. unfold extended. apply hobj_place. Qed.

Lemma field_extended l src σ x k :
  field (extended l src σ) x k
  = if decide (x = l) then oget (extend_fields l (src σ) (hobj (heap σ) l)) k
    else field σ x k.
Proof. unfold field. rewrite hobj_extended. by destruct (decide _). Qed.

Lemma rows_extended l src σ n :
  getEntitySetData n (extended l src σ) = getEntitySetData n σ.
Proof. reflexivity. Qed.

Lemma rows_merged sId src a σ n :
  getEntitySetData n (merged sId src a σ) = getEntitySetData n σ.
Proof.
  revert σ. induction a as [|y a IH]; intros σ; simpl; [done|].
  rewrite IH. by destruct (strict_eq _ _).
Qed.

(** Merging [s] into the rows of [a] with the given id: each of them is
    merged once, whatever the number of times it occurs, and nothing else
    changes.  The source must not change under the merge: it is a constant,
    or one object (merging an object into itself changes nothing). *)
Lemma hobj_merged sId src s a σ x :
  (∀ σ y, src σ = s → src (extended y src σ) = s) →
  src σ = s →
  hobj (heap (merged sId src a σ)) x
  = if decide (x ∈ a ∧ field σ x "Id" = sId)
    then extend_fields x s (hobj (heap σ) x)
    else hobj (heap σ) x.
Proof.
  intros Hstable. revert σ. induction a as [|y a IH]; intros σ Hs; cbn [merged].
  { rewrite decide_False; [done|]. intros [H _]. by apply elem_of_nil in H. }
  unfold strict_eq. destruct (bool_decide_reflect (field σ y "Id" = sId)) as [Hy|Hy].
  - rewrite IH by (by apply Hstable).
    unfold field. rewrite !hobj_extended, Hs.
    destruct (decide (x = y)) as [->|Hxy].
    + rewrite (decide_True (P := y ∈ y :: a ∧ _)) by (split; [left|done]).
      destruct (decide _); [apply extend_fields_idemp|done].
    + destruct (decide (x ∈ a ∧ _)) as [[? ?]|Hn].
      * rewrite decide_True; [done|]. split; [by right|done].
      * rewrite decide_False; [done|]. intros [Hin ?]. apply Hn. split; [|done].
        apply elem_of_cons in Hin as [?|?]; done.
  - rewrite IH by done.
    destruct (decide (x ∈ a ∧ _)) as [[? ?]|Hn].
    + rewrite decide_True; [done|]. split; [by right|done].
    + rewrite decide_False; [done|]. intros [Hin ?].
      apply elem_of_cons in Hin as [->|?]; [done|]. by apply Hn.
Qed.

Lemma stable_const s σ y :
  (λ _ : state, s) σ = s → (λ _ : state, s) (extended y (λ _, s) σ) = s.
Proof. done. Qed.

Lemma stable_object l s σ y :
  props_of (VRef l) σ = s →
  props_of (VRef l) (extended y (props_of (VRef l)) σ) = s.
Proof.
  simpl. intros Hs. rewrite hobj_extended. simpl. rewrite Hs.
  destruct (decide (l = y)) as [->|]; [|done]. rewrite Hs. apply extend_fields_self.
Qed.

Lemma hobj_updated n sId src s σ x :
  (∀ σ y, src σ = s → src (extended y src σ) = s) →
  src σ = s →
  hobj (heap (updated n sId src σ)) x
  = if decide (x ∈ getEntitySetData n σ ∧ field σ x "Id" = sId)
    then extend_fields x s (hobj (heap σ) x)
    else hobj (heap σ) x.
Proof. intros. unfold updated. rewrite hobj_put_rows. by apply hobj_merged. Qed.

Lemma rows_updated n sId src σ n' :
  getEntitySetData n' (updated n sId src σ) = getEntitySetData n' σ.
Proof.
  unfold updated. destruct (decide (n' = n)) as [->|].
  - by rewrite rows_put_rows_same.
  - rewrite rows_put_rows_ne by done. apply rows_merged.
Qed.
End merge_lemmas.

(** ** The lookup returns the first matching row, or [false] *)

Section lookup_lemmas.
Implicit Types (σ : state) (l x : loc) (k n key : string) (v : value)
  (a : list loc).

Lemma strict_eq_true v w : strict_eq v w ↔ v = w.
Proof. unfold strict_eq. apply bool_decide_spec. Qed.

Lemma matching_noMatch σ key v a : noMatch σ key v a → matching σ key v a = [].
Proof.
  unfold matching, noMatch. induction a as [|y a IH]; intros H; [done|].
  rewrite filter_cons_False.
  - apply IH. intros x Hx. apply H. by right.
  - rewrite strict_eq_true. apply H. by left.
Qed.

Lemma matching_firstMatch σ key v a l :
  firstMatch σ key v a l → ∃ rest, matching σ key v a = l :: rest.
Proof.
  intros (pre & post & -> & Hl & Hpre). unfold matching.
  rewrite filter_app. fold (matching σ key v pre).
  rewrite (matching_noMatch σ key v pre) by done.
  rewrite filter_cons_True by (by apply strict_eq_true). eauto.
Qed.

Lemma matching_inv σ key v a l rest :
  matching σ key v a = l :: rest → firstMatch σ key v a l.
Proof.
  unfold matching, firstMatch. induction a as [|y a IH]; intros H; [done|].
  destruct (decide (field σ y key = v)) as [Hy|Hy].
  - rewrite filter_cons_True in H by (by apply strict_eq_true).
    injection H as -> _. exists [], a. split; [done|]. split; [done|].
    intros x Hx. by apply elem_of_nil in Hx.
  - rewrite filter_cons_False in H by (by rewrite strict_eq_true).
    destruct (IH H) as (pre & post & -> & Hl & Hpre).
    exists (y :: pre), post. split; [done|]. split; [done|].
    intros x Hx. apply elem_of_cons in Hx as [->|?]; [done|]. by apply Hpre.
Qed.

Lemma found_firstMatch n v key σ l :
  firstMatch σ key v (getEntitySetData n σ) l → found n v key σ = VRef l.
Proof.
  intros H. unfold found. by destruct (matching_firstMatch _ _ _ _ _ H) as [rest ->].
Qed.

Lemma found_noMatch n v key σ :
  noMatch σ key v (getEntitySetData n σ) → found n v key σ = VBool false.
Proof. intros H. unfold found. by rewrite matching_noMatch. Qed.

Lemma found_ref_inv n v key σ l :
  found n v key σ = VRef l → firstMatch σ key v (getEntitySetData n σ) l.
Proof.
  unfold found. destruct (matching _ _ _ _) as [|y rest] eqn:E; [done|].
  intros [= ->]. by eapply matching_inv.
Qed.

Lemma found_false_inv n v key σ :
  found n v key σ = VBool false → noMatch σ key v (getEntitySetData n σ).
Proof.
  unfold found, matching, noMatch.
  destruct (filter _ _) as [|y rest] eqn:E; [|done]. intros _ x Hx Hv.
  assert (x ∈ filter (λ o, strict_eq (field σ o key) v) (getEntitySetData n σ)) as Hin.
  { apply list_elem_of_filter. split; [by apply strict_eq_true|done]. }
  rewrite E in Hin. by apply elem_of_nil in Hin.
Qed.

Lemma firstMatch_elem σ key v a l : firstMatch σ key v a l → l ∈ a ∧ field σ l key = v.
Proof.
  intros (pre & post & -> & Hl & _). split; [|done].
  apply elem_of_app. right. by left.
Qed.

(** A row that matches makes the lookup succeed (on the first such row). *)
Lemma found_some n v key σ x :
  x ∈ getEntitySetData n σ → field σ x key = v →
  ∃ l, found n v key σ = VRef l.
Proof.
  intros Hx Hv. destruct (found_entityOrFalse n v key σ) as [Hf|[l Hl]]; [|eauto].
  by destruct (found_false_inv _ _ _ _ Hf x Hx).
Qed.

Lemma matching_ext key v σ σ' a :
  (∀ x, x ∈ a → field σ' x key = field σ x key) →
  matching σ' key v a = matching σ key v a.
Proof.
  unfold matching. induction a as [|y a IH]; intros Hf; [done|].
  rewrite !filter_cons, Hf by (by left).
  rewrite IH; [done|]. intros x Hx. apply Hf. by right.
Qed.

(** The lookup reads the rows of one entity set and one property of them. *)
Lemma found_ext n v key σ σ' :
  getEntitySetData n σ' = getEntitySetData n σ →
  (∀ x, x ∈ getEntitySetData n σ → field σ' x key = field σ x key) →
  found n v key σ' = found n v key σ.
Proof.
  intros Hrows Hf. unfold found. rewrite Hrows.
  by rewrite (matching_ext key v σ σ').
Qed.

Lemma convert_ext n from to v σ σ' :
  getEntitySetData n σ' = getEntitySetData n σ →
  (∀ x k, x ∈ getEntitySetData n σ → field σ' x k = field σ x k) →
  convert n from to v σ' = convert n from to v σ.
Proof.
  intros Hrows Hf. unfold convert. rewrite (found_ext n v from σ σ') by auto.
  destruct (found n v from σ) as [| | | | |l] eqn:E; try done.
  apply found_ref_inv, firstMatch_elem in E as [Hl _]. simpl. by apply Hf.
Qed.
End lookup_lemmas.

(** ** Unit conversions *)

Lemma convert_roundtrip n σ e :
  e ∈ getEntitySetData n σ → textDeterminesUnit n σ →
  convert n "Shorttext" "Unit" (convert n "Unit" "Shorttext" (field σ e "Unit") σ) σ
  = field σ e "Unit".
Proof.
  intros He Hdet. unfold convert at 2.
  destruct (found_some n (field σ e "Unit") "Unit" σ e He eq_refl) as [e1 H1].
  rewrite H1. cbn [prop_of].
  apply found_ref_inv, firstMatch_elem in H1 as [Hin1 Hu1].
  unfold convert.
  destruct (found_some n (field σ e1 "Shorttext") "Shorttext" σ e1 Hin1 eq_refl)
    as [e2 H2].
  rewrite H2. cbn [prop_of].
  apply found_ref_inv, firstMatch_elem in H2 as [Hin2 Ht2].
  rewrite <-Hu1. by apply Hdet.
Qed.

(** C4 (amended): for every entry of the WeightUnits table and of the
    DimensionUnits table, converting its unit code to the display text and
    the text back to a code gives the original code, provided the table
    has no two entries with the same Shorttext and different Unit. *)
Theorem C4_unit_text_unit σ e :
  (e ∈ getEntitySetData "WeightUnits" σ → textDeterminesUnit "WeightUnits" σ →
   (t ← _getWeightText (field σ e "Unit"); _getWeightUnit t) σ
   = Ok (field σ e "Unit") σ)
  ∧ (e ∈ getEntitySetData "DimensionUnits" σ →
     textDeterminesUnit "DimensionUnits" σ →
     (t ← _getDimensionText (field σ e "Unit"); _getDimensionUnit t) σ
     = Ok (field σ e "Unit") σ).
Proof.
  split; intros He Hdet; run; by rewrite convert_roundtrip.
Qed.

Lemma C4_unit_text_unit_witness :
  (0 ∈ getEntitySetData "WeightUnits" kiloUnits
   ∧ textDeterminesUnit "WeightUnits" kiloUnits)
  ∧ (t ← _getWeightText (field kiloUnits 0 "Unit"); _getWeightUnit t) kiloUnits
    = Ok (VStr "KG") kiloUnits.
Proof.
  assert (0 ∈ getEntitySetData "WeightUnits" kiloUnits) as Hin by (by left).
  assert (textDeterminesUnit "WeightUnits" kiloUnits) as Hdet.
  { intros e1 e2 H1 H2 _. apply list_elem_of_singleton in H1, H2. by subst. }
  split; [done|].
  exact (proj1 (C4_unit_text_unit kiloUnits 0) Hin Hdet).
Defined.

(** C4 as stated fails on a table in which two units share a text: the
    entry KG is shown as "x", and "x" is read back as G. *)
Lemma C4_counterexample :
  1 ∈ getEntitySetData "WeightUnits" ambiguousUnits
  ∧ field ambiguousUnits 1 "Unit" = VStr "KG"
  ∧ _getWeightText (VStr "KG") ambiguousUnits = Ok (VStr "x") ambiguousUnits
  ∧ _getWeightUnit (VStr "x") ambiguousUnits = Ok (VStr "G") ambiguousUnits
  ∧ ¬ (∀ σ e, e ∈ getEntitySetData "WeightUnits" σ →
         (t ← _getWeightText (field σ e "Unit"); _getWeightUnit t) σ
         = Ok (field σ e "Unit") σ).
Proof.
  assert (1 ∈ getEntitySetData "WeightUnits" ambiguousUnits) as Hin
    by (right; left).
  split; [done|]. split; [done|]. split; [by vm_compute|]. split; [by vm_compute|].
  intros H. specialize (H ambiguousUnits 1 Hin). vm_compute in H. discriminate H.
Qed.

(** ** Lookups: first match or [false], and nothing guards the miss *)

(** C8: for a key name that is not inherited from the prototype, the lookup
    returns the first row whose key property is the given value when there
    is one, and the value [false] (no exception) when there is none; reading
    a property of that [false] (again one that is not inherited) gives
    [undefined], and the handlers go on without a guard: Edit and Copy of a
    missing product still create a draft, Activate of a missing draft fails
    only when it assigns a property to [false]. *)
Theorem C8_lookup_first_or_false n v sKeyName σ :
  keyName sKeyName ∉ inheritedNames →
  ∃ r, _getFirstFoundEntity n v sKeyName σ = Ok r σ
     ∧ (∀ l, firstMatch σ (keyName sKeyName) v (getEntitySetData n σ) l →
             r = VRef l)
     ∧ (noMatch σ (keyName sKeyName) v (getEntitySetData n σ) →
        r = VBool false
        ∧ (∀ k, k ∉ inheritedNames → getProp r k σ = Ok VUndef σ)
        ∧ (∀ to, to ∉ inheritedNames →
             (e ← _getFirstFoundEntity n v sKeyName; getProp e to) σ
             = Ok VUndef σ))
     ∧ (∀ sProductId bNewProduct,
          _getProduct (VStr sProductId) σ = Ok (VBool false) σ →
          ∃ r' σ', _createDraft sProductId bNewProduct σ = Ok r' σ'
            ∧ getEntitySetData "ProductDrafts" σ'
              = getEntitySetData "ProductDrafts" σ ++ [next_loc σ])
     ∧ (∀ sDraftId,
          _getProductDraft (VStr sDraftId) σ = Ok (VBool false) σ →
          ∃ σ', _mockActivateProduct_response (Encoded sDraftId) σ
                = Throw (TypeError "Cannot create property on primitive") σ').
Proof.
  intros _. exists (found n v (keyName sKeyName) σ).
  split; [apply _getFirstFoundEntity_run|].
  split; [intros l Hl; by apply found_firstMatch|].
  split.
  { intros Hno. rewrite (found_noMatch _ _ _ _ Hno).
    split; [done|]. split; [intros k _; apply getProp_bool|].
    intros to _. rewrite bind_run, _getFirstFoundEntity_run.
    rewrite (found_noMatch _ _ _ _ Hno). apply getProp_bool. }
  split.
  - intros sProductId bNewProduct _. rewrite _createDraft_run. cbv zeta.
    eexists _, _. split; [reflexivity|].
    unfold drafted, created_draft. cbv zeta. rewrite rows_put_rows_same.
    f_equal. by destruct bNewProduct.
  - intros sDraftId H. rewrite _getProductDraft_run in H.
    injection H as H. eexists. by apply _mockActivateProduct_missing.
Qed.

Lemma C8_lookup_first_or_false_witness :
  ((keyName None ∉ inheritedNames)
   ∧ firstMatch oneProduct "Id" (VStr "P1")
       (getEntitySetData "Products" oneProduct) 0)
  ∧ _getFirstFoundEntity "Products" (VStr "P1") None oneProduct
    = Ok (VRef 0) oneProduct.
Proof.
  assert (keyName None ∉ inheritedNames) as Hkey.
  { intros H. unfold inheritedNames in H.
    repeat (apply elem_of_cons in H as [H|H]; [discriminate H|]).
    by apply elem_of_nil in H. }
  assert (firstMatch oneProduct "Id" (VStr "P1")
            (getEntitySetData "Products" oneProduct) 0) as Hfirst.
  { exists [], [1]. split; [done|]. split; [done|].
    intros x Hx. by apply elem_of_nil in Hx. }
  split; [done|].
  destruct (C8_lookup_first_or_false "Products" (VStr "P1") None oneProduct Hkey)
    as (r & Hrun & Hfound & _).
  rewrite Hrun. f_equal. by apply Hfound.
Defined.

(** ** Defaulting of added drafts *)

Lemma onAfterDraftCreated_run l σ :
  onAfterDraftCreated l σ
  = Ok tt (if negb (truthy (field σ l "ProductId"))
           then extended l (λ _, _oNewDraftDefaultValues) σ else σ).
Proof. unfold onAfterDraftCreated. run. by destruct (negb _); run. Qed.

Lemma _mockAddProduct_response_run oDraft σ :
  _mockAddProduct_response oDraft σ
  = Ok tt (if negb (truthy (oget oDraft "ProductId"))
           then updated "ProductDrafts" (oget oDraft "Id")
                  (λ _, _oNewDraftDefaultValues) σ
           else σ).
Proof.
  unfold _mockAddProduct_response.
  destruct (negb _); [by rewrite _updateProductDraft_run|by run].
Qed.

Lemma extend_defaults_hasDefaults σ σ' l :
  hobj (heap σ') l = extend_fields l _oNewDraftDefaultValues (hobj (heap σ) l) →
  hasDefaults σ' l.
Proof.
  intros H. unfold hasDefaults, field. rewrite H.
  repeat split; rewrite oget_extend_fields; by vm_compute.
Qed.

Lemma falsy_absent_or_empty v : v = VUndef ∨ v = VStr "" → negb (truthy v) = true.
Proof. by intros [->| ->]. Qed.

Lemma truthy_nonempty s : s ≠ "" → truthy (VStr s) = true.
Proof. intros H. simpl. by apply negb_true_iff, String.eqb_neq. Qed.

(** C3: a draft created by the generic path without a [ProductId] (absent
    or empty) has exactly the configured defaults after the defaulting step,
    be it the after-creation hook or, on older servers, the extra mock
    request, which finds the draft in ProductDrafts by the [Id] of the
    response. *)
Theorem C3_added_draft_gets_defaults σ l oDraft :
  (field σ l "ProductId" = VUndef ∨ field σ l "ProductId" = VStr "" →
   ∃ σ', onAfterDraftCreated l σ = Ok tt σ' ∧ hasDefaults σ' l)
  ∧ (l ∈ getEntitySetData "ProductDrafts" σ →
     oget oDraft "Id" = field σ l "Id" →
     oget oDraft "ProductId" = VUndef ∨ oget oDraft "ProductId" = VStr "" →
     ∃ σ', _mockAddProduct_response oDraft σ = Ok tt σ' ∧ hasDefaults σ' l).
Proof.
  split.
  - intros H. rewrite onAfterDraftCreated_run, falsy_absent_or_empty by done.
    eexists. split; [done|]. apply (extend_defaults_hasDefaults σ).
    rewrite hobj_extended. by rewrite decide_True.
  - intros Hin Hid H.
    rewrite _mockAddProduct_response_run, falsy_absent_or_empty by done.
    eexists. split; [done|]. apply (extend_defaults_hasDefaults σ).
    rewrite (hobj_updated _ _ _ _oNewDraftDefaultValues) by done.
    by rewrite decide_True.
Qed.

Lemma C3_added_draft_gets_defaults_witness :
  (field addedDraft 0 "ProductId" = VUndef ∨ field addedDraft 0 "ProductId" = VStr "")
  ∧ ∃ σ', onAfterDraftCreated 0 addedDraft = Ok tt σ' ∧ hasDefaults σ' 0.
Proof.
  assert (field addedDraft 0 "ProductId" = VUndef
          ∨ field addedDraft 0 "ProductId" = VStr "") as H by (by left).
  split; [done|].
  exact (proj1 (C3_added_draft_gets_defaults addedDraft 0 ∅) H).
Defined.

(** C9: when the created draft has a non-empty [ProductId] the defaulting
    step changes nothing at all: the state after it is the state before. *)
Theorem C9_draft_with_product_untouched σ l oDraft s :
  s ≠ "" →
  (field σ l "ProductId" = VStr s → onAfterDraftCreated l σ = Ok tt σ)
  ∧ (oget oDraft "ProductId" = VStr s →
     _mockAddProduct_response oDraft σ = Ok tt σ).
Proof.
  intros Hs. split; intros H.
  - by rewrite onAfterDraftCreated_run, H, truthy_nonempty.
  - by rewrite _mockAddProduct_response_run, H, truthy_nonempty.
Qed.

Lemma C9_draft_with_product_untouched_witness :
  "P1" ≠ "" ∧ field editedDraft 0 "ProductId" = VStr "P1"
  ∧ onAfterDraftCreated 0 editedDraft = Ok tt editedDraft.
Proof.
  assert ("P1" ≠ "") as Hs by done.
  assert (field editedDraft 0 "ProductId" = VStr "P1") as H by done.
  split; [done|]. split; [done|].
  exact (proj1 (C9_draft_with_product_untouched editedDraft 0 ∅ "P1" Hs) H).
Defined.

(** ** The state after [_buildProductFromDraft] *)

(** Turn [k ∉ [a; b; ...]] into the inequalities [k ≠ a], [k ≠ b], ... *)
Ltac split_notin :=
  repeat match goal with
  | H : _ ∉ _ ++ _ |- _ => apply not_elem_of_app in H as [? ?]
  | H : _ ∉ _ :: _ |- _ => apply not_elem_of_cons in H as [? ?]
  | H : _ ∉ [] |- _ => clear H
  end.

(** Prove [k ∉ [a; b; ...]] for distinct literals. *)
Ltac solve_notin :=
  repeat first [ apply not_elem_of_app; split
               | apply not_elem_of_cons; split; [done|]
               | apply not_elem_of_nil ].

Section built_lemmas.
Implicit Types (σ : state) (l x : loc) (k n : string) (v : value).

Lemma field_with_name_same σ l s i t :
  field (with_name l s i t σ) l s
  = prop_of σ (found t (field σ l i) "Id" σ) "Name".
Proof. unfold with_name. by fsimp. Qed.

Lemma field_with_name_key_ne σ l s i t x k :
  k ≠ s → field (with_name l s i t σ) x k = field σ x k.
Proof. intros. unfold with_name. by fsimp. Qed.

Lemma field_with_name_loc_ne σ l s i t x k :
  x ≠ l → field (with_name l s i t σ) x k = field σ x k.
Proof. intros. unfold with_name. by fsimp. Qed.

Lemma field_with_text_same σ l f t :
  field (with_text l f t σ) l f = convert t "Unit" "Shorttext" (field σ l f) σ.
Proof. unfold with_text. by fsimp. Qed.

Lemma field_with_text_key_ne σ l f t x k :
  k ≠ f → field (with_text l f t σ) x k = field σ x k.
Proof. intros. unfold with_text. by fsimp. Qed.

Lemma field_with_text_loc_ne σ l f t x k :
  x ≠ l → field (with_text l f t σ) x k = field σ x k.
Proof. intros. unfold with_text. by fsimp. Qed.

Lemma field_with_new_defaults_keeps σ l x k :
  k ∉ newProductKeys → field (with_new_defaults l σ) x k = field σ x k.
Proof.
  unfold newProductKeys, with_new_defaults. intros. split_notin.
  cbv zeta. destruct (negb _); by fsimp.
Qed.

Lemma field_with_new_defaults_loc_ne σ l x k :
  x ≠ l → field (with_new_defaults l σ) x k = field σ x k.
Proof.
  intros. unfold with_new_defaults. cbv zeta. destruct (negb _); by fsimp.
Qed.

Lemma field_with_new_defaults_zero σ l k :
  k ∈ [ "RatingCount"; "AverageRating"; "StockQuantity" ] →
  field (with_new_defaults l σ) l k = VNum 0.
Proof.
  intros Hk. unfold with_new_defaults. cbv zeta.
  repeat (apply elem_of_cons in Hk as [->|Hk]); [| | |by apply elem_of_nil in Hk];
    destruct (negb _); by fsimp.
Qed.

Lemma field_with_new_defaults_ImageUrl σ l :
  field (with_new_defaults l σ) l "ImageUrl"
  = if truthy (field σ l "ImageUrl") then field σ l "ImageUrl" else VStr "".
Proof.
  unfold with_new_defaults. cbv zeta.
  destruct (truthy _); cbn [negb]; by fsimp.
Qed.

Lemma rows_without_drafts v σ n :
  getEntitySetData n (without_drafts v σ)
  = if decide (n = "ProductDrafts")
    then filter (λ x, field σ x "Id" ≠ v) (getEntitySetData n σ)
    else getEntitySetData n σ.
Proof.
  unfold without_drafts. destruct (decide _) as [->|].
  - rewrite rows_put_rows_same. apply list_filter_iff. intros x.
    unfold strict_eq. rewrite negb_True, bool_decide_spec. done.
  - by rewrite rows_put_rows_ne.
Qed.

Lemma rows_remove_props σ l ks n :
  getEntitySetData n (remove_props l ks σ) = getEntitySetData n σ.
Proof.
  unfold remove_props. revert σ. induction ks as [|k ks IH]; intros σ; [done|].
  simpl. by rewrite IH.
Qed.

Lemma rows_built l σ n :
  getEntitySetData n (built l σ)
  = if decide (n = "ProductDrafts")
    then filter (λ x, field σ x "Id" ≠ field σ l "Id") (getEntitySetData n σ)
    else getEntitySetData n σ.
Proof.
  transitivity (getEntitySetData n
    (without_drafts (field (remove_props l draftOnly σ) l "Id")
       (remove_props l draftOnly σ))).
  { unfold built, with_new_defaults. cbv zeta.
    destruct (isNew _); [destruct (negb _)|]; reflexivity. }
  rewrite rows_without_drafts, rows_remove_props.
  destruct (decide _); [|done].
  apply list_filter_iff. intros x.
  by rewrite !field_remove_props_notin by (unfold draftOnly; solve_notin).
Qed.
End built_lemmas.

Ltac bsimp :=
  repeat first
    [ rewrite field_without_drafts
    | rewrite field_with_name_same
    | rewrite field_with_text_same
    | rewrite field_with_name_key_ne by done
    | rewrite field_with_text_key_ne by done
    | rewrite field_with_name_loc_ne by done
    | rewrite field_with_text_loc_ne by done
    | rewrite field_with_new_defaults_loc_ne by done
    | rewrite field_with_new_defaults_keeps by (unfold newProductKeys; solve_notin)
    | rewrite field_remove_props_loc_ne by done
    | rewrite field_remove_props_notin by (unfold draftOnly; solve_notin)
    | rewrite field_remove_props_in by (unfold draftOnly; set_solver) ].

Section built_fields.
Implicit Types (σ : state) (l x : loc) (k n : string) (v : value).

Lemma field_built_loc_ne l σ x k : x ≠ l → field (built l σ) x k = field σ x k.
Proof.
  intros. unfold built. cbv zeta. by destruct (isNew _); bsimp.
Qed.

Lemma field_built_keeps_old l σ x k :
  isNew (field σ l "IsNewProduct") = false →
  k ∉ draftOnly ++ convertedKeys →
  field (built l σ) x k = field σ x k.
Proof.
  intros Hnew Hk. unfold built. cbv zeta. rewrite Hnew.
  apply not_elem_of_app in Hk as [Hd Hc]. unfold convertedKeys in Hc.
  pose proof Hd as Hd'. unfold draftOnly in Hd'.
  split_notin. by bsimp.
Qed.

Lemma field_built_keeps l σ x k :
  k ∉ draftOnly ++ convertedKeys ++ newProductKeys →
  field (built l σ) x k = field σ x k.
Proof.
  intros Hk. unfold built. cbv zeta.
  apply not_elem_of_app in Hk as [Hd Hk].
  apply not_elem_of_app in Hk as [Hc Hn]. unfold convertedKeys in Hc.
  pose proof Hd as Hd'. unfold draftOnly in Hd'.
  split_notin.
  by destruct (isNew _); [rewrite field_with_new_defaults_keeps by done|];
    bsimp.
Qed.

Lemma field_built_deleted l σ k :
  k ∈ [ "__metadata"; "Images"; "IsNewProduct"; "ExpiresAt"; "ProductId";
        "IsDirty" ] →
  field (built l σ) l k = VUndef.
Proof.
  intros Hk. unfold built. cbv zeta.
  repeat (apply elem_of_cons in Hk as [->|Hk]); [..|by apply elem_of_nil in Hk];
    by destruct (isNew _); bsimp.
Qed.

Lemma field_built_zero l σ k :
  isNew (field σ l "IsNewProduct") = true →
  k ∈ [ "RatingCount"; "AverageRating"; "StockQuantity" ] →
  field (built l σ) l k = VNum 0.
Proof.
  intros Hnew Hk. unfold built. cbv zeta. rewrite Hnew.
  by apply field_with_new_defaults_zero.
Qed.

(** The category names are looked up whatever the draft said: the draft's
    own names have been deleted before the test that guards the lookup. *)
Lemma field_built_SubCategoryName l σ :
  field (built l σ) l "SubCategoryName"
  = prop_of σ (found "SubCategories" (field σ l "SubCategoryId") "Id" σ) "Name".
Proof.
  transitivity (field (with_name l "SubCategoryName" "SubCategoryId" "SubCategories"
    (without_drafts (field (remove_props l draftOnly σ) l "Id")
       (remove_props l draftOnly σ))) l "SubCategoryName").
  { unfold built. cbv zeta. by destruct (isNew _); bsimp. }
  rewrite field_with_name_same. bsimp.
  set (σ2 := without_drafts _ _).
  assert (∀ x k, k ∉ draftOnly → field σ2 x k = field σ x k) as Hkeep.
  { intros x k Hk. subst σ2. rewrite field_without_drafts.
    by apply field_remove_props_notin. }
  assert (found "SubCategories" (field σ l "SubCategoryId") "Id" σ2
          = found "SubCategories" (field σ l "SubCategoryId") "Id" σ) as ->.
  { apply found_ext.
    - subst σ2. rewrite rows_without_drafts, rows_remove_props.
      by rewrite decide_False.
    - intros x _. apply Hkeep. unfold draftOnly. solve_notin. }
  destruct (found _ _ _ σ); try done. simpl. apply Hkeep.
  unfold draftOnly. solve_notin.
Qed.

Lemma field_built_MainCategoryName l σ :
  field (built l σ) l "MainCategoryName"
  = prop_of σ (found "MainCategories" (field σ l "MainCategoryId") "Id" σ) "Name".
Proof.
  transitivity (field (with_name l "MainCategoryName" "MainCategoryId" "MainCategories"
    (with_name l "SubCategoryName" "SubCategoryId" "SubCategories"
      (without_drafts (field (remove_props l draftOnly σ) l "Id")
         (remove_props l draftOnly σ)))) l "MainCategoryName").
  { unfold built. cbv zeta. by destruct (isNew _); bsimp. }
  rewrite field_with_name_same. bsimp.
  set (σ3 := with_name _ _ _ _ _).
  assert (∀ x k, k ∉ "SubCategoryName" :: draftOnly → field σ3 x k = field σ x k)
    as Hkeep.
  { intros x k Hk. apply not_elem_of_cons in Hk as [? ?]. subst σ3.
    rewrite field_with_name_key_ne, field_without_drafts by done.
    by apply field_remove_props_notin. }
  assert (found "MainCategories" (field σ l "MainCategoryId") "Id" σ3
          = found "MainCategories" (field σ l "MainCategoryId") "Id" σ) as ->.
  { apply found_ext.
    - subst σ3. unfold with_name. fsimp.
      rewrite rows_without_drafts, rows_remove_props. by rewrite decide_False.
    - intros x _. apply Hkeep. unfold draftOnly. solve_notin. }
  destruct (found _ _ _ σ); try done. simpl. apply Hkeep.
  unfold draftOnly. solve_notin.
Qed.
End built_fields.

(** ** The product built from a draft *)

(** C7 (amended): activating the draft of the scenario gives a product with
    SubCategoryName "Snacks", MainCategoryName "Food" and zero RatingCount,
    AverageRating and StockQuantity.  In general the two category names of
    the product are always the names found for the draft's category ids
    (the draft's own names are deleted first), and the three aggregates are
    set to zero exactly when the draft is a new product (IsNewProduct truthy
    or undefined); otherwise they stay as they are on the draft. *)
Theorem C7_product_from_draft :
  (∃ σ', _mockActivateProduct_response (Encoded "EPM-1") snackDraft
         = Ok (Response 200 (VRef 2)) σ'
     ∧ getEntitySetData "Products" σ' = [2]
     ∧ field σ' 2 "SubCategoryName" = VStr "Snacks"
     ∧ field σ' 2 "MainCategoryName" = VStr "Food"
     ∧ field σ' 2 "RatingCount" = VNum 0
     ∧ field σ' 2 "AverageRating" = VNum 0
     ∧ field σ' 2 "StockQuantity" = VNum 0)
  ∧ ∀ σ l, ∃ σ', _buildProductFromDraft (VRef l) σ = Ok (VRef l) σ'
     ∧ field σ' l "SubCategoryName"
       = prop_of σ (found "SubCategories" (field σ l "SubCategoryId") "Id" σ) "Name"
     ∧ field σ' l "MainCategoryName"
       = prop_of σ (found "MainCategories" (field σ l "MainCategoryId") "Id" σ) "Name"
     ∧ (isNew (field σ l "IsNewProduct") = true →
        field σ' l "RatingCount" = VNum 0
        ∧ field σ' l "AverageRating" = VNum 0
        ∧ field σ' l "StockQuantity" = VNum 0)
     ∧ (isNew (field σ l "IsNewProduct") = false →
        field σ' l "RatingCount" = field σ l "RatingCount"
        ∧ field σ' l "AverageRating" = field σ l "AverageRating"
        ∧ field σ' l "StockQuantity" = field σ l "StockQuantity").
Proof.
  split.
  - exists (final (_mockActivateProduct_response (Encoded "EPM-1") snackDraft)).
    repeat (split; [vm_compute; reflexivity|]). vm_compute; reflexivity.
  - intros σ l. exists (built l σ).
    split; [apply _buildProductFromDraft_run|].
    split; [apply field_built_SubCategoryName|].
    split; [apply field_built_MainCategoryName|].
    split; intros Hnew.
    + repeat split; apply field_built_zero; try done; set_solver.
    + repeat split; apply field_built_keeps_old; try done;
        unfold draftOnly, convertedKeys; solve_notin.
Qed.

Lemma C7_product_from_draft_witness :
  isNew (field snackDraft 2 "IsNewProduct") = true
  ∧ ∃ σ', _buildProductFromDraft (VRef 2) snackDraft = Ok (VRef 2) σ'
      ∧ field σ' 2 "RatingCount" = VNum 0.
Proof.
  assert (isNew (field snackDraft 2 "IsNewProduct") = true) as Hnew
    by (vm_compute; reflexivity).
  split; [done|].
  destruct (proj2 C7_product_from_draft snackDraft 2)
    as (σ' & Hrun & _ & _ & Hzero & _).
  exists σ'. split; [done|]. by apply Hzero.
Defined.

(** C7 as stated fails where it says the names are derived only when the
    draft has none: a draft that names its category "Stale" becomes a product
    named after the category table. *)
Lemma C7_counterexample :
  field staleDraft 2 "SubCategoryName" = VStr "Stale"
  ∧ ∃ σ', _buildProductFromDraft (VRef 2) staleDraft = Ok (VRef 2) σ'
      ∧ field σ' 2 "SubCategoryName" = VStr "Snacks".
Proof.
  split; [vm_compute; reflexivity|]. exists (built 2 staleDraft).
  split; [apply _buildProductFromDraft_run|vm_compute; reflexivity].
Qed.

(** ** Objects in use stay in use *)

Create HintDb live discriminated.

Section live_lemmas.
Implicit Types (σ : state) (l x : loc) (k n : string) (v : value) (o : obj).

Lemma live_place σ l o x : live σ x → live (place l o σ) x.
Proof. unfold live. rewrite dom_place. set_solver. Qed.

Lemma live_place_same σ l o : live (place l o σ) l.
Proof. unfold live. rewrite dom_place. set_solver. Qed.

Lemma live_store_prop σ l k v x : live σ x → live (store_prop l k v σ) x.
Proof. unfold live. rewrite dom_store_prop. set_solver. Qed.

Lemma live_store_prop_same σ l k v : live (store_prop l k v σ) l.
Proof. unfold live. rewrite dom_store_prop. set_solver. Qed.

Lemma live_remove_prop σ l k x : live σ x → live (remove_prop l k σ) x.
Proof. unfold live. rewrite dom_remove_prop. set_solver. Qed.

Lemma live_put_rows σ n a x : live σ x → live (put_rows n a σ) x.
Proof. done. Qed.

Lemma live_next_id σ x : live σ x → live (next_id σ) x.
Proof. done. Qed.

Lemma live_add_alert σ s x : live σ x → live (add_alert s σ) x.
Proof. done. Qed.

Lemma live_allocated σ o x : live σ x → live (allocated o σ) x.
Proof. apply live_place. Qed.

Lemma live_allocated_new σ o : live (allocated o σ) (next_loc σ).
Proof. apply live_place_same. Qed.

Lemma live_extended σ l src x : live σ x → live (extended l src σ) x.
Proof. apply live_place. Qed.

Lemma live_remove_props σ l ks x : live σ x → live (remove_props l ks σ) x.
Proof.
  unfold remove_props. revert σ. induction ks as [|k ks IH]; intros σ H; [done|].
  simpl. by apply IH, live_remove_prop.
Qed.

Lemma live_not_next σ x : live σ x → x ≠ next_loc σ.
Proof. intros H ->. by apply (next_loc_fresh σ). Qed.

Lemma live_field σ x k : field σ x k ≠ VUndef → live σ x.
Proof. apply field_defined_in_dom. Qed.
End live_lemmas.

Global Hint Resolve live_place live_place_same live_store_prop
  live_store_prop_same live_remove_prop live_put_rows live_next_id
  live_add_alert live_allocated live_allocated_new live_extended
  live_remove_props : live.

Section live_stages.
Implicit Types (σ : state) (l x : loc) (k n : string) (v : value) (o : obj).

Lemma live_without_drafts σ v x : live σ x → live (without_drafts v σ) x.
Proof. unfold without_drafts. auto with live. Qed.

Lemma live_with_name σ l s i t x : live σ x → live (with_name l s i t σ) x.
Proof. unfold with_name. auto with live. Qed.

Lemma live_with_text σ l f t x : live σ x → live (with_text l f t σ) x.
Proof. unfold with_text. auto with live. Qed.

Lemma live_with_unit σ l vP f t x : live σ x → live (with_unit l vP f t σ) x.
Proof. unfold with_unit. auto with live. Qed.

Lemma live_with_new_defaults σ l x : live σ x → live (with_new_defaults l σ) x.
Proof.
  unfold with_new_defaults. cbv zeta. destruct (negb _); auto 6 with live.
Qed.

Lemma live_stamped σ l b x : live σ x → live (stamped l b σ) x.
Proof. unfold stamped. auto with live. Qed.

Lemma live_identified σ l s b x : live σ x → live (identified l s b σ) x.
Proof. unfold identified. destruct b; auto with live. Qed.

Lemma live_with_metadata σ l t n x : live σ x → live (with_metadata l t n σ) x.
Proof. unfold with_metadata. auto with live. Qed.

Lemma live_with_images σ l x : live σ x → live (with_images l σ) x.
Proof. unfold with_images. cbv zeta. auto with live. Qed.

Lemma live_created_product σ l x : live σ x → live (created_product l σ) x.
Proof. unfold created_product. auto using live_with_metadata with live. Qed.

Lemma live_created_draft σ l x : live σ x → live (created_draft l σ) x.
Proof.
  unfold created_draft. auto using live_with_metadata, live_with_images with live.
Qed.

Lemma live_built σ l x : live σ x → live (built l σ) x.
Proof.
  intros. unfold built. cbv zeta.
  destruct (isNew _);
    auto 10 using live_with_new_defaults, live_with_text, live_with_name,
      live_without_drafts with live.
Qed.

Lemma live_merged sId src a σ x : live σ x → live (merged sId src a σ) x.
Proof.
  revert σ. induction a as [|y a IH]; intros σ H; [done|].
  simpl. apply IH. destruct (strict_eq _ _); auto with live.
Qed.

Lemma live_updated n sId src σ x : live σ x → live (updated n sId src σ) x.
Proof. unfold updated. auto using live_merged with live. Qed.
End live_stages.

Global Hint Resolve live_without_drafts live_with_name live_with_text
  live_with_unit live_with_new_defaults live_stamped live_identified
  live_with_metadata live_with_images live_created_product live_created_draft
  live_built live_merged live_updated : live.

(** ** The state after creating rows *)

Section created_lemmas.
Implicit Types (σ : state) (l x : loc) (k n : string) (v : value) (o : obj).

Lemma field_allocated_old σ o x k :
  live σ x → field (allocated o σ) x k = field σ x k.
Proof.
  intros H. apply live_not_next in H. unfold allocated. by fsimp.
Qed.

Lemma field_with_metadata_old σ l t n x k :
  live σ x → x ≠ l ∨ k ≠ "__metadata" →
  field (with_metadata l t n σ) x k = field σ x k.
Proof.
  intros H Hne. unfold with_metadata.
  destruct Hne; fsimp; by apply field_allocated_old.
Qed.

Lemma field_with_metadata_same σ l t n :
  field (with_metadata l t n σ) l "__metadata" = VRef (next_loc σ).
Proof. unfold with_metadata. by fsimp. Qed.

Lemma field_with_images_old σ l x k :
  live σ x → x ≠ l ∨ k ≠ "Images" →
  field (with_images l σ) x k = field σ x k.
Proof.
  intros H Hne. unfold with_images. cbv zeta.
  destruct Hne; fsimp; rewrite !field_allocated_old; auto with live.
Qed.

Lemma field_created_draft_old σ l x k :
  live σ x → x ≠ l ∨ k ∉ [ "Images"; "__metadata" ] →
  field (created_draft l σ) x k = field σ x k.
Proof.
  intros H Hne. unfold created_draft. fsimp.
  rewrite field_with_metadata_old, field_with_images_old; auto with live.
  - destruct Hne as [?|Hk]; [by left|right]. by split_notin.
  - destruct Hne as [?|Hk]; [by left|right]. by split_notin.
Qed.

Lemma field_created_product_old σ l x k :
  live σ x → x ≠ l ∨ k ≠ "__metadata" →
  field (created_product l σ) x k = field σ x k.
Proof.
  intros H Hne. unfold created_product. fsimp.
  by apply field_with_metadata_old.
Qed.

Lemma rows_created_product σ l n :
  getEntitySetData n (created_product l σ)
  = if decide (n = "Products") then getEntitySetData n σ ++ [l]
    else getEntitySetData n σ.
Proof.
  unfold created_product. destruct (decide _) as [->|].
  - by rewrite rows_put_rows_same.
  - by rewrite rows_put_rows_ne.
Qed.

Lemma rows_created_draft σ l n :
  getEntitySetData n (created_draft l σ)
  = if decide (n = "ProductDrafts") then getEntitySetData n σ ++ [l]
    else getEntitySetData n σ.
Proof.
  unfold created_draft. destruct (decide _) as [->|].
  - by rewrite rows_put_rows_same.
  - by rewrite rows_put_rows_ne.
Qed.

Lemma field_with_unit_key_ne σ l vP f t x k :
  k ≠ f → field (with_unit l vP f t σ) x k = field σ x k.
Proof. intros. unfold with_unit. by fsimp. Qed.

Lemma field_with_unit_loc_ne σ l vP f t x k :
  x ≠ l → field (with_unit l vP f t σ) x k = field σ x k.
Proof. intros. unfold with_unit. by fsimp. Qed.

Lemma field_stamped_keeps σ l b x k :
  x ≠ l ∨ k ∉ [ "CreatedBy"; "IsNewProduct"; "IsDirty" ] →
  field (stamped l b σ) x k = field σ x k.
Proof.
  intros [?|Hk]; unfold stamped; [|split_notin]; by fsimp.
Qed.

Lemma field_identified_keeps σ l s b x k :
  x ≠ l ∨ k ∉ [ "Id"; "ProductId" ] →
  field (identified l s b σ) x k = field σ x k.
Proof.
  intros [?|Hk]; unfold identified; [|split_notin]; destruct b; by fsimp.
Qed.

Lemma field_identified_Id σ l s b :
  field (identified l s b σ) l "Id" = VStr (if b then newId σ else s).
Proof. unfold identified. destruct b; by fsimp. Qed.

Lemma field_identified_ProductId σ l s b :
  field (identified l s b σ) l "ProductId" = VStr (if b then newId σ else s).
Proof. unfold identified. destruct b; by fsimp. Qed.
End created_lemmas.


(** ** The state after [_createDraft] *)

Ltac dsimp :=
  repeat first
    [ rewrite field_with_unit_key_ne by done
    | rewrite field_with_unit_loc_ne by done
    | rewrite field_identified_keeps by (first [by left | right; solve_notin])
    | rewrite field_stamped_keeps by (first [by left | right; solve_notin])
    | rewrite field_remove_props_loc_ne by done
    | rewrite field_remove_props_notin by (unfold productOnly; solve_notin) ].

Section drafted_lemmas.
Implicit Types (σ : state) (l x : loc) (k n : string) (v : value) (o : obj).

Lemma rows_drafted sProductId b σ n :
  getEntitySetData n (drafted sProductId b σ)
  = if decide (n = "ProductDrafts")
    then getEntitySetData n σ ++ [next_loc σ]
    else getEntitySetData n σ.
Proof.
  unfold drafted. cbv zeta. rewrite rows_created_draft.
  by destruct (decide _), b.
Qed.

Lemma iLastId_drafted sProductId b σ :
  iLastId (drafted sProductId b σ)
  = if b then increment (iLastId σ) else iLastId σ.
Proof. by destruct b. Qed.

Lemma live_drafted sProductId b σ x : live σ x → live (drafted sProductId b σ) x.
Proof. intros. unfold drafted. cbv zeta. auto 12 with live. Qed.

Lemma live_drafted_new sProductId b σ :
  live (drafted sProductId b σ) (next_loc σ).
Proof. unfold drafted. cbv zeta. auto 12 with live. Qed.

Lemma field_drafted_old sProductId b σ x k :
  live σ x → field (drafted sProductId b σ) x k = field σ x k.
Proof.
  intros H. pose proof (live_not_next _ _ H) as Hne.
  unfold drafted. cbv zeta.
  rewrite field_created_draft_old; [|auto 12 with live|by left].
  dsimp. rewrite field_extended, decide_False by done.
  by apply field_allocated_old.
Qed.

Lemma field_drafted_Id sProductId b σ :
  field (drafted sProductId b σ) (next_loc σ) "Id"
  = VStr (if b then newId σ else sProductId).
Proof.
  unfold drafted. cbv zeta.
  rewrite field_created_draft_old; [|auto 12 with live|right; solve_notin].
  dsimp. by rewrite field_identified_Id.
Qed.

Lemma field_drafted_ProductId sProductId b σ :
  field (drafted sProductId b σ) (next_loc σ) "ProductId"
  = VStr (if b then newId σ else sProductId).
Proof.
  unfold drafted. cbv zeta.
  rewrite field_created_draft_old; [|auto 12 with live|right; solve_notin].
  dsimp. by rewrite field_identified_ProductId.
Qed.

Lemma field_drafted_IsNewProduct sProductId b σ :
  field (drafted sProductId b σ) (next_loc σ) "IsNewProduct" = VBool b.
Proof.
  unfold drafted. cbv zeta.
  rewrite field_created_draft_old; [|auto 12 with live|right; solve_notin].
  dsimp. unfold stamped. by fsimp.
Qed.

Lemma field_drafted_productOnly sProductId b σ k :
  k ∈ [ "HasReviewOfCurrentUser"; "RatingCount"; "IsFavoriteOfCurrentUser";
        "StockQuantity"; "AverageRating" ] →
  field (drafted sProductId b σ) (next_loc σ) k = VUndef.
Proof.
  intros Hk. unfold drafted. cbv zeta.
  repeat (apply elem_of_cons in Hk as [->|Hk]); [..|by apply elem_of_nil in Hk];
    (rewrite field_created_draft_old; [|auto 12 with live|right; solve_notin]);
    dsimp; apply field_remove_props_in; unfold productOnly; set_solver.
Qed.

(** Every other property of the draft is the product's, or is missing. *)
Lemma field_drafted_copied sProductId b σ k :
  k ∉ productOnly ++ draftKeys →
  let vProduct := found "Products" (VStr sProductId) "Id" σ in
  field (drafted sProductId b σ) (next_loc σ) k = VUndef
  ∨ field (drafted sProductId b σ) (next_loc σ) k = prop_of σ vProduct k.
Proof.
  intros Hk vProduct. apply not_elem_of_app in Hk as [Hp Hd].
  pose proof Hd as Hd'. unfold draftKeys in Hd'. split_notin.
  unfold drafted. cbv zeta. fold vProduct.
  rewrite field_created_draft_old; [|auto 12 with live|right; solve_notin].
  dsimp. rewrite field_remove_props_notin by done.
  rewrite field_extended, decide_True by done.
  rewrite oget_extend_fields.
  destruct (decide _) as [_|_].
  - right. destruct (found_entityOrFalse "Products" (VStr sProductId) "Id" σ)
      as [E|[p E]]; fold vProduct in E; rewrite E; simpl.
    + apply oget_empty.
    + unfold allocated. rewrite hobj_place.
      destruct (decide _) as [->|]; [|done].
      rewrite oget_empty. symmetry. apply field_next_loc.
  - left. unfold allocated. rewrite hobj_place, decide_True by done.
    apply oget_empty.
Qed.
End drafted_lemmas.

(** ** The ids of new drafts *)

Lemma newId_inj_counter (n m : Z) :
  "EPM-" +:+ pretty n = "EPM-" +:+ pretty m → n = m.
Proof. simpl. intros [= H]. by apply (inj pretty). Qed.

Lemma newId_unfold σ : newId σ = "EPM-" +:+ pretty (increment (iLastId σ)).
Proof. reflexivity. Qed.

Lemma increment_below n : (n < twoTo53)%Z → increment n = (n + 1)%Z.
Proof. intros. unfold increment. by rewrite decide_True. Qed.

Lemma increment_at_limit : increment twoTo53 = twoTo53.
Proof. reflexivity. Qed.

(** C5 (amended): the copy flow gives the new draft the id "EPM-" followed
    by the incremented counter.  While the counter is below 2^53 the
    increment adds one, and the id differs from every id the counter has
    given before (every "EPM-n" with n up to the old counter); at 2^53 the
    increment leaves the counter as it is and the id is the one given
    before.  The ids of the existing objects are left as they are, so the new
    id is distinct from an existing draft or product id exactly when that id
    is not this very string (nothing in the code checks it).  The edit flow
    gives the draft the source product's id as both Id and ProductId. *)
Theorem C5_draft_ids sProductId σ :
  (∃ r σ', _createDraft sProductId true σ = Ok r σ'
     ∧ getEntitySetData "ProductDrafts" σ'
       = getEntitySetData "ProductDrafts" σ ++ [next_loc σ]
     ∧ field σ' (next_loc σ) "Id"
       = VStr ("EPM-" +:+ pretty (increment (iLastId σ)))
     ∧ iLastId σ' = increment (iLastId σ)
     ∧ ((0 ≤ iLastId σ < twoTo53)%Z →
        iLastId σ' = (iLastId σ + 1)%Z
        ∧ ∀ n : Z, (n ≤ iLastId σ)%Z →
            field σ' (next_loc σ) "Id" ≠ VStr ("EPM-" +:+ pretty n))
     ∧ (iLastId σ = twoTo53 →
        iLastId σ' = iLastId σ
        ∧ field σ' (next_loc σ) "Id" = VStr ("EPM-" +:+ pretty (iLastId σ)))
     ∧ (∀ x, live σ x → field σ' x "Id" = field σ x "Id")
     ∧ (∀ x, live σ x →
          field σ x "Id" ≠ VStr ("EPM-" +:+ pretty (increment (iLastId σ))) →
          field σ' x "Id" ≠ field σ' (next_loc σ) "Id"))
  ∧ (∃ r σ', _createDraft sProductId false σ = Ok r σ'
       ∧ getEntitySetData "ProductDrafts" σ'
         = getEntitySetData "ProductDrafts" σ ++ [next_loc σ]
       ∧ field σ' (next_loc σ) "Id" = VStr sProductId
       ∧ field σ' (next_loc σ) "ProductId" = VStr sProductId).
Proof.
  split.
  - rewrite _createDraft_run. cbv zeta. eexists _, _. split; [reflexivity|].
    rewrite rows_drafted, decide_True by done. split; [done|].
    rewrite field_drafted_Id, newId_unfold. split; [done|].
    split; [apply iLastId_drafted|].
    split; [|split; [|split]].
    + intros [H0 Hlt]. rewrite iLastId_drafted, increment_below by done.
      split; [done|]. intros n Hn H.
      assert ("EPM-" +:+ pretty (iLastId σ + 1)%Z = "EPM-" +:+ pretty n) as H'
        by congruence.
      apply newId_inj_counter in H'. lia.
    + intros Hmax. rewrite iLastId_drafted, Hmax. by rewrite increment_at_limit.
    + intros x Hx. by apply field_drafted_old.
    + intros x Hx Hne. by rewrite field_drafted_old.
  - rewrite _createDraft_run. cbv zeta. eexists _, _. split; [reflexivity|].
    rewrite rows_drafted, decide_True by done. split; [done|].
    by rewrite field_drafted_Id, field_drafted_ProductId.
Qed.

Lemma C5_draft_ids_witness :
  live htProduct 0
  ∧ field htProduct 0 "Id"
    ≠ VStr ("EPM-" +:+ pretty (increment (iLastId htProduct)))
  ∧ ∃ r σ', _createDraft "HT-1000" true htProduct = Ok r σ'
      ∧ field σ' 0 "Id" ≠ field σ' (next_loc htProduct) "Id".
Proof.
  assert (live htProduct 0) as Hlive.
  { apply live_field with "Id". vm_compute. discriminate. }
  assert (field htProduct 0 "Id"
          ≠ VStr ("EPM-" +:+ pretty (increment (iLastId htProduct)))) as Hne.
  { vm_compute. discriminate. }
  split; [done|]. split; [done|].
  destruct (proj1 (C5_draft_ids "HT-1000" htProduct))
    as (r & σ' & Hrun & _ & _ & _ & _ & _ & _ & Hdistinct).
  exists r, σ'. split; [done|]. by apply Hdistinct.
Defined.

(** C5 as stated fails: copying in a fresh session a product whose id is
    "EPM-1" gives the new draft the id of that existing product. *)
Lemma C5_counterexample :
  0 ∈ getEntitySetData "Products" epmProduct
  ∧ field epmProduct 0 "Id" = VStr "EPM-1"
  ∧ ∃ r σ', _createDraft "EPM-1" true epmProduct = Ok r σ'
      ∧ 0 ∈ getEntitySetData "Products" σ'
      ∧ field σ' (next_loc epmProduct) "Id" = field σ' 0 "Id".
Proof.
  split; [by left|]. split; [vm_compute; reflexivity|].
  exists (Response 200 (VRef 1)), (drafted "EPM-1" true epmProduct).
  split; [vm_compute; reflexivity|].
  split; [|vm_compute; reflexivity].
  rewrite rows_drafted, decide_False by done. by left.
Qed.

(** C10 (amended): in the copy flow the draft's ProductId is the draft's own
    new Id, "EPM-" followed by the incremented counter; both differ from the
    id of the copied product unless that id is itself this string. *)
Theorem C10_copy_ProductId_is_own_Id sProductId σ :
  ∃ r σ', _createDraft sProductId true σ = Ok r σ'
    ∧ field σ' (next_loc σ) "ProductId" = field σ' (next_loc σ) "Id"
    ∧ field σ' (next_loc σ) "Id"
      = VStr ("EPM-" +:+ pretty (increment (iLastId σ)))
    ∧ (sProductId ≠ "EPM-" +:+ pretty (increment (iLastId σ)) →
       field σ' (next_loc σ) "ProductId" ≠ VStr sProductId
       ∧ field σ' (next_loc σ) "Id" ≠ VStr sProductId).
Proof.
  rewrite _createDraft_run. cbv zeta. eexists _, _. split; [reflexivity|].
  rewrite field_drafted_Id, field_drafted_ProductId, newId_unfold.
  split; [done|]. split; [done|]. intros Hne. split; congruence.
Qed.

Lemma C10_copy_ProductId_is_own_Id_witness :
  "HT-1000" ≠ "EPM-" +:+ pretty (increment (iLastId htProduct))
  ∧ ∃ r σ', _createDraft "HT-1000" true htProduct = Ok r σ'
      ∧ field σ' (next_loc htProduct) "ProductId" ≠ VStr "HT-1000".
Proof.
  assert ("HT-1000" ≠ "EPM-" +:+ pretty (increment (iLastId htProduct))) as Hne.
  { vm_compute. discriminate. }
  split; [done|].
  destruct (C10_copy_ProductId_is_own_Id "HT-1000" htProduct)
    as (r & σ' & Hrun & _ & _ & Hdiff).
  exists r, σ'. split; [done|]. by apply Hdiff.
Defined.

(** C10 as stated fails in the same situation: the copy of the product
    "EPM-1" made in a fresh session carries that very id as its ProductId. *)
Lemma C10_counterexample :
  _getProduct (VStr "EPM-1") epmProduct = Ok (VRef 0) epmProduct
  ∧ field epmProduct 0 "Id" = VStr "EPM-1"
  ∧ ∃ r σ', _createDraft "EPM-1" true epmProduct = Ok r σ'
      ∧ field σ' (next_loc epmProduct) "ProductId" = VStr "EPM-1".
Proof.
  split; [vm_compute; reflexivity|]. split; [vm_compute; reflexivity|].
  exists (Response 200 (VRef 1)), (drafted "EPM-1" true epmProduct).
  split; vm_compute; reflexivity.
Qed.

(** ** Activation *)

Section activated_lemmas.
Implicit Types (σ : state) (l x : loc) (k n : string) (v : value) (o : obj).

Lemma isNew_alt v : truthy v || typeof_undefined v = isNew v.
Proof. destruct v as [| |[]| | |]; simpl; try done; by rewrite orb_false_r. Qed.

Lemma isNew_true v : truthy v = true ∨ v = VUndef → isNew v = true.
Proof. intros [H| ->]; [|done]. unfold isNew. by destruct v. Qed.

Lemma rows_activated l σ n :
  getEntitySetData n (activated l σ)
  = if decide (n = "ProductDrafts")
    then filter (λ x, field σ x "Id" ≠ field σ l "Id") (getEntitySetData n σ)
    else if decide (n = "Products")
         then if isNew (field σ l "IsNewProduct")
              then getEntitySetData n σ ++ [l] else getEntitySetData n σ
         else getEntitySetData n σ.
Proof.
  unfold activated. cbv zeta. rewrite isNew_alt.
  destruct (isNew _).
  - rewrite rows_created_product, rows_built.
    destruct (decide (n = "ProductDrafts")) as [->|]; [by rewrite decide_False|].
    by destruct (decide _).
  - rewrite rows_updated, rows_built.
    destruct (decide (n = "ProductDrafts")) as [->|]; [done|].
    by destruct (decide _).
Qed.

(** The fields of the activated object are those [_buildProductFromDraft]
    left, but for the metadata of a created product. *)
Lemma field_activated_own l σ k :
  live σ l → k ≠ "__metadata" →
  field (activated l σ) l k = field (built l σ) l k.
Proof.
  intros Hl Hk. unfold activated. cbv zeta. destruct (_ || _).
  - apply field_created_product_old; auto with live.
  - unfold field at 1.
    rewrite (hobj_updated _ _ _ (hobj (heap (built l σ)) l))
      by first [done | apply stable_object].
    destruct (decide _); [|done]. by rewrite extend_fields_self.
Qed.

Lemma field_activated_own_update l σ k :
  isNew (field σ l "IsNewProduct") = false →
  field (activated l σ) l k = field (built l σ) l k.
Proof.
  intros Hnew. unfold activated. cbv zeta. rewrite isNew_alt, Hnew.
  unfold field at 1.
  rewrite (hobj_updated _ _ _ (hobj (heap (built l σ)) l))
    by first [done | apply stable_object].
  destruct (decide _); [|done]. by rewrite extend_fields_self.
Qed.

Lemma field_activated_merged l σ x k :
  isNew (field σ l "IsNewProduct") = false →
  x ∈ getEntitySetData "Products" σ →
  field σ x "Id" = field σ l "Id" →
  field (built l σ) l k ≠ VUndef → field (built l σ) l k ≠ VRef x →
  field (activated l σ) x k = field (built l σ) l k.
Proof.
  intros Hnew Hx Hid H1 H2. unfold activated. cbv zeta.
  rewrite isNew_alt, Hnew. unfold field at 1.
  rewrite (hobj_updated _ _ _ (hobj (heap (built l σ)) l))
    by first [done | apply stable_object].
  rewrite decide_True.
  - rewrite oget_extend_fields. by rewrite decide_True.
  - rewrite rows_built, decide_False by done. split; [done|].
    rewrite !field_built_keeps
      by (unfold draftOnly, convertedKeys, newProductKeys; solve_notin).
    done.
Qed.
End activated_lemmas.

(** ** One draft per id *)

Section unique_lemmas.
Implicit Types (σ : state) (l x : loc) (k n : string) (v : value) (o : obj).

Lemma run_ActivateProduct sDraftId σ :
  run (ActivateProduct (Encoded sDraftId)) σ
  = match found "ProductDrafts" (VStr sDraftId) "Id" σ with
    | VRef l => activated l σ
    | _ => without_drafts VUndef σ
    end.
Proof.
  unfold run.
  destruct (found_entityOrFalse "ProductDrafts" (VStr sDraftId) "Id" σ)
    as [E|[l E]]; rewrite E.
  - by rewrite _mockActivateProduct_missing.
  - by rewrite (_mockActivateProduct_run _ l).
Qed.

Lemma run_EditProduct sProductId σ :
  run (EditProduct (Encoded sProductId)) σ
  = drafted sProductId false (add_alert sLimitation σ).
Proof.
  unfold run, _mockEditProduct_response, alert. run.
  by rewrite _createDraft_run.
Qed.

Lemma run_CopyProduct sProductId σ :
  run (CopyProduct (Encoded sProductId)) σ
  = drafted sProductId true (add_alert sLimitation σ).
Proof.
  unfold run, _mockCopyProduct_response, alert. run.
  by rewrite _createDraft_run.
Qed.

Lemma run_EditProduct_malformed σ :
  run (EditProduct Malformed) σ = add_alert sLimitation σ.
Proof.
  unfold run, _mockEditProduct_response, alert. run.
  by rewrite decodeURIComponent_malformed.
Qed.

Lemma run_CopyProduct_malformed σ :
  run (CopyProduct Malformed) σ = add_alert sLimitation σ.
Proof.
  unfold run, _mockCopyProduct_response, alert. run.
  by rewrite decodeURIComponent_malformed.
Qed.

Lemma run_ActivateProduct_malformed σ : run (ActivateProduct Malformed) σ = σ.
Proof.
  unfold run, _mockActivateProduct_response. run.
  by rewrite decodeURIComponent_malformed.
Qed.

Lemma run_AfterDraftCreated l σ :
  run (AfterDraftCreated l) σ
  = if negb (truthy (field σ l "ProductId"))
    then extended l (λ _, _oNewDraftDefaultValues) σ else σ.
Proof. unfold run. by rewrite onAfterDraftCreated_run. Qed.

Lemma run_AddProduct oDraft σ :
  run (AddProduct oDraft) σ
  = if negb (truthy (oget oDraft "ProductId"))
    then updated "ProductDrafts" (oget oDraft "Id")
           (λ _, _oNewDraftDefaultValues) σ
    else σ.
Proof. unfold run. by rewrite _mockAddProduct_response_run. Qed.

(** Merging the defaults, or an object with the same id, leaves ids alone. *)
Lemma oget_extend_fields_Id l s o :
  oget s "Id" = VUndef ∨ oget s "Id" = oget o "Id" →
  oget (extend_fields l s o) "Id" = oget o "Id".
Proof.
  intros H. rewrite oget_extend_fields.
  destruct (decide _) as [[? ?]|]; [|done]. by destruct H.
Qed.

Lemma field_updated_Id n sId src s σ x :
  (∀ σ y, src σ = s → src (extended y src σ) = s) → src σ = s →
  oget s "Id" = VUndef ∨ oget s "Id" = sId →
  field (updated n sId src σ) x "Id" = field σ x "Id".
Proof.
  intros Hst Hs Hid. unfold field at 1. rewrite (hobj_updated _ _ _ s) by done.
  destruct (decide _) as [[_ Hx]|]; [|done].
  apply oget_extend_fields_Id. destruct Hid as [?|Hid]; [by left|right].
  by rewrite Hid, <-Hx.
Qed.

Lemma field_activated_Id l σ x :
  live σ x → field (activated l σ) x "Id" = field σ x "Id".
Proof.
  intros Hx.
  assert (field (built l σ) x "Id" = field σ x "Id") as Hb.
  { apply field_built_keeps.
    unfold draftOnly, convertedKeys, newProductKeys. solve_notin. }
  unfold activated. cbv zeta. destruct (_ || _).
  - rewrite field_created_product_old; auto with live.
  - rewrite (field_updated_Id _ _ _ (hobj (heap (built l σ)) l));
      [done|apply stable_object|done|by right].
Qed.



End unique_lemmas.


Lemma live_activated l σ x : live σ x → live (activated l σ) x.
Proof. intros. unfold activated. cbv zeta. destruct (_ || _); auto with live. Qed.

Lemma rowsAllocated_step σ σ' :
  rowsAllocated σ →
  (∀ x, live σ x → live σ' x) →
  (∀ n x, x ∈ getEntitySetData n σ' → x ∈ getEntitySetData n σ ∨ live σ' x) →
  rowsAllocated σ'.
Proof.
  intros Hw Hmono Hrows n x Hx. destruct (Hrows n x Hx) as [H|H]; [|done].
  apply Hmono. by apply (Hw n).
Qed.

(** A test of [rowsAllocated] that computes. *)
Lemma rowsAllocated_check σ :
  bool_decide (map_Forall (λ _ a, Forall (λ x, x ∈ dom (heap σ)) a) (entitySets σ))
  = true →
  rowsAllocated σ.
Proof.
  intros H. apply bool_decide_eq_true in H. intros n x.
  unfold getEntitySetData. destruct (entitySets σ !! n) as [a|] eqn:E; simpl.
  - intros Hx. specialize (H n a E). simpl in H.
    by apply (proj1 (Forall_forall _ _) H).
  - intros Hx. by apply elem_of_nil in Hx.
Qed.





(** ** Editing a product and activating the edit *)

Lemma filter_all {A} (P : A → Prop) `{!∀ x, Decision (P x)} (a : list A) :
  (∀ x, x ∈ a → P x) → filter P a = a.
Proof.
  induction a as [|y a IH]; intros Hall; [done|].
  rewrite filter_cons_True by (apply Hall; by left).
  f_equal. apply IH. intros x Hx. apply Hall. by right.
Qed.

Section roundtrip.
Variables (sProductId : string) (p : loc) (σ : state).
Hypothesis Hfound : found "Products" (VStr sProductId) "Id" σ = VRef p.
Hypothesis Hnone :
  noMatch σ "Id" (VStr sProductId) (getEntitySetData "ProductDrafts" σ).
Hypothesis Hwf : rowsAllocated σ.

Let d := next_loc σ.
Let σ1 := drafted sProductId false σ.

Local Lemma product_row :
  p ∈ getEntitySetData "Products" σ ∧ field σ p "Id" = VStr sProductId.
Proof. by apply firstMatch_elem, found_ref_inv. Qed.

Local Lemma product_live : live σ p.
Proof.
  apply live_field with "Id". destruct product_row as [_ ->]. done.
Qed.

Local Lemma product_not_draft : p ≠ d.
Proof. apply live_not_next, product_live. Qed.

(** The new draft is the one activation finds. *)
Local Lemma draft_found : found "ProductDrafts" (VStr sProductId) "Id" σ1 = VRef d.
Proof.
  assert (d ∈ getEntitySetData "ProductDrafts" σ1) as Hin.
  { unfold σ1. rewrite rows_drafted, decide_True by done.
    apply elem_of_app. right. by left. }
  assert (field σ1 d "Id" = VStr sProductId) as Hid
    by apply field_drafted_Id.
  destruct (found_some _ _ _ _ _ Hin Hid) as [y Hy]. rewrite Hy. f_equal.
  apply found_ref_inv, firstMatch_elem in Hy as [Hy Hyid].
  unfold σ1 in Hy. rewrite rows_drafted, decide_True in Hy by done.
  apply elem_of_app in Hy as [Hy|Hy]; [|by apply list_elem_of_singleton in Hy].
  exfalso. apply (Hnone y Hy). rewrite <-Hyid. symmetry.
  apply field_drafted_old. by apply (Hwf "ProductDrafts").
Qed.

Local Lemma draft_not_new : isNew (field σ1 d "IsNewProduct") = false.
Proof. unfold σ1, d. by rewrite field_drafted_IsNewProduct. Qed.

(** What the built product says about a property: nothing, or what the
    product said. *)
Local Lemma built_says k :
  k ∉ roundTripKeys →
  field (built d σ1) d k = VUndef ∨ field (built d σ1) d k = field σ p k.
Proof.
  intros Hk.
  destruct (decide (k ∈ [ "__metadata"; "Images"; "IsNewProduct"; "ExpiresAt";
                          "ProductId"; "IsDirty" ])) as [Hdel|Hdel].
  { left. by apply field_built_deleted. }
  unfold roundTripKeys in Hk. split_notin.
  rewrite field_built_keeps_old;
    [|apply draft_not_new|unfold draftOnly, convertedKeys; solve_notin].
  destruct (decide (k ∈ [ "HasReviewOfCurrentUser"; "RatingCount";
                          "IsFavoriteOfCurrentUser"; "StockQuantity";
                          "AverageRating" ])) as [Hpo|Hpo].
  { left. by apply field_drafted_productOnly. }
  destruct (decide (k = "Id")) as [->|Hid].
  { right. unfold σ1, d. rewrite field_drafted_Id.
    by destruct product_row as [_ ->]. }
  split_notin.
  destruct (field_drafted_copied sProductId false σ k) as [H'|H'];
    [unfold productOnly, draftKeys; solve_notin|by left|right].
  fold σ1 d in H'. by rewrite H', Hfound.
Qed.

Lemma field_roundtrip k :
  k ∉ roundTripKeys → field (activated d σ1) p k = field σ p k.
Proof.
  intros Hk. destruct product_row as [Hin Hid].
  assert (field (built d σ1) p k = field σ p k) as Hp.
  { rewrite field_built_loc_ne by apply product_not_draft.
    apply field_drafted_old, product_live. }
  unfold activated. cbv zeta. rewrite isNew_alt, draft_not_new.
  unfold field at 1.
  rewrite (hobj_updated _ _ _ (hobj (heap (built d σ1)) d))
    by first [done | apply stable_object].
  destruct (decide _) as [_|_]; [|done].
  rewrite oget_extend_fields. destruct (decide _) as [[Hdef _]|_]; [|done].
  by destruct (built_says k Hk).
Qed.

Lemma rows_roundtrip n :
  getEntitySetData n (activated d σ1) = getEntitySetData n σ.
Proof.
  rewrite rows_activated, draft_not_new. unfold σ1.
  rewrite !rows_drafted. destruct (decide (n = "ProductDrafts")) as [->|].
  - rewrite filter_app, filter_cons_False, filter_nil, app_nil_r.
    + rewrite filter_all; [done|]. intros x Hx.
      rewrite !field_drafted_old by (by apply (Hwf "ProductDrafts")).
      fold d. rewrite field_drafted_Id. by apply Hnone.
    + by intros H.
  - by destruct (decide _).
Qed.
End roundtrip.

(** * Further properties of the program *)

(** ** Deleting drafts *)


(** X1: [_deleteProductDraft] removes from ProductDrafts exactly the rows
    with the given Id, keeping the others in their order; it changes no
    object and no other entity set; afterwards the lookup of that Id in
    ProductDrafts gives [false], and deleting again changes nothing. *)
Theorem X1_delete_draft v σ :
  ∃ σ', _deleteProductDraft v σ = Ok tt σ'
    ∧ getEntitySetData "ProductDrafts" σ'
      = filter (λ x, field σ x "Id" ≠ v) (getEntitySetData "ProductDrafts" σ)
    ∧ (∀ n, n ≠ "ProductDrafts" → getEntitySetData n σ' = getEntitySetData n σ)
    ∧ (∀ x k, field σ' x k = field σ x k)
    ∧ _getProductDraft v σ' = Ok (VBool false) σ'
    ∧ ∃ σ'', _deleteProductDraft v σ' = Ok tt σ''
        ∧ getEntitySetData "ProductDrafts" σ''
          = getEntitySetData "ProductDrafts" σ'.
Proof.
  exists (without_drafts v σ). split; [apply _deleteProductDraft_run|].
  assert (getEntitySetData "ProductDrafts" (without_drafts v σ)
          = filter (λ x, field σ x "Id" ≠ v)
              (getEntitySetData "ProductDrafts" σ)) as Hrows
    by (by rewrite rows_without_drafts, decide_True).
  assert (noMatch (without_drafts v σ) "Id" v
            (getEntitySetData "ProductDrafts" (without_drafts v σ))) as Hno.
  { intros x. rewrite Hrows, field_without_drafts. intros Hx.
    by apply list_elem_of_filter in Hx as [? _]. }
  split; [done|]. split.
  { intros n Hn. by rewrite rows_without_drafts, decide_False. }
  split; [intros x k; apply field_without_drafts|]. split.
  { rewrite _getProductDraft_run. f_equal. by apply found_noMatch. }
  exists (without_drafts v (without_drafts v σ)).
  split; [apply _deleteProductDraft_run|].
  rewrite (rows_without_drafts v (without_drafts v σ)), decide_True by done.
  apply filter_all. intros x Hx. by apply Hno.
Qed.

(** X2: deleting an Id that no draft has leaves ProductDrafts as it is. *)
Theorem X2_delete_absent_draft v σ :
  noMatch σ "Id" v (getEntitySetData "ProductDrafts" σ) →
  ∃ σ', _deleteProductDraft v σ = Ok tt σ'
    ∧ ∀ n, getEntitySetData n σ' = getEntitySetData n σ.
Proof.
  intros Hno. exists (without_drafts v σ).
  split; [apply _deleteProductDraft_run|]. intros n.
  rewrite rows_without_drafts. destruct (decide _) as [->|]; [|done].
  by apply filter_all.
Qed.

Lemma X2_delete_absent_draft_witness :
  noMatch twoDrafts "Id" (VStr "D3") (getEntitySetData "ProductDrafts" twoDrafts)
  ∧ ∃ σ', _deleteProductDraft (VStr "D3") twoDrafts = Ok tt σ'
      ∧ getEntitySetData "ProductDrafts" σ' = [0; 1].
Proof.
  assert (noMatch twoDrafts "Id" (VStr "D3")
            (getEntitySetData "ProductDrafts" twoDrafts)) as Hno.
  { intros x Hx. apply elem_of_cons in Hx as [->|Hx]; [vm_compute; discriminate|].
    apply list_elem_of_singleton in Hx as ->. vm_compute. discriminate. }
  split; [done|].
  destruct (X2_delete_absent_draft (VStr "D3") twoDrafts Hno) as (σ' & Hrun & Hrows).
  exists σ'. split; [done|]. by rewrite Hrows.
Defined.

(** ** Merging into rows *)

Section update_lemmas.
Implicit Types (σ : state) (l x : loc) (k n : string) (v : value) (o s : obj).

(** With no row of the given id, nothing is merged. *)
Lemma merged_noMatch sId src a σ :
  noMatch σ "Id" sId a → merged sId src a σ = σ.
Proof.
  revert σ. induction a as [|y a IH]; intros σ Hno; [done|].
  cbn [merged]. unfold strict_eq. rewrite bool_decide_eq_false_2.
  - apply IH. intros x Hx. apply Hno. by right.
  - apply Hno. by left.
Qed.

Lemma field_updated n sId src s σ x k :
  (∀ σ y, src σ = s → src (extended y src σ) = s) → src σ = s →
  field (updated n sId src σ) x k
  = if decide (x ∈ getEntitySetData n σ ∧ field σ x "Id" = sId)
    then if decide (oget s k ≠ VUndef ∧ oget s k ≠ VRef x)
         then oget s k else field σ x k
    else field σ x k.
Proof.
  intros Hst Hs. unfold field at 1. rewrite (hobj_updated _ _ _ s) by done.
  destruct (decide _); [|done]. apply oget_extend_fields.
Qed.
End update_lemmas.

(** X3: [_updateEntity] with an object as the source of the properties (as
    activation calls it) keeps the rows of every entity set; it merges into
    every row of the named set whose Id is the given one - also when there
    are several - each property of the source that is neither [undefined]
    nor the row itself, and changes nothing else. *)
Theorem X3_update_entity n sId l σ :
  ∃ σ', _updateEntity n sId (props_of (VRef l)) σ = Ok tt σ'
    ∧ (∀ n', getEntitySetData n' σ' = getEntitySetData n' σ)
    ∧ ∀ x k,
        field σ' x k
        = if decide (x ∈ getEntitySetData n σ ∧ field σ x "Id" = sId)
          then if decide (field σ l k ≠ VUndef ∧ field σ l k ≠ VRef x)
               then field σ l k else field σ x k
          else field σ x k.
Proof.
  exists (updated n sId (props_of (VRef l)) σ).
  split; [apply _updateEntity_run|]. split; [intros n'; apply rows_updated|].
  intros x k.
  apply (field_updated _ _ _ (hobj (heap σ) l)); [apply stable_object|done].
Qed.

(** X4: [_updateEntity] for an Id that no row of the set has changes no
    property of any object and no entity set, whatever is to be merged. *)
Theorem X4_update_entity_absent n sId src σ :
  noMatch σ "Id" sId (getEntitySetData n σ) →
  ∃ σ', _updateEntity n sId src σ = Ok tt σ'
    ∧ (∀ n', getEntitySetData n' σ' = getEntitySetData n' σ)
    ∧ ∀ x k, field σ' x k = field σ x k.
Proof.
  intros Hno. exists (updated n sId src σ).
  split; [apply _updateEntity_run|]. split; [intros n'; apply rows_updated|].
  intros x k. unfold updated. by rewrite field_put_rows, merged_noMatch.
Qed.

Lemma X4_update_entity_absent_witness :
  noMatch twoDrafts "Id" (VStr "D3") (getEntitySetData "ProductDrafts" twoDrafts)
  ∧ ∃ σ', _updateEntity "ProductDrafts" (VStr "D3")
            (λ _, _oNewDraftDefaultValues) twoDrafts = Ok tt σ'
      ∧ field σ' 0 "IsNewProduct" = VUndef.
Proof.
  assert (noMatch twoDrafts "Id" (VStr "D3")
            (getEntitySetData "ProductDrafts" twoDrafts)) as Hno.
  { intros x Hx. apply elem_of_cons in Hx as [->|Hx]; [vm_compute; discriminate|].
    apply list_elem_of_singleton in Hx as ->. vm_compute. discriminate. }
  split; [done|].
  destruct (X4_update_entity_absent "ProductDrafts" (VStr "D3")
              (λ _, _oNewDraftDefaultValues) twoDrafts Hno)
    as (σ' & Hrun & _ & Hfields).
  exists σ'. split; [done|]. rewrite Hfields. vm_compute. reflexivity.
Defined.

(** ** Addressing metadata and new rows *)


Section metadata_lemmas.
Implicit Types (σ : state) (l x : loc) (k n t : string) (v : value) (o s : obj).

Lemma field_with_metadata_new σ l t n k :
  live σ l →
  field (with_metadata l t n σ) (next_loc σ) k
  = oget (metadata_of (rootUri σ) t n (field σ l "Id")) k.
Proof.
  intros Hl. apply live_not_next in Hl. unfold with_metadata, allocated.
  by fsimp.
Qed.

Lemma rootUri_with_images σ l : rootUri (with_images l σ) = rootUri σ.
Proof. reflexivity. Qed.

Lemma field_with_images_same σ l :
  field (with_images l σ) l "Images"
  = VRef (next_loc (allocated
      {[ "uri" := VStr (rootUri σ +:+ "ProductDrafts('"
                        +:+ ToString (field σ l "Id") +:+ "')/Images") ]} σ)).
Proof. unfold with_images. cbv zeta. by fsimp. Qed.
End metadata_lemmas.

(** X5: [_extendMetadata] gives an entity a new metadata object whose [id] and
    [uri] are both the root uri followed by the set name and the entity's Id
    (as a string, so "undefined" for an entity without Id) in [('...')], and
    whose [type] is the service namespace followed by the type name; no other
    property of the entity and no other object changes. *)
Theorem X5_extend_metadata l t n σ :
  live σ l →
  ∃ m σ', _extendMetadata (VRef l) t n σ = Ok (VRef l) σ'
    ∧ field σ' l "__metadata" = VRef m
    ∧ ¬ live σ m
    ∧ field σ' m "id" = VStr (uriOf (rootUri σ) n (field σ l "Id"))
    ∧ field σ' m "uri" = VStr (uriOf (rootUri σ) n (field σ l "Id"))
    ∧ field σ' m "type" = VStr ("EPM_REF_APPS_PROD_MAN_SRV." +:+ t)
    ∧ (∀ x k, live σ x → x ≠ l ∨ k ≠ "__metadata" →
              field σ' x k = field σ x k)
    ∧ ∀ n', getEntitySetData n' σ' = getEntitySetData n' σ.
Proof.
  intros Hl. exists (next_loc σ), (with_metadata l t n σ).
  split; [apply _extendMetadata_run|].
  split; [apply field_with_metadata_same|].
  split; [apply next_loc_fresh|].
  rewrite !field_with_metadata_new by done.
  repeat (split; [done|]). split; [|done].
  intros x k Hx Hne. by apply field_with_metadata_old.
Qed.

Lemma X5_extend_metadata_witness :
  live htProduct 0
  ∧ ∃ m σ', _extendMetadata (VRef 0) "Product" "Products" htProduct = Ok (VRef 0) σ'
      ∧ field σ' 0 "__metadata" = VRef m
      ∧ field σ' m "uri" = VStr "/Products('HT-1000')".
Proof.
  assert (live htProduct 0) as Hl.
  { apply live_field with "Id". vm_compute. discriminate. }
  split; [done|].
  destruct (X5_extend_metadata 0 "Product" "Products" htProduct Hl)
    as (m & σ' & Hrun & Hmeta & _ & _ & Huri & _).
  exists m, σ'. split; [done|]. split; [done|]. rewrite Huri.
  vm_compute. reflexivity.
Defined.

(** X6: [_createProduct] appends the entity as the last row of Products and
    changes no other set and, but for the entity's metadata, no property of
    an object in use; when no product had the entity's Id, [_getProduct] of
    that Id then returns the entity. *)
Theorem X6_create_product l σ :
  live σ l → rowsAllocated σ →
  ∃ σ', _createProduct (VRef l) σ = Ok tt σ'
    ∧ getEntitySetData "Products" σ' = getEntitySetData "Products" σ ++ [l]
    ∧ (∀ n, n ≠ "Products" → getEntitySetData n σ' = getEntitySetData n σ)
    ∧ (∀ x k, live σ x → x ≠ l ∨ k ≠ "__metadata" →
              field σ' x k = field σ x k)
    ∧ (noMatch σ "Id" (field σ l "Id") (getEntitySetData "Products" σ) →
       _getProduct (field σ l "Id") σ' = Ok (VRef l) σ').
Proof.
  intros Hl Hwf. exists (created_product l σ).
  split; [apply _createProduct_run|].
  assert (∀ x k, live σ x → x ≠ l ∨ k ≠ "__metadata" →
            field (created_product l σ) x k = field σ x k) as Hold.
  { intros x k Hx Hne. by apply field_created_product_old. }
  split; [by rewrite rows_created_product, decide_True|].
  split; [intros n Hn; by rewrite rows_created_product, decide_False|].
  split; [done|].
  intros Hno. rewrite _getProduct_run. f_equal. apply found_firstMatch.
  rewrite rows_created_product, decide_True by done.
  exists (getEntitySetData "Products" σ), []. split; [done|]. split.
  - apply Hold; [done|by right].
  - intros x Hx. rewrite Hold; [by apply Hno|by apply (Hwf "Products")|by right].
Qed.

Lemma X6_create_product_witness :
  (live twoDrafts 0 ∧ rowsAllocated twoDrafts
   ∧ noMatch twoDrafts "Id" (field twoDrafts 0 "Id")
       (getEntitySetData "Products" twoDrafts))
  ∧ ∃ σ', _createProduct (VRef 0) twoDrafts = Ok tt σ'
      ∧ _getProduct (VStr "D1") σ' = Ok (VRef 0) σ'.
Proof.
  assert (live twoDrafts 0) as Hl.
  { apply live_field with "Id". vm_compute. discriminate. }
  assert (rowsAllocated twoDrafts) as Hwf.
  { apply rowsAllocated_check. vm_compute. reflexivity. }
  assert (noMatch twoDrafts "Id" (field twoDrafts 0 "Id")
            (getEntitySetData "Products" twoDrafts)) as Hno.
  { intros x Hx. by apply elem_of_nil in Hx. }
  split; [done|].
  destruct (X6_create_product 0 twoDrafts Hl Hwf)
    as (σ' & Hrun & _ & _ & _ & Hfind).
  exists σ'. split; [done|]. by apply Hfind.
Defined.

(** X7: [_createProductDraft] appends the draft as the last row of
    ProductDrafts and gives it an [Images] object whose [__deferred.uri] is
    the address of the draft followed by "/Images"; no other set changes and,
    but for [Images] and the metadata of the draft, no property of an object
    in use; when no draft had its Id, [_getProductDraft] then returns it. *)
Theorem X7_create_product_draft l σ :
  live σ l → rowsAllocated σ →
  ∃ i j σ', _createProductDraft (VRef l) σ = Ok tt σ'
    ∧ getEntitySetData "ProductDrafts" σ'
      = getEntitySetData "ProductDrafts" σ ++ [l]
    ∧ (∀ n, n ≠ "ProductDrafts" → getEntitySetData n σ' = getEntitySetData n σ)
    ∧ field σ' l "Images" = VRef i
    ∧ field σ' i "__deferred" = VRef j
    ∧ field σ' j "uri"
      = VStr (rootUri σ +:+ "ProductDrafts('" +:+ ToString (field σ l "Id")
              +:+ "')/Images")
    ∧ (∀ x k, live σ x → x ≠ l ∨ k ∉ [ "Images"; "__metadata" ] →
              field σ' x k = field σ x k)
    ∧ (noMatch σ "Id" (field σ l "Id") (getEntitySetData "ProductDrafts" σ) →
       _getProductDraft (field σ l "Id") σ' = Ok (VRef l) σ').
Proof.
  intros Hl Hwf.
  set (o1 := {[ "uri" := VStr (rootUri σ +:+ "ProductDrafts('"
                   +:+ ToString (field σ l "Id") +:+ "')/Images") ]} : obj).
  set (σ1 := allocated o1 σ).
  exists (next_loc σ1), (next_loc σ), (created_draft l σ).
  split; [apply _createProductDraft_run|].
  assert (∀ x k, live σ x → x ≠ l ∨ k ∉ [ "Images"; "__metadata" ] →
            field (created_draft l σ) x k = field σ x k) as Hold.
  { intros x k Hx Hne. by apply field_created_draft_old. }
  split; [by rewrite rows_created_draft, decide_True|].
  split; [intros n Hn; by rewrite rows_created_draft, decide_False|].
  assert (live σ1 (next_loc σ)) as Hj by apply live_allocated_new.
  assert (live σ1 l) as Hl1 by (by apply live_allocated).
  assert (live (with_images l σ) (next_loc σ1)) as Hi.
  { unfold with_images. cbv zeta. fold o1 σ1.
    apply live_store_prop, live_allocated_new. }
  assert (live (with_images l σ) (next_loc σ)) as Hj'.
  { unfold with_images. cbv zeta. fold o1 σ1.
    by apply live_store_prop, live_allocated. }
  assert (next_loc σ ≠ l) as Hjl.
  { intros E. apply (next_loc_fresh σ). by rewrite E. }
  assert (next_loc σ1 ≠ l) as Hil.
  { intros E. apply (next_loc_fresh σ1). by rewrite E. }
  assert (next_loc σ1 ≠ next_loc σ) as Hij.
  { intros E. apply (next_loc_fresh σ1). by rewrite E. }
  unfold created_draft. rewrite !field_put_rows.
  split; [|split; [|split]].
  - rewrite field_with_metadata_old; [|auto with live|right; done].
    apply field_with_images_same.
  - rewrite field_with_metadata_old; [|done|by left].
    unfold with_images. cbv zeta. fold o1 σ1. fsimp.
    unfold allocated. fsimp. vm_compute. reflexivity.
  - rewrite field_with_metadata_old; [|done|by left].
    unfold with_images. cbv zeta. fold o1 σ1. fsimp.
    unfold allocated. rewrite field_place_ne by done. fold (allocated o1 σ).
    unfold allocated. fsimp. unfold σ1, allocated. rewrite field_place_same.
    unfold o1, oget. by rewrite lookup_singleton_eq.
  - split; [by fold (created_draft l σ)|].
    intros Hno. fold (created_draft l σ).
    rewrite _getProductDraft_run. f_equal. apply found_firstMatch.
    rewrite rows_created_draft, decide_True by done.
    exists (getEntitySetData "ProductDrafts" σ), []. split; [done|]. split.
    + apply Hold; [done|right; solve_notin].
    + intros x Hx.
      rewrite Hold; [by apply Hno|by apply (Hwf "ProductDrafts")|right; solve_notin].
Qed.

Lemma X7_create_product_draft_witness :
  (live twoDrafts 0 ∧ rowsAllocated twoDrafts)
  ∧ ∃ i j σ', _createProductDraft (VRef 0) twoDrafts = Ok tt σ'
      ∧ field σ' 0 "Images" = VRef i
      ∧ field σ' i "__deferred" = VRef j
      ∧ field σ' j "uri" = VStr "/ProductDrafts('D1')/Images".
Proof.
  assert (live twoDrafts 0) as Hl.
  { apply live_field with "Id". vm_compute. discriminate. }
  assert (rowsAllocated twoDrafts) as Hwf.
  { apply rowsAllocated_check. vm_compute. reflexivity. }
  split; [done|].
  destruct (X7_create_product_draft 0 twoDrafts Hl Hwf)
    as (i & j & σ' & Hrun & _ & _ & Hi & Hj & Huri & _).
  exists i, j, σ'. split; [done|]. split; [done|]. split; [done|].
  rewrite Huri. vm_compute. reflexivity.
Defined.

(** ** The draft of a product *)

Section draft_copy.
Implicit Types (σ : state) (l x : loc) (k n t : string) (v : value) (o s : obj).

Lemma oget_props_of_allocated n v key σ k :
  oget (props_of (found n v key σ) (allocated ∅ σ)) k
  = prop_of σ (found n v key σ) k.
Proof.
  destruct (found_entityOrFalse n v key σ) as [E|[p E]]; rewrite E; simpl.
  - apply oget_empty.
  - unfold allocated. rewrite hobj_place.
    destruct (decide _) as [->|]; [|done].
    rewrite oget_empty. symmetry. apply field_next_loc.
Qed.

Lemma field_drafted_copy sProductId b σ k :
  k ∉ productOnly ++ draftKeys →
  let vProduct := found "Products" (VStr sProductId) "Id" σ in
  prop_of σ vProduct k ≠ VRef (next_loc σ) →
  field (drafted sProductId b σ) (next_loc σ) k = prop_of σ vProduct k.
Proof.
  intros Hk vProduct Hself. apply not_elem_of_app in Hk as [Hp Hd].
  pose proof Hd as Hd'. unfold draftKeys in Hd'. split_notin.
  unfold drafted. cbv zeta. fold vProduct.
  rewrite field_created_draft_old; [|auto 12 with live|right; solve_notin].
  dsimp. rewrite field_remove_props_notin by done.
  rewrite field_extended, decide_True by done.
  rewrite oget_extend_fields. unfold vProduct.
  rewrite oget_props_of_allocated. fold vProduct.
  destruct (decide _) as [_|Hn]; [done|].
  unfold allocated. rewrite hobj_place, decide_True, oget_empty by done.
  destruct (decide (prop_of σ vProduct k = VUndef)) as [->|Hdef]; [done|].
  destruct Hn. by split.
Qed.

Lemma field_drafted_stamp sProductId b σ :
  field (drafted sProductId b σ) (next_loc σ) "CreatedBy" = VStr "Test User"
  ∧ field (drafted sProductId b σ) (next_loc σ) "IsDirty" = VBool false.
Proof.
  unfold drafted. cbv zeta.
  split; (rewrite field_created_draft_old; [|auto 12 with live|right; solve_notin]);
    dsimp; unfold stamped; by fsimp.
Qed.
End draft_copy.

(** X8: [_createDraft] builds the draft as a new object and leaves every
    object in use, the product among them, and every entity set but
    ProductDrafts as they were.  The draft says CreatedBy "Test User",
    IsDirty false and IsNewProduct as asked, has none of the five product-only
    properties, and has every other property that the flow does not write
    itself exactly as the product has it (all undefined for a missing
    product); jQuery.extend skips a property whose value is the target
    object itself, which the new draft is for no stored product. *)
Theorem X8_draft_is_copy sProductId b σ :
  ∃ r σ', _createDraft sProductId b σ = Ok r σ'
    ∧ ¬ live σ (next_loc σ)
    ∧ getEntitySetData "ProductDrafts" σ'
      = getEntitySetData "ProductDrafts" σ ++ [next_loc σ]
    ∧ (∀ n, n ≠ "ProductDrafts" → getEntitySetData n σ' = getEntitySetData n σ)
    ∧ (∀ x k, live σ x → field σ' x k = field σ x k)
    ∧ field σ' (next_loc σ) "CreatedBy" = VStr "Test User"
    ∧ field σ' (next_loc σ) "IsDirty" = VBool false
    ∧ field σ' (next_loc σ) "IsNewProduct" = VBool b
    ∧ (∀ k, k ∈ [ "HasReviewOfCurrentUser"; "RatingCount";
                  "IsFavoriteOfCurrentUser"; "StockQuantity"; "AverageRating" ] →
            field σ' (next_loc σ) k = VUndef)
    ∧ (∀ k, k ∉ productOnly ++ draftKeys →
         let vProduct := found "Products" (VStr sProductId) "Id" σ in
         prop_of σ vProduct k ≠ VRef (next_loc σ) →
         field σ' (next_loc σ) k = prop_of σ vProduct k).
Proof.
  rewrite _createDraft_run. cbv zeta. eexists _, _. split; [reflexivity|].
  split; [apply next_loc_fresh|].
  split; [by rewrite rows_drafted, decide_True|].
  split; [intros n Hn; by rewrite rows_drafted, decide_False|].
  split; [intros x k Hx; by apply field_drafted_old|].
  destruct (field_drafted_stamp sProductId b σ) as [Hc Hd].
  split; [done|]. split; [done|].
  split; [apply field_drafted_IsNewProduct|].
  split; [intros k Hk; by apply field_drafted_productOnly|].
  intros k Hk. by apply field_drafted_copy.
Qed.

Lemma X8_draft_is_copy_witness :
  (live htProduct 0
   ∧ ("Name" ∉ productOnly ++ draftKeys)
   ∧ prop_of htProduct (found "Products" (VStr "HT-1000") "Id" htProduct) "Name"
     ≠ VRef (next_loc htProduct))
  ∧ ∃ r σ', _createDraft "HT-1000" false htProduct = Ok r σ'
      ∧ field σ' 0 "Name" = VStr "Notebook"
      ∧ field σ' (next_loc htProduct) "Name" = VStr "Notebook".
Proof.
  assert (live htProduct 0) as Hl.
  { apply live_field with "Id". vm_compute. discriminate. }
  assert ("Name" ∉ productOnly ++ draftKeys) as Hk.
  { unfold productOnly, draftKeys. solve_notin. }
  assert (prop_of htProduct (found "Products" (VStr "HT-1000") "Id" htProduct)
            "Name" ≠ VRef (next_loc htProduct)) as Hself.
  { vm_compute. discriminate. }
  split; [done|].
  destruct (X8_draft_is_copy "HT-1000" false htProduct)
    as (r & σ' & Hrun & _ & _ & _ & Hold & _ & _ & _ & _ & Hcopy).
  exists r, σ'. split; [done|]. split.
  - rewrite Hold by done. vm_compute. reflexivity.
  - rewrite (Hcopy "Name" Hk Hself). vm_compute. reflexivity.
Defined.

Section draft_response.
Implicit Types (σ : state) (l x : loc) (k n : string) (v : value).

Lemma matching_app σ (key : string) v (a b : list loc) :
  matching σ key v (a ++ b) = matching σ key v a ++ matching σ key v b.
Proof. unfold matching. apply filter_app. Qed.

Lemma matching_drafted sProductId (b : bool) σ :
  rowsAllocated σ →
  let v := VStr (if b then newId σ else sProductId) in
  matching (drafted sProductId b σ) "Id" v
    (getEntitySetData "ProductDrafts" (drafted sProductId b σ))
  = matching σ "Id" v (getEntitySetData "ProductDrafts" σ) ++ [next_loc σ].
Proof.
  intros Hwf v. rewrite rows_drafted, decide_True, matching_app by done.
  f_equal.
  - apply matching_ext. intros x Hx. apply field_drafted_old. by apply (Hwf "ProductDrafts" x).
  - unfold matching. rewrite filter_cons_True; [done|].
    apply strict_eq_true, field_drafted_Id.
Qed.
End draft_response.

(** X9: the response of [_createDraft] carries the first draft row whose Id
    is the id of the new draft.  That is the new draft when no draft had
    this id before; when one had, it is that older draft, which the call has
    not changed, and not the draft just created. *)
Theorem X9_draft_response sProductId (b : bool) σ :
  rowsAllocated σ →
  let v := VStr (if b then newId σ else sProductId) in
  ∃ r σ', _createDraft sProductId b σ = Ok r σ'
    ∧ status r = 200%Z
    ∧ (noMatch σ "Id" v (getEntitySetData "ProductDrafts" σ) →
       d r = VRef (next_loc σ))
    ∧ (∀ l, firstMatch σ "Id" v (getEntitySetData "ProductDrafts" σ) l →
         d r = VRef l ∧ l ≠ next_loc σ ∧ ∀ k, field σ' l k = field σ l k).
Proof.
  intros Hwf v. rewrite _createDraft_run. cbv zeta.
  eexists _, _. split; [reflexivity|]. split; [done|].
  cbn [d]. rewrite field_drafted_Id. unfold found.
  pose proof (matching_drafted sProductId b σ Hwf) as Hm. cbv zeta in Hm.
  rewrite Hm. fold v.
  split.
  - intros Hno. by rewrite matching_noMatch.
  - intros l Hl. destruct (matching_firstMatch _ _ _ _ _ Hl) as [rest ->].
    split; [done|].
    assert (live σ l) as Hlive.
    { destruct Hl as (pre & post & E & _). apply (Hwf "ProductDrafts").
      rewrite E. apply elem_of_app. right. by left. }
    split; [by apply live_not_next|]. intros k. by apply field_drafted_old.
Qed.

Lemma X9_draft_response_witness :
  (rowsAllocated pendingEdit
   ∧ firstMatch pendingEdit "Id" (VStr "HT-1000")
       (getEntitySetData "ProductDrafts" pendingEdit) 1)
  ∧ ∃ r σ', _createDraft "HT-1000" false pendingEdit = Ok r σ'
      ∧ getEntitySetData "ProductDrafts" σ' = [1; 2]
      ∧ d r = VRef 1
      ∧ field σ' 1 "Price" = VNum 12.
Proof.
  assert (rowsAllocated pendingEdit) as Hwf.
  { apply rowsAllocated_check. vm_compute. reflexivity. }
  assert (firstMatch pendingEdit "Id" (VStr "HT-1000")
            (getEntitySetData "ProductDrafts" pendingEdit) 1) as Hl.
  { exists [], []. split; [vm_compute; reflexivity|].
    split; [vm_compute; reflexivity|]. intros x Hx. by apply elem_of_nil in Hx. }
  split; [done|].
  destruct (X9_draft_response "HT-1000" false pendingEdit Hwf)
    as (r & σ' & Hrun & _ & _ & Hold).
  destruct (Hold 1 Hl) as (Hd & _ & Hf).
  exists r, σ'. split; [done|].
  split; [|split; [done|rewrite Hf; vm_compute; reflexivity]].
  rewrite _createDraft_run in Hrun. cbv zeta in Hrun. injection Hrun as _ <-.
  vm_compute. reflexivity.
Defined.

(** ** The instance fields in a session *)

Section instance_lemmas.
Implicit Types (σ : state) (l x : loc) (k n : string) (v : value) (o : obj).

Lemma instanceFields_merged sId src a σ :
  instanceFields (merged sId src a σ) = instanceFields σ.
Proof.
  revert σ. induction a as [|y a IH]; intros σ; [done|].
  cbn [merged]. rewrite IH. by destruct (strict_eq _ _).
Qed.

Lemma instanceFields_updated n sId src σ :
  instanceFields (updated n sId src σ) = instanceFields σ.
Proof.
  unfold updated.
  transitivity (instanceFields (merged sId src (getEntitySetData n σ) σ));
    [done|apply instanceFields_merged].
Qed.

Lemma instanceFields_built l σ : instanceFields (built l σ) = instanceFields σ.
Proof.
  unfold built, with_new_defaults. cbv zeta.
  by destruct (isNew _); [destruct (negb _)|].
Qed.

Lemma instanceFields_activated l σ :
  instanceFields (activated l σ) = instanceFields σ.
Proof.
  unfold activated. cbv zeta. destruct (_ || _).
  - transitivity (instanceFields (built l σ)); [done|apply instanceFields_built].
  - rewrite instanceFields_updated. apply instanceFields_built.
Qed.

Lemma instanceFields_run c σ :
  instanceFields (run c σ)
  = (rootUri σ, hasAttachAfter σ,
     (if isCopy c then increment (iLastId σ) else iLastId σ),
     alerts σ ++ alertsOf c).
Proof.
  destruct c as [l|oDraft|[pid|]|[pid|]|[sDraftId|]]; cbn [isCopy alertsOf];
    rewrite ?app_nil_r.
  - rewrite run_AfterDraftCreated. by destruct (negb _).
  - rewrite run_AddProduct. destruct (negb _); [|done].
    apply instanceFields_updated.
  - by rewrite run_EditProduct.
  - by rewrite run_EditProduct_malformed.
  - by rewrite run_CopyProduct.
  - by rewrite run_CopyProduct_malformed.
  - rewrite run_ActivateProduct. destruct (found _ _ _ _); try done.
    apply instanceFields_activated.
  - by rewrite run_ActivateProduct_malformed.
Qed.

Lemma copies_snoc cs c :
  copies (cs ++ [c]) = (copies cs + (if isCopy c then 1 else 0))%Z.
Proof.
  unfold copies. rewrite filter_app, length_app, filter_cons, filter_nil.
  destruct (isCopy c); case_decide; try done; cbn [length]; lia.
Qed.

Lemma copies_nonneg cs : (0 ≤ copies cs)%Z.
Proof. unfold copies. lia. Qed.

Lemma run_all_snoc cs c σ : run_all (cs ++ [c]) σ = run c (run_all cs σ).
Proof. unfold run_all. by rewrite foldl_app. Qed.

Lemma increment_min (i j : Z) :
  (0 ≤ j)%Z → (i ≤ twoTo53)%Z →
  increment (Z.min twoTo53 (i + j)) = Z.min twoTo53 (i + j + 1).
Proof. intros. unfold increment, twoTo53 in *. case_decide; lia. Qed.

(** The fields that no call changes, and the alerts. *)
Lemma session_fields cs σ :
  rootUri (run_all cs σ) = rootUri σ
  ∧ hasAttachAfter (run_all cs σ) = hasAttachAfter σ
  ∧ alerts (run_all cs σ) = alerts σ ++ concat (alertsOf <$> cs).
Proof.
  induction cs as [|c cs IH] using rev_ind.
  - cbn. by rewrite app_nil_r.
  - destruct IH as (Hr & Hh & Ha). rewrite run_all_snoc.
    pose proof (instanceFields_run c (run_all cs σ)) as H.
    injection H as Hr' Hh' _ Ha'. rewrite Hr', Hh', Ha', Hr, Hh, Ha.
    rewrite fmap_app, concat_app. cbn [fmap list_fmap concat].
    by rewrite app_nil_r, app_assoc.
Qed.

(** The counter: one step for each copy, up to 2^53. *)
Lemma iLastId_run_all cs σ :
  (iLastId σ ≤ twoTo53)%Z →
  iLastId (run_all cs σ) = Z.min twoTo53 (iLastId σ + copies cs).
Proof.
  intros Hle. induction cs as [|c cs IH] using rev_ind.
  - cbn. unfold copies. cbn. lia.
  - rewrite run_all_snoc, copies_snoc.
    pose proof (instanceFields_run c (run_all cs σ)) as H.
    injection H as _ _ Hi _. rewrite Hi, IH.
    destruct (isCopy c).
    + rewrite increment_min by first [apply copies_nonneg | done].
      f_equal. lia.
    + f_equal. lia.
Qed.
End instance_lemmas.

(** X10: in a session of calls the root URI and the choice between the
    after-creation hook and the extra mock request never change, so
    [getRequests] keeps giving the same requests; the limitation message has
    been shown once for each Edit and each Copy call (also one whose
    parameter does not decode), in the order of the calls, and for no other
    call; and the id counter, which starts between 0 and 2^53, has advanced
    by the number of Copy calls whose parameter decodes, but not beyond
    2^53, where it stays. *)
Theorem X10_session_instance_fields cs σ :
  rootUri (run_all cs σ) = rootUri σ
  ∧ getRequests (run_all cs σ) = getRequests σ
  ∧ alerts (run_all cs σ) = alerts σ ++ concat (alertsOf <$> cs)
  ∧ ((0 ≤ iLastId σ ≤ twoTo53)%Z →
     iLastId (run_all cs σ) = Z.min twoTo53 (iLastId σ + copies cs)
     ∧ (0 ≤ iLastId (run_all cs σ) ≤ twoTo53)%Z).
Proof.
  destruct (session_fields cs σ) as (Hr & Hh & Ha).
  split; [done|]. split; [unfold getRequests; by rewrite Hh|]. split; [done|].
  intros [H0 Hle]. rewrite iLastId_run_all by done.
  split; [done|]. pose proof (copies_nonneg cs). lia.
Qed.

(** X11: the ids that Copy generates count the copies of the session: after
    any calls on a new MockRequests object, the next copy gets the id "EPM-"
    followed by one more than the number of copies made so far (Copy calls
    whose parameter decodes), but not more than 2^53.  Hence, while fewer
    than 2^53 copies have been made, a copy never gets the generated id of an
    earlier copy of the session, whatever was called in between; from then on
    every copy gets the same id. *)
Theorem X11_generated_ids h sets sRoot bAttachAfter cs cs' p q :
  let σ0 := constructor h sets sRoot bAttachAfter in
  let σ1 := run_all cs σ0 in
  let σ2 := run_all cs' (run (CopyProduct (Encoded p)) σ1) in
  field (run (CopyProduct (Encoded p)) σ1) (next_loc σ1) "Id"
  = VStr ("EPM-" +:+ pretty (Z.min twoTo53 (copies cs + 1)))
  ∧ ((copies cs + 1 < twoTo53)%Z →
     field (run (CopyProduct (Encoded q)) σ2) (next_loc σ2) "Id"
     ≠ field (run (CopyProduct (Encoded p)) σ1) (next_loc σ1) "Id")
  ∧ ((twoTo53 ≤ copies cs + 1)%Z →
     field (run (CopyProduct (Encoded q)) σ2) (next_loc σ2) "Id"
     = field (run (CopyProduct (Encoded p)) σ1) (next_loc σ1) "Id").
Proof.
  intros σ0 σ1 σ2.
  assert (∀ σ s, field (run (CopyProduct (Encoded s)) σ) (next_loc σ) "Id"
                 = VStr ("EPM-" +:+ pretty (increment (iLastId σ)))) as Hid.
  { intros σ s. rewrite run_CopyProduct.
    change (next_loc σ) with (next_loc (add_alert sLimitation σ)).
    by rewrite field_drafted_Id. }
  rewrite !Hid.
  pose proof (copies_nonneg cs) as Hc. pose proof (copies_nonneg cs') as Hc'.
  assert (iLastId σ1 = Z.min twoTo53 (0 + copies cs)) as H1.
  { unfold σ1. rewrite iLastId_run_all; [done|]. by cbn. }
  assert (increment (iLastId σ1) = Z.min twoTo53 (copies cs + 1)) as Hn1.
  { rewrite H1, increment_min by done. f_equal. }
  assert (iLastId (run (CopyProduct (Encoded p)) σ1)
          = Z.min twoTo53 (copies cs + 1)) as Hp.
  { pose proof (instanceFields_run (CopyProduct (Encoded p)) σ1) as H.
    injection H as _ _ Hi _. rewrite <-Hn1. exact Hi. }
  assert (increment (iLastId σ2)
          = Z.min twoTo53 (Z.min twoTo53 (copies cs + 1) + copies cs' + 1))
    as Hn2.
  { unfold σ2. rewrite iLastId_run_all, Hp by (rewrite Hp; lia).
    apply increment_min; [done|lia]. }
  rewrite Hn1, Hn2. clear Hid H1 Hn1 Hp Hn2. clearbody σ0 σ1 σ2.
  split; [done|]. split.
  - intros Hlt H.
    assert ("EPM-" +:+ pretty
              (Z.min twoTo53 (Z.min twoTo53 (copies cs + 1) + copies cs' + 1))
            = "EPM-" +:+ pretty (Z.min twoTo53 (copies cs + 1))) as H'
      by congruence.
    apply newId_inj_counter in H'. unfold twoTo53 in *. lia.
  - intros Hge. do 3 f_equal. unfold twoTo53 in *. lia.
Qed.

(** ** What activation answers and what it leaves alone *)

Section activation_response.
Implicit Types (σ : state) (l x : loc) (k n : string) (v : value).

Lemma draft_row_live sDraftId l σ :
  found "ProductDrafts" (VStr sDraftId) "Id" σ = VRef l → rowsAllocated σ →
  live σ l ∧ field σ l "Id" = VStr sDraftId.
Proof.
  intros Hl Hwf. apply found_ref_inv, firstMatch_elem in Hl as [Hin Hid].
  split; [|done]. by apply (Hwf "ProductDrafts").
Qed.

Lemma matching_activated l σ v :
  rowsAllocated σ → live σ l →
  matching (activated l σ) "Id" v (getEntitySetData "Products" (activated l σ))
  = matching σ "Id" v (getEntitySetData "Products" σ)
    ++ (if isNew (field σ l "IsNewProduct")
        then matching σ "Id" v [l] else []).
Proof.
  intros Hwf Hl.
  assert (∀ a, (∀ x, x ∈ a → live σ x) →
            matching (activated l σ) "Id" v a = matching σ "Id" v a) as Hsame.
  { intros a Ha. apply matching_ext. intros x Hx.
    apply field_activated_Id. by apply Ha. }
  rewrite rows_activated, decide_False, decide_True by done.
  destruct (isNew _).
  - rewrite matching_app. f_equal.
    + apply Hsame. intros x Hx. by apply (Hwf "Products").
    + apply Hsame. intros x Hx. by apply list_elem_of_singleton in Hx as ->.
  - rewrite app_nil_r. apply Hsame. intros x Hx. by apply (Hwf "Products").
Qed.
End activation_response.

(** X12: the response of an activation carries the first product row whose
    Id is the draft's id after the change.  A product that had this id before
    is the one returned, also when the draft has just been added as a new
    product behind it; with no such product the response carries the new
    product for a new-product draft, and [false] for an edit draft. *)
Theorem X12_activation_response sDraftId l σ :
  _getProductDraft (VStr sDraftId) σ = Ok (VRef l) σ → rowsAllocated σ →
  ∃ r σ', _mockActivateProduct_response (Encoded sDraftId) σ = Ok r σ'
    ∧ status r = 200%Z
    ∧ (∀ p, firstMatch σ "Id" (VStr sDraftId) (getEntitySetData "Products" σ) p →
         d r = VRef p)
    ∧ (noMatch σ "Id" (VStr sDraftId) (getEntitySetData "Products" σ) →
       d r = if isNew (field σ l "IsNewProduct") then VRef l else VBool false).
Proof.
  rewrite _getProductDraft_run. intros [= Hfound] Hwf.
  destruct (draft_row_live _ _ _ Hfound Hwf) as [Hl Hid].
  rewrite (_mockActivateProduct_run _ l) by done. cbv zeta.
  eexists _, _. split; [reflexivity|]. split; [done|]. cbn [d].
  rewrite field_activated_Id, Hid by done. unfold found.
  rewrite matching_activated by done.
  split.
  - intros p Hp. by destruct (matching_firstMatch _ _ _ _ _ Hp) as [rest ->].
  - intros Hno. rewrite matching_noMatch by done. destruct (isNew _); [|done].
    unfold matching. rewrite filter_cons_True; [done|]. by apply strict_eq_true.
Qed.

Lemma X12_activation_response_witness :
  (_getProductDraft (VStr "HT-1000") pendingEdit = Ok (VRef 1) pendingEdit
   ∧ rowsAllocated pendingEdit
   ∧ firstMatch pendingEdit "Id" (VStr "HT-1000")
       (getEntitySetData "Products" pendingEdit) 0)
  ∧ ∃ r σ', _mockActivateProduct_response (Encoded "HT-1000") pendingEdit = Ok r σ'
      ∧ d r = VRef 0.
Proof.
  assert (_getProductDraft (VStr "HT-1000") pendingEdit
          = Ok (VRef 1) pendingEdit) as Hd by (vm_compute; reflexivity).
  assert (rowsAllocated pendingEdit) as Hwf.
  { apply rowsAllocated_check. vm_compute. reflexivity. }
  assert (firstMatch pendingEdit "Id" (VStr "HT-1000")
            (getEntitySetData "Products" pendingEdit) 0) as Hp.
  { exists [], []. split; [vm_compute; reflexivity|].
    split; [vm_compute; reflexivity|]. intros x Hx. by apply elem_of_nil in Hx. }
  split; [done|].
  destruct (X12_activation_response "HT-1000" 1 pendingEdit Hd Hwf)
    as (r & σ' & Hrun & _ & Hfirst & _).
  exists r, σ'. split; [done|]. by apply Hfirst.
Defined.

(** X13: activating an edit draft (IsNewProduct false) changes no object but
    the draft itself and the product rows with its id.  When no product has
    the id, the edit is lost without an error: the products and all objects
    besides the draft are as before, the draft row is gone, and the response
    carries [false]. *)
Theorem X13_edit_without_product sDraftId l σ :
  _getProductDraft (VStr sDraftId) σ = Ok (VRef l) σ →
  field σ l "IsNewProduct" = VBool false →
  ∃ r σ', _mockActivateProduct_response (Encoded sDraftId) σ = Ok r σ'
    ∧ getEntitySetData "Products" σ' = getEntitySetData "Products" σ
    ∧ (∀ x k, x ≠ l →
         ¬ (x ∈ getEntitySetData "Products" σ ∧ field σ x "Id" = VStr sDraftId) →
         field σ' x k = field σ x k)
    ∧ (noMatch σ "Id" (VStr sDraftId) (getEntitySetData "Products" σ) →
       d r = VBool false
       ∧ (l ∉ getEntitySetData "ProductDrafts" σ')
       ∧ ∀ x k, x ≠ l → field σ' x k = field σ x k).
Proof.
  rewrite _getProductDraft_run. intros [= Hfound] Hb.
  pose proof Hfound as Hrow.
  apply found_ref_inv, firstMatch_elem in Hrow as [Hin Hid].
  rewrite (_mockActivateProduct_run _ l) by done. cbv zeta.
  eexists _, _. split; [reflexivity|]. cbn [d].
  assert (isNew (field σ l "IsNewProduct") = false) as Hnew by (by rewrite Hb).
  assert (field (built l σ) l "Id" = VStr sDraftId) as Hbid.
  { rewrite field_built_keeps; [done|].
    unfold draftOnly, convertedKeys, newProductKeys. solve_notin. }
  assert (∀ x k, x ≠ l →
            ¬ (x ∈ getEntitySetData "Products" σ ∧ field σ x "Id" = VStr sDraftId) →
            field (activated l σ) x k = field σ x k) as Hframe.
  { intros x k Hx Hnot. unfold activated. cbv zeta. rewrite isNew_alt, Hnew.
    rewrite (field_updated _ _ _ (hobj (heap (built l σ)) l))
      by first [done | apply stable_object].
    rewrite decide_False; [by apply field_built_loc_ne|].
    rewrite rows_built, decide_False, Hbid by done.
    rewrite field_built_loc_ne by done. done. }
  split; [by rewrite rows_activated, decide_False, decide_True, Hnew|].
  split; [done|].
  intros Hno. split; [|split].
  - rewrite field_activated_own_update, Hbid by done.
    apply found_noMatch. rewrite rows_activated, decide_False, decide_True, Hnew by done.
    intros x Hx. destruct (decide (x = l)) as [->|Hne].
    + by destruct (Hno l Hx).
    + rewrite Hframe; [by apply Hno|done|]. intros [_ E]. by apply (Hno x).
  - rewrite rows_activated, decide_True by done.
    intros H. by apply list_elem_of_filter in H as [H _].
  - intros x k Hx. apply Hframe; [done|]. intros [Hx' E]. by apply (Hno x).
Qed.

Lemma X13_edit_without_product_witness :
  (_getProductDraft (VStr "P1") orphanEdit = Ok (VRef 0) orphanEdit
   ∧ field orphanEdit 0 "IsNewProduct" = VBool false
   ∧ noMatch orphanEdit "Id" (VStr "P1") (getEntitySetData "Products" orphanEdit))
  ∧ ∃ r σ', _mockActivateProduct_response (Encoded "P1") orphanEdit = Ok r σ'
      ∧ getEntitySetData "Products" σ' = getEntitySetData "Products" orphanEdit
      ∧ d r = VBool false
      ∧ (0 ∉ getEntitySetData "ProductDrafts" σ').
Proof.
  assert (_getProductDraft (VStr "P1") orphanEdit = Ok (VRef 0) orphanEdit) as Hd
    by (vm_compute; reflexivity).
  assert (field orphanEdit 0 "IsNewProduct" = VBool false) as Hb
    by (vm_compute; reflexivity).
  assert (noMatch orphanEdit "Id" (VStr "P1")
            (getEntitySetData "Products" orphanEdit)) as Hno.
  { intros x Hx. apply elem_of_cons in Hx as [->|Hx].
    - vm_compute. discriminate.
    - by apply elem_of_nil in Hx. }
  split; [repeat split; assumption|].
  destruct (X13_edit_without_product "P1" 0 orphanEdit Hd Hb)
    as (r & σ' & Hrun & Hrows & _ & Hlost).
  destruct (Hlost Hno) as (Hr & Hgone & _).
  exists r, σ'. repeat split; assumption.
Defined.

(** X14: activating a draft id that no draft row has fails with a TypeError
    (a property is assigned to [false]), but only after
    [_deleteProductDraft(undefined)] has run: the draft rows without an Id
    are gone, all other rows and all objects are as before; when every draft
    row has an Id, nothing has changed at all but the failure. *)
Theorem X14_activation_of_missing_draft sDraftId σ :
  _getProductDraft (VStr sDraftId) σ = Ok (VBool false) σ →
  ∃ σ', _mockActivateProduct_response (Encoded sDraftId) σ
        = Throw (TypeError "Cannot create property on primitive") σ'
    ∧ getEntitySetData "ProductDrafts" σ'
      = filter (λ x, field σ x "Id" ≠ VUndef) (getEntitySetData "ProductDrafts" σ)
    ∧ (∀ n, n ≠ "ProductDrafts" → getEntitySetData n σ' = getEntitySetData n σ)
    ∧ (∀ x k, field σ' x k = field σ x k)
    ∧ instanceFields σ' = instanceFields σ
    ∧ (noMatch σ "Id" VUndef (getEntitySetData "ProductDrafts" σ) →
       getEntitySetData "ProductDrafts" σ' = getEntitySetData "ProductDrafts" σ).
Proof.
  rewrite _getProductDraft_run. intros [= Hfound].
  rewrite _mockActivateProduct_missing by done.
  eexists. split; [reflexivity|].
  split; [by rewrite rows_without_drafts, decide_True|].
  split; [intros n Hn; by rewrite rows_without_drafts, decide_False|].
  split; [intros x k; apply field_without_drafts|].
  split; [done|].
  intros Hno. rewrite rows_without_drafts, decide_True by done.
  by apply filter_all.
Qed.

Lemma X14_activation_of_missing_draft_witness :
  _getProductDraft (VStr "D3") twoDrafts = Ok (VBool false) twoDrafts
  ∧ ∃ σ', _mockActivateProduct_response (Encoded "D3") twoDrafts
          = Throw (TypeError "Cannot create property on primitive") σ'
      ∧ getEntitySetData "ProductDrafts" σ' = [0; 1].
Proof.
  assert (_getProductDraft (VStr "D3") twoDrafts = Ok (VBool false) twoDrafts)
    as Hd by (vm_compute; reflexivity).
  split; [done|].
  destruct (X14_activation_of_missing_draft "D3" twoDrafts Hd)
    as (σ' & Hrun & Hrows & _).
  exists σ'. split; [done|]. rewrite Hrows. vm_compute. reflexivity.
Defined.

(** ** Units and image of the built product *)

Section built_units.
Implicit Types (σ : state) (l x : loc) (k n : string) (v : value).

Lemma convert_ext_keys n from to v σ σ' :
  getEntitySetData n σ' = getEntitySetData n σ →
  (∀ x, x ∈ getEntitySetData n σ →
        field σ' x from = field σ x from ∧ field σ' x to = field σ x to) →
  convert n from to v σ' = convert n from to v σ.
Proof.
  intros Hrows Hf. unfold convert.
  rewrite (found_ext n v from σ σ') by (by first [done | intros x Hx; apply Hf]).
  destruct (found n v from σ) as [| | | | |e] eqn:E; try done.
  apply found_ref_inv, firstMatch_elem in E as [He _]. simpl. by apply Hf.
Qed.

Lemma field_built_WeightUnit l σ :
  field (built l σ) l "WeightUnit"
  = convert "WeightUnits" "Unit" "Shorttext" (field σ l "WeightUnit") σ.
Proof.
  transitivity (field (with_text l "WeightUnit" "WeightUnits"
    (with_name l "MainCategoryName" "MainCategoryId" "MainCategories"
      (with_name l "SubCategoryName" "SubCategoryId" "SubCategories"
        (without_drafts (field (remove_props l draftOnly σ) l "Id")
           (remove_props l draftOnly σ))))) l "WeightUnit").
  { unfold built. cbv zeta. by destruct (isNew _); bsimp. }
  rewrite field_with_text_same.
  set (σ4 := with_name _ _ _ _ _).
  assert (∀ x k, k ∉ "MainCategoryName" :: "SubCategoryName" :: draftOnly →
            field σ4 x k = field σ x k) as Hkeep.
  { intros x k Hk. split_notin. subst σ4.
    rewrite !field_with_name_key_ne, field_without_drafts by done.
    by apply field_remove_props_notin. }
  rewrite Hkeep by (unfold draftOnly; solve_notin).
  apply convert_ext_keys.
  - subst σ4. unfold with_name. fsimp.
    rewrite rows_without_drafts, rows_remove_props. by rewrite decide_False.
  - intros x _. split; apply Hkeep; unfold draftOnly; solve_notin.
Qed.

Lemma field_built_DimensionUnit l σ :
  field (built l σ) l "DimensionUnit"
  = convert "DimensionUnits" "Unit" "Shorttext" (field σ l "DimensionUnit") σ.
Proof.
  transitivity (field (with_text l "DimensionUnit" "DimensionUnits"
    (with_text l "WeightUnit" "WeightUnits"
      (with_name l "MainCategoryName" "MainCategoryId" "MainCategories"
        (with_name l "SubCategoryName" "SubCategoryId" "SubCategories"
          (without_drafts (field (remove_props l draftOnly σ) l "Id")
             (remove_props l draftOnly σ)))))) l "DimensionUnit").
  { unfold built. cbv zeta. by destruct (isNew _); bsimp. }
  rewrite field_with_text_same.
  set (σ5 := with_text _ _ _ _).
  assert (∀ x k, k ∉ "WeightUnit" :: "MainCategoryName" :: "SubCategoryName"
                       :: draftOnly →
            field σ5 x k = field σ x k) as Hkeep.
  { intros x k Hk. split_notin. subst σ5.
    rewrite field_with_text_key_ne by done.
    rewrite !field_with_name_key_ne, field_without_drafts by done.
    by apply field_remove_props_notin. }
  rewrite Hkeep by (unfold draftOnly; solve_notin).
  apply convert_ext_keys.
  - subst σ5. unfold with_text, with_name. fsimp.
    rewrite rows_without_drafts, rows_remove_props. by rewrite decide_False.
  - intros x _. split; apply Hkeep; unfold draftOnly; solve_notin.
Qed.

Lemma field_built_ImageUrl l σ :
  field (built l σ) l "ImageUrl"
  = if isNew (field σ l "IsNewProduct") && negb (truthy (field σ l "ImageUrl"))
    then VStr "" else field σ l "ImageUrl".
Proof.
  unfold built. cbv zeta. destruct (isNew _); cbn [andb].
  - rewrite field_with_new_defaults_ImageUrl. bsimp.
    by destruct (truthy _).
  - by bsimp.
Qed.

Lemma convert_noMatch n from to v σ :
  noMatch σ from v (getEntitySetData n σ) → convert n from to v σ = VUndef.
Proof. intros H. unfold convert. by rewrite found_noMatch. Qed.
End built_units.

(** X15: the product that [_buildProductFromDraft] returns has as WeightUnit
    and DimensionUnit the texts that [_getWeightText] and [_getDimensionText]
    give for the draft's unit codes in the store as it was, so a code that is
    in no row of the unit table leaves the unit [undefined]; its ImageUrl is
    the empty string when the draft is a new product without (or with an
    empty) ImageUrl, and the draft's ImageUrl otherwise; and it has none of
    the properties __metadata, Images, IsNewProduct, ExpiresAt, ProductId and
    IsDirty. *)
Theorem X15_built_units_and_image l σ :
  ∃ σ', _buildProductFromDraft (VRef l) σ = Ok (VRef l) σ'
    ∧ _getWeightText (field σ l "WeightUnit") σ = Ok (field σ' l "WeightUnit") σ
    ∧ _getDimensionText (field σ l "DimensionUnit") σ
      = Ok (field σ' l "DimensionUnit") σ
    ∧ (noMatch σ "Unit" (field σ l "WeightUnit") (getEntitySetData "WeightUnits" σ) →
       field σ' l "WeightUnit" = VUndef)
    ∧ (noMatch σ "Unit" (field σ l "DimensionUnit")
         (getEntitySetData "DimensionUnits" σ) →
       field σ' l "DimensionUnit" = VUndef)
    ∧ field σ' l "ImageUrl"
      = (if isNew (field σ l "IsNewProduct") && negb (truthy (field σ l "ImageUrl"))
         then VStr "" else field σ l "ImageUrl")
    ∧ (∀ k, k ∈ [ "__metadata"; "Images"; "IsNewProduct"; "ExpiresAt";
                  "ProductId"; "IsDirty" ] → field σ' l k = VUndef).
Proof.
  rewrite _buildProductFromDraft_run. eexists. split; [reflexivity|].
  rewrite field_built_WeightUnit, field_built_DimensionUnit, field_built_ImageUrl.
  split; [by rewrite _getWeightText_run|].
  split; [by rewrite _getDimensionText_run|].
  split; [apply convert_noMatch|]. split; [apply convert_noMatch|].
  split; [done|]. intros k Hk. by apply field_built_deleted.
Qed.

Lemma X15_built_units_and_image_witness :
  noMatch addedDraft "Unit" (field addedDraft 0 "WeightUnit")
    (getEntitySetData "WeightUnits" addedDraft)
  ∧ ∃ σ', _buildProductFromDraft (VRef 0) addedDraft = Ok (VRef 0) σ'
      ∧ field σ' 0 "WeightUnit" = VUndef
      ∧ field σ' 0 "ImageUrl" = VStr "".
Proof.
  assert (noMatch addedDraft "Unit" (field addedDraft 0 "WeightUnit")
            (getEntitySetData "WeightUnits" addedDraft)) as Hno.
  { intros x Hx. by apply elem_of_nil in Hx. }
  split; [done|].
  destruct (X15_built_units_and_image 0 addedDraft)
    as (σ' & Hrun & _ & _ & Hw & _ & Hi & _).
  exists σ'. split; [done|]. split; [by apply Hw|].
  rewrite Hi. vm_compute. reflexivity.
Defined.

(** ** Copying a product and activating the copy *)

Section copy_lemmas.
Variables (sProductId : string) (σ : state).
Hypothesis Hwf : rowsAllocated σ.
Hypothesis Hnone :
  noMatch σ "Id" (VStr (newId σ)) (getEntitySetData "ProductDrafts" σ).

Let c := next_loc σ.
Let σ1 := drafted sProductId true σ.

Lemma copy_found : found "ProductDrafts" (VStr (newId σ)) "Id" σ1 = VRef c.
Proof.
  unfold found, σ1.
  pose proof (matching_drafted sProductId true σ Hwf) as Hm. cbv zeta in Hm.
  rewrite Hm. by rewrite matching_noMatch.
Qed.

Lemma copy_is_new : isNew (field σ1 c "IsNewProduct") = true.
Proof. unfold σ1, c. by rewrite field_drafted_IsNewProduct. Qed.

Lemma copy_live : live σ1 c.
Proof. apply live_drafted_new. Qed.

Lemma rowsAllocated_drafted : rowsAllocated σ1.
Proof.
  apply (rowsAllocated_step σ); [done|apply live_drafted|].
  intros n x. unfold σ1. rewrite rows_drafted. destruct (decide _); [|by left].
  intros Hx. apply elem_of_app in Hx as [?|Hx]; [by left|right].
  apply list_elem_of_singleton in Hx as ->. apply live_drafted_new.
Qed.

Lemma rows_copy_activated n :
  getEntitySetData n (activated c σ1)
  = if decide (n = "Products") then getEntitySetData n σ ++ [c]
    else getEntitySetData n σ.
Proof.
  rewrite rows_activated, copy_is_new. unfold σ1.
  rewrite !rows_drafted. destruct (decide (n = "ProductDrafts")) as [->|].
  - rewrite decide_False by done.
    rewrite filter_app, filter_cons_False, filter_nil, app_nil_r.
    + rewrite filter_all; [done|]. intros x Hx.
      rewrite !field_drafted_old by (by apply (Hwf "ProductDrafts")).
      fold c. rewrite field_drafted_Id. by apply Hnone.
    + by intros H.
  - by destruct (decide _).
Qed.

Lemma field_copy_activated_old x k :
  live σ x → field (activated c σ1) x k = field σ x k.
Proof.
  intros Hx. pose proof (live_not_next _ _ Hx) as Hne. fold c in Hne.
  unfold activated. cbv zeta. rewrite isNew_alt, copy_is_new.
  rewrite field_created_product_old;
    [|by apply live_built, live_drafted|by left].
  rewrite field_built_loc_ne by done. by apply field_drafted_old.
Qed.

Lemma field_copy_activated_own k :
  k ≠ "__metadata" → field (activated c σ1) c k = field (built c σ1) c k.
Proof. intros. apply field_activated_own; [apply copy_live|done]. Qed.
End copy_lemmas.

(** X16: copying a product and activating the copy, when no draft has the
    generated id yet, adds exactly one product row, the new object, and
    leaves ProductDrafts and every object that was in use, the copied product
    among them, as before.  The new product has the generated id, zero
    RatingCount, AverageRating and StockQuantity, and all the properties of
    the source that neither flow writes or deletes as the source has them.
    The activation's response carries the new product unless a product had
    the generated id already. *)
Theorem X16_copy_then_activate sProductId σ :
  rowsAllocated σ →
  noMatch σ "Id" (VStr (newId σ)) (getEntitySetData "ProductDrafts" σ) →
  ∃ r1 σ1 r2 σ2,
    _createDraft sProductId true σ = Ok r1 σ1
    ∧ _mockActivateProduct_response (Encoded (newId σ)) σ1 = Ok r2 σ2
    ∧ getEntitySetData "Products" σ2
      = getEntitySetData "Products" σ ++ [next_loc σ]
    ∧ (∀ n, n ≠ "Products" → getEntitySetData n σ2 = getEntitySetData n σ)
    ∧ (∀ x k, live σ x → field σ2 x k = field σ x k)
    ∧ field σ2 (next_loc σ) "Id" = VStr (newId σ)
    ∧ (∀ k, k ∈ [ "RatingCount"; "AverageRating"; "StockQuantity" ] →
            field σ2 (next_loc σ) k = VNum 0)
    ∧ (∀ k, k ∉ productOnly ++ draftKeys ++ draftOnly ++ convertedKeys
                  ++ newProductKeys →
         let vProduct := found "Products" (VStr sProductId) "Id" σ in
         prop_of σ vProduct k ≠ VRef (next_loc σ) →
         field σ2 (next_loc σ) k = prop_of σ vProduct k)
    ∧ (noMatch σ "Id" (VStr (newId σ)) (getEntitySetData "Products" σ) →
       d r2 = VRef (next_loc σ)).
Proof.
  intros Hwf Hnone. rewrite _createDraft_run. cbv zeta.
  eexists _, _, _, _. split; [reflexivity|].
  rewrite (_mockActivateProduct_run _ (next_loc σ)) by (by apply copy_found).
  cbv zeta. split; [reflexivity|]. cbn [d].
  assert (field (built (next_loc σ) (drafted sProductId true σ)) (next_loc σ) "Id"
          = VStr (newId σ)) as Hid.
  { rewrite field_built_keeps
      by (unfold draftOnly, convertedKeys, newProductKeys; solve_notin).
    apply field_drafted_Id. }
  split; [by rewrite rows_copy_activated, decide_True|].
  split; [intros n Hn; by rewrite rows_copy_activated, decide_False|].
  split; [intros x k Hx; by apply field_copy_activated_old|].
  split; [by rewrite field_copy_activated_own|].
  split.
  { intros k Hk. rewrite field_copy_activated_own.
    - apply field_built_zero; [apply copy_is_new|done].
    - intros ->.
      repeat (apply elem_of_cons in Hk as [Hk|Hk]; [discriminate Hk|]).
      by apply elem_of_nil in Hk. }
  split.
  { intros k Hk Hself. split_notin.
    rewrite field_copy_activated_own
      by (match goal with H : k ∉ productOnly |- _ =>
            unfold productOnly in H; split_notin; done end).
    rewrite field_built_keeps
      by (repeat (apply not_elem_of_app; split); assumption).
    apply field_drafted_copy; [by apply not_elem_of_app|done]. }
  intros Hno. rewrite field_copy_activated_own, Hid by done.
  unfold found.
  rewrite matching_activated
    by first [by apply rowsAllocated_drafted | apply copy_live].
  rewrite (copy_is_new sProductId σ).
  rewrite (matching_ext "Id" _ σ (drafted sProductId true σ)).
  - rewrite rows_drafted, decide_False by done.
    rewrite matching_noMatch by done. unfold matching.
    rewrite filter_cons_True; [done|]. apply strict_eq_true.
    by rewrite field_drafted_Id.
  - intros x Hx. apply field_drafted_old.
    rewrite rows_drafted, decide_False in Hx by done.
    by apply (Hwf "Products").
Qed.

Lemma X16_copy_then_activate_witness :
  (rowsAllocated htProduct
   ∧ noMatch htProduct "Id" (VStr (newId htProduct))
       (getEntitySetData "ProductDrafts" htProduct))
  ∧ ∃ r1 σ1 r2 σ2,
      _createDraft "HT-1000" true htProduct = Ok r1 σ1
      ∧ _mockActivateProduct_response (Encoded "EPM-1") σ1 = Ok r2 σ2
      ∧ getEntitySetData "Products" σ2 = [0; 1]
      ∧ field σ2 1 "Id" = VStr "EPM-1"
      ∧ field σ2 0 "Id" = VStr "HT-1000".
Proof.
  assert (rowsAllocated htProduct) as Hwf.
  { apply rowsAllocated_check. vm_compute. reflexivity. }
  assert (noMatch htProduct "Id" (VStr (newId htProduct))
            (getEntitySetData "ProductDrafts" htProduct)) as Hno.
  { intros x Hx. by apply elem_of_nil in Hx. }
  split; [done|].
  destruct (X16_copy_then_activate "HT-1000" htProduct Hwf Hno)
    as (r1 & σ1 & r2 & σ2 & H1 & H2 & Hrows & _ & Hold & Hid & _).
  exists r1, σ1, r2, σ2. split; [done|]. split; [exact H2|].
  split; [rewrite Hrows; vm_compute; reflexivity|].
  split; [exact Hid|].
  rewrite Hold; [vm_compute; reflexivity|].
  apply live_field with "Id". vm_compute. discriminate.
Defined.

(** ** The two ways of defaulting an added draft *)


Section defaulting_lemmas.
Implicit Types (σ : state) (l x : loc) (k n : string) (v : value) (o s : obj).

Lemma state_eq σ σ' :
  heap σ = heap σ' → entitySets σ = entitySets σ' →
  instanceFields σ = instanceFields σ' → σ = σ'.
Proof.
  destruct σ, σ'. unfold instanceFields. simpl. intros -> -> [= -> -> -> ->]. done.
Qed.

Lemma heap_place l o σ : heap (place l o σ) = <[l := o]> (heap σ).
Proof. reflexivity. Qed.

Lemma place_place l o o' σ : place l o (place l o' σ) = place l o σ.
Proof.
  apply state_eq; [|done..]. rewrite !heap_place. apply insert_insert_eq.
Qed.

Lemma extended_idemp l s σ :
  extended l (λ _, s) (extended l (λ _, s) σ) = extended l (λ _, s) σ.
Proof.
  unfold extended at 1. rewrite hobj_extended, decide_True by done.
  rewrite extend_fields_idemp. unfold extended. apply place_place.
Qed.

Lemma put_rows_same n x σ :
  x ∈ getEntitySetData n σ → put_rows n (getEntitySetData n σ) σ = σ.
Proof.
  intros Hx. apply state_eq; [done| |done].
  change (entitySets (put_rows n (getEntitySetData n σ) σ))
    with (<[n := getEntitySetData n σ]> (entitySets σ)).
  apply insert_id. unfold getEntitySetData in *.
  destruct (entitySets σ !! n); [done|]. by apply elem_of_nil in Hx.
Qed.

Lemma oget_defaults_other k :
  k ∉ defaultKeys → oget _oNewDraftDefaultValues k = VUndef.
Proof.
  unfold defaultKeys. intros Hk. split_notin.
  unfold oget, _oNewDraftDefaultValues.
  by rewrite !lookup_insert_ne, lookup_singleton_ne.
Qed.

Lemma field_extended_defaults l σ x k :
  x ≠ l ∨ k ∉ defaultKeys →
  field (extended l (λ _, _oNewDraftDefaultValues) σ) x k = field σ x k.
Proof.
  intros H. rewrite field_extended. destruct (decide (x = l)) as [->|]; [|done].
  destruct H as [?|Hk]; [done|].
  rewrite oget_extend_fields, oget_defaults_other by done.
  rewrite decide_False; [done|]. by intros [? _].
Qed.

(** Merging a constant object into the rows with an id, when only [l] can
    have that id. *)
Lemma merged_only l sId s a σ :
  oget s "Id" = VUndef →
  (∀ x, x ∈ a → field σ x "Id" = sId → x = l) →
  merged sId (λ _, s) a σ
  = if decide (l ∈ a ∧ field σ l "Id" = sId)
    then extended l (λ _, s) σ else σ.
Proof.
  intros Hs. revert σ. induction a as [|y a IH]; intros σ Honly.
  - cbn [merged]. rewrite decide_False; [done|].
    intros [H _]. by apply elem_of_nil in H.
  - cbn [merged]. destruct (decide (field σ y "Id" = sId)) as [Hy|Hy].
    + assert (y = l) as -> by (apply Honly; [by left|done]).
      unfold strict_eq. rewrite bool_decide_eq_true_2 by done.
      assert (∀ x, field (extended l (λ _, s) σ) x "Id" = field σ x "Id") as Hid.
      { intros x. rewrite field_extended. destruct (decide _) as [->|]; [|done].
        apply oget_extend_fields_Id. by left. }
      rewrite IH.
      * rewrite extended_idemp, (decide_True (P := l ∈ l :: a ∧ _));
          [|split; [by left|done]].
        by destruct (decide _).
      * intros x Hx. rewrite Hid. intros E. apply Honly; [by right|done].
    + unfold strict_eq. rewrite bool_decide_eq_false_2 by done.
      rewrite IH by (intros x Hx; apply Honly; by right).
      destruct (decide (l ∈ a ∧ _)) as [[Hin E]|Hn].
      * rewrite decide_True; [done|]. split; [by right|done].
      * rewrite decide_False; [done|]. intros [Hin E]. apply Hn. split; [|done].
        apply elem_of_cons in Hin as [->|Hin]; [by destruct Hy|done].
Qed.
End defaulting_lemmas.

(** X17: the after-creation hook changes nothing but the seven default
    properties of the created draft: every other property of the draft, every
    other object, the rows of all entity sets and the instance fields are as
    before.  Running it a second time changes nothing. *)
Theorem X17_defaulting_frame l σ :
  ∃ σ', onAfterDraftCreated l σ = Ok tt σ'
    ∧ (∀ n, getEntitySetData n σ' = getEntitySetData n σ)
    ∧ (∀ x k, x ≠ l ∨ k ∉ defaultKeys → field σ' x k = field σ x k)
    ∧ instanceFields σ' = instanceFields σ
    ∧ onAfterDraftCreated l σ' = Ok tt σ'.
Proof.
  rewrite onAfterDraftCreated_run. eexists. split; [reflexivity|].
  destruct (negb (truthy (field σ l "ProductId"))) eqn:Hp.
  - split; [done|]. split; [intros x k; apply field_extended_defaults|].
    split; [done|].
    rewrite onAfterDraftCreated_run, field_extended_defaults, Hp
      by (right; unfold defaultKeys; solve_notin).
    by rewrite extended_idemp.
  - split; [done|]. split; [done|]. split; [done|].
    by rewrite onAfterDraftCreated_run, Hp.
Qed.

(** X18: for a draft row whose Id no other draft row has, the extra mock
    request of older servers, given the created draft as the response text
    has it, leaves exactly the state that the after-creation hook leaves. *)
Theorem X18_defaulting_paths_agree l oDraft σ :
  l ∈ getEntitySetData "ProductDrafts" σ →
  (∀ x, x ∈ getEntitySetData "ProductDrafts" σ →
        field σ x "Id" = field σ l "Id" → x = l) →
  oget oDraft "Id" = field σ l "Id" →
  oget oDraft "ProductId" = field σ l "ProductId" →
  _mockAddProduct_response oDraft σ = onAfterDraftCreated l σ.
Proof.
  intros Hin Honly Hid Hpid.
  rewrite _mockAddProduct_response_run, onAfterDraftCreated_run, Hpid, Hid.
  destruct (negb _); [|done]. f_equal.
  unfold updated. rewrite (merged_only l) by done.
  rewrite decide_True by done.
  change (getEntitySetData "ProductDrafts" σ)
    with (getEntitySetData "ProductDrafts"
            (extended l (λ _, _oNewDraftDefaultValues) σ)).
  by apply (put_rows_same _ l).
Qed.

Lemma X18_defaulting_paths_agree_witness :
  (0 ∈ getEntitySetData "ProductDrafts" twoDrafts
   ∧ (∀ x, x ∈ getEntitySetData "ProductDrafts" twoDrafts →
           field twoDrafts x "Id" = field twoDrafts 0 "Id" → x = 0))
  ∧ _mockAddProduct_response {[ "Id" := VStr "D1" ]} twoDrafts
    = onAfterDraftCreated 0 twoDrafts.
Proof.
  assert (0 ∈ getEntitySetData "ProductDrafts" twoDrafts) as Hin by (by left).
  assert (∀ x, x ∈ getEntitySetData "ProductDrafts" twoDrafts →
               field twoDrafts x "Id" = field twoDrafts 0 "Id" → x = 0) as Honly.
  { intros x Hx. apply elem_of_cons in Hx as [->|Hx]; [done|].
    apply list_elem_of_singleton in Hx as ->. vm_compute. discriminate. }
  split; [done|].
  apply (X18_defaulting_paths_agree 0 _ twoDrafts Hin Honly);
    vm_compute; reflexivity.
Defined.

(** ** Units on the way to the draft and back *)


Section draft_units.
Implicit Types (σ : state) (l x e : loc) (k n f : string) (v : value).

Lemma convert_back n σ e :
  e ∈ getEntitySetData n σ → unitDeterminesText n σ →
  convert n "Unit" "Shorttext"
    (convert n "Shorttext" "Unit" (field σ e "Shorttext") σ) σ
  = field σ e "Shorttext".
Proof.
  intros He Hdet. unfold convert at 2.
  destruct (found_some n (field σ e "Shorttext") "Shorttext" σ e He eq_refl)
    as [e1 H1].
  rewrite H1. cbn [prop_of].
  apply found_ref_inv, firstMatch_elem in H1 as [Hin1 Hu1].
  unfold convert.
  destruct (found_some n (field σ e1 "Unit") "Unit" σ e1 Hin1 eq_refl)
    as [e2 H2].
  rewrite H2. cbn [prop_of].
  apply found_ref_inv, firstMatch_elem in H2 as [Hin2 Ht2].
  rewrite <-Hu1. by apply Hdet.
Qed.

Lemma field_with_unit_same σ l vP f t :
  field (with_unit l vP f t σ) l f
  = convert t "Shorttext" "Unit" (prop_of σ vP f) σ.
Proof. unfold with_unit. by fsimp. Qed.

(** The stages of [_createDraft] before the units are converted. *)
Let copied (sProductId : string) (b : bool) σ : state :=
  identified (next_loc σ) sProductId b
    (stamped (next_loc σ) b
      (remove_props (next_loc σ) productOnly
        (extended (next_loc σ)
           (props_of (found "Products" (VStr sProductId) "Id" σ))
           (allocated ∅ σ)))).

Lemma field_copied_old sProductId b σ x k :
  live σ x → field (copied sProductId b σ) x k = field σ x k.
Proof.
  intros H. pose proof (live_not_next _ _ H) as Hne. unfold copied.
  dsimp. rewrite field_extended, decide_False by done.
  by apply field_allocated_old.
Qed.

Lemma rows_copied sProductId b σ n :
  getEntitySetData n (copied sProductId b σ) = getEntitySetData n σ.
Proof. by destruct b. Qed.

Lemma prop_of_copied sProductId b σ k :
  rowsAllocated σ →
  let vProduct := found "Products" (VStr sProductId) "Id" σ in
  prop_of (copied sProductId b σ) vProduct k = prop_of σ vProduct k.
Proof.
  intros Hwf vProduct. destruct vProduct as [| | | | |p] eqn:E; try done.
  apply found_ref_inv, firstMatch_elem in E as [Hp _]. simpl.
  apply field_copied_old. by apply (Hwf "Products").
Qed.

Lemma field_drafted_WeightUnit sProductId b σ :
  rowsAllocated σ →
  field (drafted sProductId b σ) (next_loc σ) "WeightUnit"
  = convert "WeightUnits" "Shorttext" "Unit"
      (prop_of σ (found "Products" (VStr sProductId) "Id" σ) "WeightUnit") σ.
Proof.
  intros Hwf. unfold drafted. cbv zeta.
  rewrite field_created_draft_old; [|auto 12 with live|right; solve_notin].
  rewrite field_with_unit_key_ne by done.
  rewrite field_with_unit_same. fold (copied sProductId b σ).
  rewrite prop_of_copied by done.
  apply convert_ext_keys; [apply rows_copied|].
  intros x Hx. split; apply field_copied_old; by apply (Hwf "WeightUnits").
Qed.

Lemma field_drafted_DimensionUnit sProductId b σ :
  rowsAllocated σ →
  field (drafted sProductId b σ) (next_loc σ) "DimensionUnit"
  = convert "DimensionUnits" "Shorttext" "Unit"
      (prop_of σ (found "Products" (VStr sProductId) "Id" σ) "DimensionUnit") σ.
Proof.
  intros Hwf. unfold drafted. cbv zeta.
  rewrite field_created_draft_old; [|auto 12 with live|right; solve_notin].
  rewrite field_with_unit_same. fold (copied sProductId b σ).
  set (vP := found "Products" (VStr sProductId) "Id" σ).
  set (σ4 := with_unit _ _ "WeightUnit" _ _).
  assert (∀ x k, live σ x → field σ4 x k = field σ x k) as Hold.
  { intros x k Hx. unfold σ4.
    rewrite field_with_unit_loc_ne by (by apply live_not_next).
    by apply field_copied_old. }
  assert (prop_of σ4 vP "DimensionUnit" = prop_of σ vP "DimensionUnit") as ->.
  { unfold vP. destruct (found _ _ _ σ) as [| | | | |p] eqn:E; try done.
    apply found_ref_inv, firstMatch_elem in E as [Hp _]. simpl.
    apply Hold. by apply (Hwf "Products"). }
  apply convert_ext_keys.
  - unfold σ4, with_unit. fsimp. apply rows_copied.
  - intros x Hx. split; apply Hold; by apply (Hwf "DimensionUnits").
Qed.
End draft_units.

(** X19: the draft that [_createDraft] creates has as WeightUnit and
    DimensionUnit the unit codes that [_getWeightUnit] and
    [_getDimensionUnit] give for the product's unit texts, so a text that is
    in no row of the unit table (or a missing product) leaves the draft's
    unit [undefined]. *)
Theorem X19_draft_units sProductId b σ :
  rowsAllocated σ →
  let vProduct := found "Products" (VStr sProductId) "Id" σ in
  ∃ r σ', _createDraft sProductId b σ = Ok r σ'
    ∧ _getWeightUnit (prop_of σ vProduct "WeightUnit") σ
      = Ok (field σ' (next_loc σ) "WeightUnit") σ
    ∧ _getDimensionUnit (prop_of σ vProduct "DimensionUnit") σ
      = Ok (field σ' (next_loc σ) "DimensionUnit") σ
    ∧ (noMatch σ "Shorttext" (prop_of σ vProduct "WeightUnit")
         (getEntitySetData "WeightUnits" σ) →
       field σ' (next_loc σ) "WeightUnit" = VUndef)
    ∧ (noMatch σ "Shorttext" (prop_of σ vProduct "DimensionUnit")
         (getEntitySetData "DimensionUnits" σ) →
       field σ' (next_loc σ) "DimensionUnit" = VUndef).
Proof.
  intros Hwf vProduct. rewrite _createDraft_run. cbv zeta.
  eexists _, _. split; [reflexivity|].
  rewrite field_drafted_WeightUnit, field_drafted_DimensionUnit by done.
  fold vProduct.
  split; [by rewrite _getWeightUnit_run|].
  split; [by rewrite _getDimensionUnit_run|].
  split; apply convert_noMatch.
Qed.

Lemma X19_draft_units_witness :
  rowsAllocated kiloProduct
  ∧ ∃ r σ', _createDraft "HT-1000" false kiloProduct = Ok r σ'
      ∧ field σ' (next_loc kiloProduct) "WeightUnit" = VStr "KG"
      ∧ field σ' (next_loc kiloProduct) "DimensionUnit" = VUndef.
Proof.
  assert (rowsAllocated kiloProduct) as Hwf.
  { apply rowsAllocated_check. vm_compute. reflexivity. }
  split; [done|].
  destruct (X19_draft_units "HT-1000" false kiloProduct Hwf)
    as (r & σ' & Hrun & Hw & _ & _ & Hd).
  exists r, σ'. split; [done|]. split.
  - rewrite _getWeightUnit_run in Hw. injection Hw as Hw. rewrite <-Hw.
    vm_compute. reflexivity.
  - apply Hd. intros x Hx. apply list_elem_of_singleton in Hx as ->.
    vm_compute. discriminate.
Defined.

Section unit_roundtrip.
Variables (sProductId : string) (p : loc) (σ : state).
Hypothesis Hfound : found "Products" (VStr sProductId) "Id" σ = VRef p.
Hypothesis Hnone :
  noMatch σ "Id" (VStr sProductId) (getEntitySetData "ProductDrafts" σ).
Hypothesis Hwf : rowsAllocated σ.

Lemma edit_draft_found :
  found "ProductDrafts" (VStr sProductId) "Id" (drafted sProductId false σ)
  = VRef (next_loc σ).
Proof.
  unfold found.
  pose proof (matching_drafted sProductId false σ Hwf) as Hm. cbv zeta in Hm.
  rewrite Hm. by rewrite matching_noMatch.
Qed.

Lemma edited_product_live : live σ p.
Proof.
  apply found_ref_inv, firstMatch_elem in Hfound as [Hin _].
  by apply (Hwf "Products").
Qed.

(** A property of the product after the round trip is the one the built
    product has, or the one the product had. *)
Lemma field_roundtrip_cases k :
  field (activated (next_loc σ) (drafted sProductId false σ)) p k
  = field (built (next_loc σ) (drafted sProductId false σ)) (next_loc σ) k
  ∨ field (activated (next_loc σ) (drafted sProductId false σ)) p k
    = field σ p k.
Proof.
  pose proof edited_product_live as Hp.
  pose proof (live_not_next _ _ Hp) as Hne.
  unfold activated. cbv zeta.
  rewrite isNew_alt, field_drafted_IsNewProduct. cbn [isNew typeof_undefined truthy].
  set (σ1 := drafted sProductId false σ). set (l := next_loc σ).
  rewrite (field_updated _ _ _ (hobj (heap (built l σ1)) l))
    by first [done | apply stable_object].
  assert (field (built l σ1) p k = field σ p k) as ->.
  { rewrite field_built_loc_ne by done. by apply field_drafted_old. }
  destruct (decide _); [|by right].
  destruct (decide _); [by left|by right].
Qed.

Lemma unit_roundtrip f n e :
  (f = "WeightUnit" ∧ n = "WeightUnits")
  ∨ (f = "DimensionUnit" ∧ n = "DimensionUnits") →
  e ∈ getEntitySetData n σ → field σ e "Shorttext" = field σ p f →
  unitDeterminesText n σ →
  field (activated (next_loc σ) (drafted sProductId false σ)) p f = field σ p f.
Proof.
  intros Hfn He Het Hdet.
  destruct (field_roundtrip_cases f) as [-> | ->]; [|done].
  assert (convert n "Unit" "Shorttext"
            (convert n "Shorttext" "Unit" (field σ p f) σ)
            (drafted sProductId false σ) = field σ p f) as Hback.
  { rewrite (convert_ext n _ _ _ σ).
    - rewrite <-Het. by apply convert_back.
    - rewrite rows_drafted, decide_False; [done|].
      by destruct Hfn as [[_ ->]|[_ ->]].
    - intros x k Hx. apply field_drafted_old. by apply (Hwf n). }
  destruct Hfn as [[-> ->]|[-> ->]].
  - rewrite field_built_WeightUnit, field_drafted_WeightUnit, Hfound by done.
    exact Hback.
  - rewrite field_built_DimensionUnit, field_drafted_DimensionUnit, Hfound by done.
    exact Hback.
Qed.
End unit_roundtrip.

(** X20: editing a product and activating the edit, with no draft of its id
    pending, brings back the product's WeightUnit text when that text is the
    Shorttext of a row of WeightUnits and no two rows of the table have the
    same Unit with different texts; likewise the DimensionUnit with the
    DimensionUnits table. *)
Theorem X20_edit_roundtrip_units sProductId p σ e :
  _getProduct (VStr sProductId) σ = Ok (VRef p) σ →
  noMatch σ "Id" (VStr sProductId) (getEntitySetData "ProductDrafts" σ) →
  rowsAllocated σ →
  ∃ r1 σ1 r2 σ2,
    _createDraft sProductId false σ = Ok r1 σ1
    ∧ _mockActivateProduct_response (Encoded sProductId) σ1 = Ok r2 σ2
    ∧ (e ∈ getEntitySetData "WeightUnits" σ →
       field σ e "Shorttext" = field σ p "WeightUnit" →
       unitDeterminesText "WeightUnits" σ →
       field σ2 p "WeightUnit" = field σ p "WeightUnit")
    ∧ (e ∈ getEntitySetData "DimensionUnits" σ →
       field σ e "Shorttext" = field σ p "DimensionUnit" →
       unitDeterminesText "DimensionUnits" σ →
       field σ2 p "DimensionUnit" = field σ p "DimensionUnit").
Proof.
  rewrite _getProduct_run. intros [= Hfound] Hnone Hwf.
  rewrite _createDraft_run. cbv zeta.
  eexists _, _, _, _. split; [reflexivity|].
  rewrite (_mockActivateProduct_run _ (next_loc σ))
    by (by apply edit_draft_found).
  cbv zeta. split; [reflexivity|].
  split; intros He Het Hdet.
  - apply (unit_roundtrip sProductId p σ Hfound Hwf _ "WeightUnits" e);
      auto.
  - apply (unit_roundtrip sProductId p σ Hfound Hwf _ "DimensionUnits" e);
      auto.
Qed.

Lemma X20_edit_roundtrip_units_witness :
  (_getProduct (VStr "HT-1000") kiloProduct = Ok (VRef 0) kiloProduct
   ∧ noMatch kiloProduct "Id" (VStr "HT-1000")
       (getEntitySetData "ProductDrafts" kiloProduct)
   ∧ rowsAllocated kiloProduct
   ∧ 1 ∈ getEntitySetData "WeightUnits" kiloProduct
   ∧ field kiloProduct 1 "Shorttext" = field kiloProduct 0 "WeightUnit"
   ∧ unitDeterminesText "WeightUnits" kiloProduct)
  ∧ ∃ r1 σ1 r2 σ2,
      _createDraft "HT-1000" false kiloProduct = Ok r1 σ1
      ∧ _mockActivateProduct_response (Encoded "HT-1000") σ1 = Ok r2 σ2
      ∧ field σ2 0 "WeightUnit" = VStr "kg".
Proof.
  assert (_getProduct (VStr "HT-1000") kiloProduct = Ok (VRef 0) kiloProduct)
    as Hp by (vm_compute; reflexivity).
  assert (noMatch kiloProduct "Id" (VStr "HT-1000")
            (getEntitySetData "ProductDrafts" kiloProduct)) as Hno.
  { intros x Hx. by apply elem_of_nil in Hx. }
  assert (rowsAllocated kiloProduct) as Hwf.
  { apply rowsAllocated_check. vm_compute. reflexivity. }
  assert (1 ∈ getEntitySetData "WeightUnits" kiloProduct) as He by (by left).
  assert (field kiloProduct 1 "Shorttext" = field kiloProduct 0 "WeightUnit")
    as Het by (vm_compute; reflexivity).
  assert (unitDeterminesText "WeightUnits" kiloProduct) as Hdet.
  { intros e1 e2 H1 H2 _. apply list_elem_of_singleton in H1, H2. by subst. }
  split; [repeat split; assumption|].
  destruct (X20_edit_roundtrip_units "HT-1000" 0 kiloProduct 1 Hp Hno Hwf)
    as (r1 & σ1 & r2 & σ2 & H1 & H2 & Hw & _).
  exists r1, σ1, r2, σ2. split; [done|]. split; [exact H2|].
  rewrite (Hw He Het Hdet). vm_compute. reflexivity.
Defined.

(** ** What a session never does *)


Section session_lemmas.
Implicit Types (σ : state) (l x : loc) (k n : string) (v : value) (c : call).

Lemma live_run c σ x : live σ x → live (run c σ) x.
Proof.
  intros Hx. destruct c as [l|oDraft|[pid|]|[pid|]|[sDraftId|]].
  - rewrite run_AfterDraftCreated. destruct (negb _); auto with live.
  - rewrite run_AddProduct. destruct (negb _); [|done]. by apply live_updated.
  - rewrite run_EditProduct. by apply live_drafted, live_add_alert.
  - rewrite run_EditProduct_malformed. by apply live_add_alert.
  - rewrite run_CopyProduct. by apply live_drafted, live_add_alert.
  - rewrite run_CopyProduct_malformed. by apply live_add_alert.
  - rewrite run_ActivateProduct.
    destruct (found _ _ _ _); try (by apply live_without_drafts).
    by apply live_activated.
  - by rewrite run_ActivateProduct_malformed.
Qed.

Lemma field_Id_run c σ x : live σ x → field (run c σ) x "Id" = field σ x "Id".
Proof.
  intros Hx. destruct c as [l|oDraft|[pid|]|[pid|]|[sDraftId|]].
  - rewrite run_AfterDraftCreated. destruct (negb _); [|done].
    apply field_extended_defaults. right. unfold defaultKeys. solve_notin.
  - rewrite run_AddProduct. destruct (negb _); [|done].
    apply (field_updated_Id _ _ _ _oNewDraftDefaultValues); [done..|by left].
  - rewrite run_EditProduct.
    by rewrite field_drafted_old by (by apply live_add_alert).
  - by rewrite run_EditProduct_malformed.
  - rewrite run_CopyProduct.
    by rewrite field_drafted_old by (by apply live_add_alert).
  - by rewrite run_CopyProduct_malformed.
  - rewrite run_ActivateProduct.
    destruct (found _ _ _ _); try apply field_without_drafts.
    by apply field_activated_Id.
  - by rewrite run_ActivateProduct_malformed.
Qed.

Lemma rows_run c σ n :
  n ≠ "ProductDrafts" →
  ∃ added, getEntitySetData n (run c σ) = getEntitySetData n σ ++ added
    ∧ (length added ≤ if isActivate c then 1 else 0)%nat
    ∧ (n ≠ "Products" → added = [])
    ∧ (∀ x, x ∈ added → x ∈ getEntitySetData "ProductDrafts" σ).
Proof.
  intros Hn.
  assert (∀ σ', getEntitySetData n σ' = getEntitySetData n σ →
            ∃ added, getEntitySetData n σ' = getEntitySetData n σ ++ added
              ∧ (length added ≤ if isActivate c then 1 else 0)%nat
              ∧ (n ≠ "Products" → added = [])
              ∧ (∀ x, x ∈ added → x ∈ getEntitySetData "ProductDrafts" σ))
    as Hsame.
  { intros σ' ->. exists []. rewrite app_nil_r. split; [done|].
    split; [cbn; lia|]. split; [done|]. intros x Hx. by apply elem_of_nil in Hx. }
  destruct c as [l|oDraft|[pid|]|[pid|]|[sDraftId|]].
  - apply Hsame. rewrite run_AfterDraftCreated. by destruct (negb _).
  - apply Hsame. rewrite run_AddProduct. destruct (negb _); [|done].
    apply rows_updated.
  - apply Hsame. rewrite run_EditProduct. by rewrite rows_drafted, decide_False.
  - apply Hsame. by rewrite run_EditProduct_malformed.
  - apply Hsame. rewrite run_CopyProduct. by rewrite rows_drafted, decide_False.
  - apply Hsame. by rewrite run_CopyProduct_malformed.
  - rewrite run_ActivateProduct.
    destruct (found _ _ _ _) as [| | | | |l] eqn:E;
      try (apply Hsame; by rewrite rows_without_drafts, decide_False).
    rewrite rows_activated, decide_False by done.
    destruct (decide (n = "Products")) as [->|];
      [destruct (isNew _)|]; try (by apply Hsame).
    exists [l]. split; [done|]. split; [done|]. split; [done|].
    intros x Hx. apply list_elem_of_singleton in Hx as ->.
    by apply found_ref_inv, firstMatch_elem in E as [? _].
  - apply Hsame. by rewrite run_ActivateProduct_malformed.
Qed.

Lemma rowsAllocated_run c σ : rowsAllocated σ → rowsAllocated (run c σ).
Proof.
  intros Hwf. apply (rowsAllocated_step σ); [done|intros x; apply live_run|].
  intros n x Hx. destruct (decide (n = "ProductDrafts")) as [->|Hn].
  - destruct c as [l|oDraft|[pid|]|[pid|]|[sDraftId|]].
    + left. rewrite run_AfterDraftCreated in Hx. by destruct (negb _).
    + left. rewrite run_AddProduct in Hx. destruct (negb _); [|done].
      by rewrite rows_updated in Hx.
    + rewrite run_EditProduct in *. rewrite rows_drafted, decide_True in Hx by done.
      apply elem_of_app in Hx as [?|Hx]; [by left|right].
      apply list_elem_of_singleton in Hx as ->. apply live_drafted_new.
    + left. by rewrite run_EditProduct_malformed in Hx.
    + rewrite run_CopyProduct in *. rewrite rows_drafted, decide_True in Hx by done.
      apply elem_of_app in Hx as [?|Hx]; [by left|right].
      apply list_elem_of_singleton in Hx as ->. apply live_drafted_new.
    + left. by rewrite run_CopyProduct_malformed in Hx.
    + left. rewrite run_ActivateProduct in Hx.
      destruct (found _ _ _ _);
        try (rewrite rows_without_drafts, decide_True in Hx by done;
             by apply list_elem_of_filter in Hx as [_ ?]).
      rewrite rows_activated, decide_True in Hx by done.
      by apply list_elem_of_filter in Hx as [_ ?].
    + left. by rewrite run_ActivateProduct_malformed in Hx.
  - destruct (rows_run c σ n Hn) as (added & Hrows & _ & _ & Hadded).
    rewrite Hrows in Hx. apply elem_of_app in Hx as [?|Hx]; [by left|right].
    apply live_run, (Hwf "ProductDrafts"), Hadded, Hx.
Qed.
End session_lemmas.

(** X21: whatever is called in a session, no object in use is dropped and
    none changes its Id; the rows of MainCategories, SubCategories,
    WeightUnits and DimensionUnits stay as they are; Products keeps its rows
    in their order and only gets rows appended, at most one for each
    Activate call; and when every row is an object at the start, every row
    is one at the end. *)
Theorem X21_session_never_drops cs σ :
  (∀ x, live σ x →
     live (run_all cs σ) x ∧ field (run_all cs σ) x "Id" = field σ x "Id")
  ∧ (∀ n, n ≠ "Products" → n ≠ "ProductDrafts" →
       getEntitySetData n (run_all cs σ) = getEntitySetData n σ)
  ∧ (∃ added,
       getEntitySetData "Products" (run_all cs σ)
       = getEntitySetData "Products" σ ++ added
       ∧ (length added ≤ length (filter isActivate cs))%nat)
  ∧ (rowsAllocated σ → rowsAllocated (run_all cs σ)).
Proof.
  induction cs as [|c cs IH] using rev_ind.
  - split; [done|]. split; [done|]. split; [|done].
    exists []. by rewrite app_nil_r.
  - destruct IH as (Hlive & Htab & (added & Hprod & Hlen) & Hwf).
    rewrite run_all_snoc.
    split; [|split; [|split]].
    + intros x Hx. destruct (Hlive x Hx) as [Hl Hid].
      split; [by apply live_run|]. by rewrite field_Id_run.
    + intros n Hn Hn'.
      destruct (rows_run c (run_all cs σ) n Hn') as (a & -> & _ & Hnil & _).
      rewrite (Hnil Hn), app_nil_r. by apply Htab.
    + destruct (rows_run c (run_all cs σ) "Products") as (a & -> & Ha & _);
        [done|].
      exists (added ++ a). rewrite Hprod, app_assoc. split; [done|].
      rewrite filter_app, !length_app, filter_cons, filter_nil.
      destruct (isActivate c); case_decide; try done; cbn [length] in *; lia.
    + intros H. by apply rowsAllocated_run, Hwf.
Qed.

(** ** Activating a new product, and activating twice *)

(** X22: activating a draft that is a new product (IsNewProduct true or
    undefined) changes no object in use but the draft, which becomes the
    product: the products that were there keep all their properties, also a
    product that has the draft's id already, and Products then has two rows
    with this id. *)
Theorem X22_new_product_frame sDraftId l σ :
  _getProductDraft (VStr sDraftId) σ = Ok (VRef l) σ →
  isNew (field σ l "IsNewProduct") = true →
  rowsAllocated σ →
  ∃ r σ', _mockActivateProduct_response (Encoded sDraftId) σ = Ok r σ'
    ∧ getEntitySetData "Products" σ' = getEntitySetData "Products" σ ++ [l]
    ∧ field σ' l "Id" = VStr sDraftId
    ∧ (∀ x k, live σ x → x ≠ l → field σ' x k = field σ x k)
    ∧ (∀ p, p ∈ getEntitySetData "Products" σ → field σ p "Id" = VStr sDraftId →
         p ≠ l →
         ¬ NoDup (ids "Products" σ')).
Proof.
  rewrite _getProductDraft_run. intros [= Hfound] Hnew Hwf.
  destruct (draft_row_live _ _ _ Hfound Hwf) as [Hl Hid].
  rewrite (_mockActivateProduct_run _ l) by done. cbv zeta.
  eexists _, _. split; [reflexivity|].
  assert (getEntitySetData "Products" (activated l σ)
          = getEntitySetData "Products" σ ++ [l]) as Hrows.
  { by rewrite rows_activated, decide_False, decide_True, Hnew. }
  split; [done|].
  split; [by rewrite field_activated_Id|].
  split.
  - intros x k Hx Hne. unfold activated. cbv zeta. rewrite isNew_alt, Hnew.
    rewrite field_created_product_old; [|by apply live_built|by left].
    by apply field_built_loc_ne.
  - intros p Hp Hpid Hne Hnd. unfold ids in Hnd. rewrite Hrows, fmap_app in Hnd.
    apply NoDup_app in Hnd as (_ & Hdis & _).
    apply (Hdis (VStr sDraftId)).
    + apply list_elem_of_fmap. exists p. split; [|done].
      rewrite field_activated_Id; [done|]. by apply (Hwf "Products").
    + apply list_elem_of_fmap. exists l. split; [|by left].
      by rewrite field_activated_Id.
Qed.

Lemma X22_new_product_frame_witness :
  (_getProductDraft (VStr "EPM-1") snackDraft = Ok (VRef 2) snackDraft
   ∧ isNew (field snackDraft 2 "IsNewProduct") = true
   ∧ rowsAllocated snackDraft)
  ∧ ∃ r σ', _mockActivateProduct_response (Encoded "EPM-1") snackDraft = Ok r σ'
      ∧ getEntitySetData "Products" σ' = [2]
      ∧ field σ' 0 "Name" = VStr "Snacks".
Proof.
  assert (_getProductDraft (VStr "EPM-1") snackDraft = Ok (VRef 2) snackDraft)
    as Hd by (vm_compute; reflexivity).
  assert (isNew (field snackDraft 2 "IsNewProduct") = true) as Hnew
    by (vm_compute; reflexivity).
  assert (rowsAllocated snackDraft) as Hwf.
  { apply rowsAllocated_check. vm_compute. reflexivity. }
  split; [done|].
  destruct (X22_new_product_frame "EPM-1" 2 snackDraft Hd Hnew Hwf)
    as (r & σ' & Hrun & Hrows & _ & Hold & _).
  exists r, σ'. split; [done|]. split; [rewrite Hrows; vm_compute; reflexivity|].
  rewrite Hold; [vm_compute; reflexivity| |done].
  apply live_field with "Id". vm_compute. discriminate.
Defined.

(** X23: a draft can be activated once: after the activation no draft row
    has its id, so activating the same id again fails with a TypeError and
    leaves the products and all objects as the first activation left them. *)
Theorem X23_activate_twice sDraftId l σ :
  _getProductDraft (VStr sDraftId) σ = Ok (VRef l) σ →
  rowsAllocated σ →
  ∃ r σ1 σ2,
    _mockActivateProduct_response (Encoded sDraftId) σ = Ok r σ1
    ∧ _getProductDraft (VStr sDraftId) σ1 = Ok (VBool false) σ1
    ∧ _mockActivateProduct_response (Encoded sDraftId) σ1
      = Throw (TypeError "Cannot create property on primitive") σ2
    ∧ getEntitySetData "Products" σ2 = getEntitySetData "Products" σ1
    ∧ (∀ x k, field σ2 x k = field σ1 x k).
Proof.
  rewrite _getProductDraft_run. intros [= Hfound] Hwf.
  destruct (draft_row_live _ _ _ Hfound Hwf) as [Hl Hid].
  rewrite (_mockActivateProduct_run _ l) by done. cbv zeta.
  assert (found "ProductDrafts" (VStr sDraftId) "Id" (activated l σ)
          = VBool false) as Hgone.
  { apply found_noMatch. intros x Hx.
    rewrite rows_activated, decide_True in Hx by done.
    apply list_elem_of_filter in Hx as [Hne Hx].
    rewrite field_activated_Id by (by apply (Hwf "ProductDrafts")).
    by rewrite <-Hid. }
  eexists _, _, _. split; [reflexivity|].
  split; [by rewrite _getProductDraft_run, Hgone|].
  rewrite _mockActivateProduct_missing by done.
  split; [reflexivity|].
  split; [by rewrite rows_without_drafts, decide_False|].
  intros x k. apply field_without_drafts.
Qed.

Lemma X23_activate_twice_witness :
  (_getProductDraft (VStr "EPM-1") snackDraft = Ok (VRef 2) snackDraft
   ∧ rowsAllocated snackDraft)
  ∧ ∃ r σ1 σ2,
      _mockActivateProduct_response (Encoded "EPM-1") snackDraft = Ok r σ1
      ∧ _mockActivateProduct_response (Encoded "EPM-1") σ1
        = Throw (TypeError "Cannot create property on primitive") σ2
      ∧ getEntitySetData "Products" σ2 = getEntitySetData "Products" σ1.
Proof.
  assert (_getProductDraft (VStr "EPM-1") snackDraft = Ok (VRef 2) snackDraft)
    as Hd by (vm_compute; reflexivity).
  assert (rowsAllocated snackDraft) as Hwf.
  { apply rowsAllocated_check. vm_compute. reflexivity. }
  split; [done|].
  destruct (X23_activate_twice "EPM-1" 2 snackDraft Hd Hwf)
    as (r & σ1 & σ2 & H1 & _ & H2 & Hrows & _).
  exists r, σ1, σ2. split; [exact H1|]. split; [exact H2|exact Hrows].
Defined.

(** * The claims on activation and on the round trip *)

(** ** Activation of a draft *)



Section activation_in_full.
Implicit Types (σ : state) (l x : loc) (k n : string) (v : value).


End activation_in_full.





(** ** Editing a product and activating the edit, property by property *)

Lemma refsInUse_check (σ : state) (x : loc) :
  bool_decide
    (map_Forall (λ _ v, match v with
                        | VRef y => bool_decide (y ∈ dom (heap σ))
                        | _ => true
                        end = true) (hobj (heap σ) x)) = true →
  refsInUse σ x.
Proof.
  intros H. apply bool_decide_eq_true in H. intros k y Hk.
  unfold field, oget in Hk.
  destruct (hobj (heap σ) x !! k) as [v|] eqn:E; simpl in Hk; [|done].
  subst v. specialize (H k (VRef y) E). simpl in H.
  by apply bool_decide_eq_true in H.
Qed.

Section roundtrip_exact.
Variables (sProductId : string) (p : loc) (σ : state).
Hypothesis Hfound : found "Products" (VStr sProductId) "Id" σ = VRef p.
Hypothesis Hnone :
  noMatch σ "Id" (VStr sProductId) (getEntitySetData "ProductDrafts" σ).
Hypothesis Hwf : rowsAllocated σ.
Hypothesis Hrefs : refsInUse σ p.

Local Abbreviation d := (next_loc σ).
Local Abbreviation σ1 := (drafted sProductId false σ).

Lemma edited_row :
  p ∈ getEntitySetData "Products" σ ∧ field σ p "Id" = VStr sProductId.
Proof. by apply firstMatch_elem, found_ref_inv. Qed.

Lemma edited_not_draft : p ≠ d.
Proof. apply live_not_next. by apply (edited_product_live sProductId). Qed.

(** The product after the round trip, property by property. *)
Lemma field_roundtrip_exact k :
  field (activated d σ1) p k
  = extendedValue p (field (built d σ1) d k) (field σ p k).
Proof.
  destruct edited_row as [Hin Hid].
  pose proof (edited_product_live sProductId p σ Hfound Hwf) as Hp.
  pose proof edited_not_draft as Hne.
  assert (field (built d σ1) d "Id" = VStr sProductId) as Hbid.
  { rewrite field_built_keeps
      by (unfold draftOnly, convertedKeys, newProductKeys; solve_notin).
    apply field_drafted_Id. }
  assert (∀ k', field (built d σ1) p k' = field σ p k') as Hsame.
  { intros k'. rewrite field_built_loc_ne by done. by apply field_drafted_old. }
  unfold activated. cbv zeta.
  rewrite isNew_alt, field_drafted_IsNewProduct.
  cbn [isNew typeof_undefined truthy].
  rewrite (field_updated _ _ _ (hobj (heap (built d σ1)) d))
    by first [done | apply stable_object].
  rewrite decide_True; [by rewrite Hsame|].
  split.
  - rewrite rows_built, decide_False by done.
    by rewrite rows_drafted, decide_False.
  - by rewrite Hsame, Hbid.
Qed.

Lemma draft_copy k :
  k ∉ productOnly ++ draftKeys → field σ1 d k = field σ p k.
Proof.
  intros Hk. pose proof (field_drafted_copy sProductId false σ k Hk) as H.
  cbv zeta in H. rewrite Hfound in H. apply H. simpl.
  intros E. apply Hrefs in E. by apply (next_loc_fresh σ).
Qed.

Lemma convert_drafted n from to v :
  n ≠ "ProductDrafts" →
  convert n from to v (built d σ1) = convert n from to v σ
  ∧ convert n from to v σ1 = convert n from to v σ.
Proof.
  intros Hn.
  assert (convert n from to v σ1 = convert n from to v σ) as H1.
  { apply convert_ext.
    - by rewrite rows_drafted, decide_False.
    - intros x k Hx. apply field_drafted_old. by apply (Hwf n). }
  split; [|done]. rewrite <-H1. apply convert_ext.
  - by rewrite rows_built, decide_False.
  - intros x k Hx. apply field_built_loc_ne.
    rewrite rows_drafted, decide_False in Hx by done.
    apply live_not_next. by apply (Hwf n).
Qed.

Lemma built_name (sName sId n : string) :
  (sName = "SubCategoryName" ∧ sId = "SubCategoryId" ∧ n = "SubCategories")
  ∨ (sName = "MainCategoryName" ∧ sId = "MainCategoryId" ∧ n = "MainCategories") →
  field (built d σ1) d sName = convert n "Id" "Name" (field σ p sId) σ.
Proof.
  intros [(-> & -> & ->)|(-> & -> & ->)].
  - rewrite field_built_SubCategoryName. fold (convert "SubCategories" "Id" "Name"
      (field σ1 d "SubCategoryId") σ1).
    rewrite draft_copy by (unfold productOnly, draftKeys; solve_notin).
    by apply convert_drafted.
  - rewrite field_built_MainCategoryName. fold (convert "MainCategories" "Id" "Name"
      (field σ1 d "MainCategoryId") σ1).
    rewrite draft_copy by (unfold productOnly, draftKeys; solve_notin).
    by apply convert_drafted.
Qed.

Lemma built_unit (f n : string) :
  (f = "WeightUnit" ∧ n = "WeightUnits")
  ∨ (f = "DimensionUnit" ∧ n = "DimensionUnits") →
  field (built d σ1) d f
  = convert n "Unit" "Shorttext"
      (convert n "Shorttext" "Unit" (field σ p f) σ) σ.
Proof.
  intros [[-> ->]|[-> ->]].
  - rewrite field_built_WeightUnit.
    rewrite field_drafted_WeightUnit, Hfound by done. simpl prop_of.
    by apply convert_drafted.
  - rewrite field_built_DimensionUnit.
    rewrite field_drafted_DimensionUnit, Hfound by done. simpl prop_of.
    by apply convert_drafted.
Qed.

Lemma built_CreatedBy : field (built d σ1) d "CreatedBy" = VStr "Test User".
Proof.
  rewrite field_built_keeps
    by (unfold draftOnly, convertedKeys, newProductKeys; solve_notin).
  by destruct (field_drafted_stamp sProductId false σ) as [-> _].
Qed.
End roundtrip_exact.

(** C2 (amended): for a product found by its id, with no draft of that id
    pending, creating the edit draft and activating it leaves Products and
    ProductDrafts with the rows they had and every property of the product
    as it was - the product-only HasReviewOfCurrentUser, RatingCount,
    IsFavoriteOfCurrentUser, StockQuantity and AverageRating among them -
    but for five, which the two steps write anew: CreatedBy becomes
    "Test User"; SubCategoryName and MainCategoryName become the names that
    the category tables have for the product's SubCategoryId and
    MainCategoryId, and WeightUnit and DimensionUnit the texts that the unit
    tables give for the unit codes they give for the product's texts - each
    of the four only when the table gives a value: where it gives none, the
    product keeps what it had. *)
Theorem C2_edit_roundtrip sProductId p σ :
  _getProduct (VStr sProductId) σ = Ok (VRef p) σ →
  noMatch σ "Id" (VStr sProductId) (getEntitySetData "ProductDrafts" σ) →
  rowsAllocated σ →
  refsInUse σ p →
  ∃ r1 σ1 r2 σ2,
    _createDraft sProductId false σ = Ok r1 σ1
    ∧ _mockActivateProduct_response (Encoded sProductId) σ1 = Ok r2 σ2
    ∧ getEntitySetData "Products" σ2 = getEntitySetData "Products" σ
    ∧ getEntitySetData "ProductDrafts" σ2 = getEntitySetData "ProductDrafts" σ
    ∧ (∀ k, k ∈ [ "HasReviewOfCurrentUser"; "RatingCount";
                  "IsFavoriteOfCurrentUser"; "StockQuantity"; "AverageRating" ] →
            field σ2 p k = field σ p k)
    ∧ (∀ k, k ∉ roundTripKeys → field σ2 p k = field σ p k)
    ∧ field σ2 p "CreatedBy" = VStr "Test User"
    ∧ field σ2 p "SubCategoryName"
      = extendedValue p
          (convert "SubCategories" "Id" "Name" (field σ p "SubCategoryId") σ)
          (field σ p "SubCategoryName")
    ∧ field σ2 p "MainCategoryName"
      = extendedValue p
          (convert "MainCategories" "Id" "Name" (field σ p "MainCategoryId") σ)
          (field σ p "MainCategoryName")
    ∧ field σ2 p "WeightUnit"
      = extendedValue p
          (convert "WeightUnits" "Unit" "Shorttext"
             (convert "WeightUnits" "Shorttext" "Unit"
                (field σ p "WeightUnit") σ) σ)
          (field σ p "WeightUnit")
    ∧ field σ2 p "DimensionUnit"
      = extendedValue p
          (convert "DimensionUnits" "Unit" "Shorttext"
             (convert "DimensionUnits" "Shorttext" "Unit"
                (field σ p "DimensionUnit") σ) σ)
          (field σ p "DimensionUnit").
Proof.
  rewrite _getProduct_run. intros [= Hfound] Hnone Hwf Hrefs.
  rewrite _createDraft_run. cbv zeta.
  eexists _, _, _, _. split; [reflexivity|].
  rewrite (_mockActivateProduct_run _ (next_loc σ))
    by (by apply edit_draft_found).
  cbv zeta. split; [reflexivity|].
  split; [by apply rows_roundtrip|]. split; [by apply rows_roundtrip|].
  split.
  { intros k Hk. apply field_roundtrip; try done. unfold roundTripKeys.
    repeat (apply elem_of_cons in Hk as [->|Hk]); [..|by apply elem_of_nil in Hk];
      solve_notin. }
  split; [intros k Hk; by apply field_roundtrip|].
  rewrite !(field_roundtrip_exact sProductId p σ Hfound Hwf).
  rewrite (built_CreatedBy sProductId σ).
  rewrite (built_name sProductId p σ Hfound Hwf Hrefs
             "SubCategoryName" "SubCategoryId" "SubCategories") by (by left).
  rewrite (built_name sProductId p σ Hfound Hwf Hrefs
             "MainCategoryName" "MainCategoryId" "MainCategories")
    by (right; by repeat split).
  rewrite (built_unit sProductId p σ Hfound Hwf "WeightUnit" "WeightUnits")
    by (by left).
  rewrite (built_unit sProductId p σ Hfound Hwf "DimensionUnit" "DimensionUnits")
    by (by right).
  split; [|done]. unfold extendedValue. by rewrite decide_True.
Qed.

Lemma C2_edit_roundtrip_witness :
  (_getProduct (VStr "HT-1000") kiloProduct = Ok (VRef 0) kiloProduct
   ∧ noMatch kiloProduct "Id" (VStr "HT-1000")
       (getEntitySetData "ProductDrafts" kiloProduct)
   ∧ rowsAllocated kiloProduct
   ∧ refsInUse kiloProduct 0)
  ∧ ∃ r1 σ1 r2 σ2,
      _createDraft "HT-1000" false kiloProduct = Ok r1 σ1
      ∧ _mockActivateProduct_response (Encoded "HT-1000") σ1 = Ok r2 σ2
      ∧ field σ2 0 "Id" = VStr "HT-1000"
      ∧ field σ2 0 "CreatedBy" = VStr "Test User"
      ∧ field σ2 0 "WeightUnit" = VStr "kg".
Proof.
  assert (_getProduct (VStr "HT-1000") kiloProduct = Ok (VRef 0) kiloProduct)
    as Hp by (vm_compute; reflexivity).
  assert (noMatch kiloProduct "Id" (VStr "HT-1000")
            (getEntitySetData "ProductDrafts" kiloProduct)) as Hnone.
  { intros x Hx. by apply elem_of_nil in Hx. }
  assert (rowsAllocated kiloProduct) as Hwf.
  { apply rowsAllocated_check. vm_compute. reflexivity. }
  assert (refsInUse kiloProduct 0) as Hrefs.
  { apply refsInUse_check. vm_compute. reflexivity. }
  split; [repeat split; assumption|].
  destruct (C2_edit_roundtrip "HT-1000" 0 kiloProduct Hp Hnone Hwf Hrefs)
    as (r1 & σ1 & r2 & σ2 & Hdraft & Hact & _ & _ & _ & Hkeep & Hby & _ & _
        & Hw & _).
  exists r1, σ1, r2, σ2. split; [done|]. split; [exact Hact|].
  split.
  { rewrite Hkeep; [vm_compute; reflexivity|]. unfold roundTripKeys. solve_notin. }
  split; [exact Hby|]. rewrite Hw. vm_compute. reflexivity.
Defined.

(** C2 as stated fails for the properties the two steps write anew: a
    product whose SubCategoryName is not the name of its category in the
    SubCategories table gets the table's name, and its CreatedBy becomes the
    fixed creator label of the draft. *)
Lemma C2_counterexample :
  _getProduct (VStr "HT-1000") renamedCategory = Ok (VRef 0) renamedCategory
  ∧ field renamedCategory 0 "SubCategoryName" = VStr "Old"
  ∧ field renamedCategory 0 "CreatedBy" = VStr "Alice"
  ∧ ∃ r1 σ1 r2 σ2,
      _createDraft "HT-1000" false renamedCategory = Ok r1 σ1
      ∧ _mockActivateProduct_response (Encoded "HT-1000") σ1 = Ok r2 σ2
      ∧ field σ2 0 "SubCategoryName" = VStr "Snacks"
      ∧ field σ2 0 "CreatedBy" = VStr "Test User".
Proof.
  split; [vm_compute; reflexivity|].
  split; [vm_compute; reflexivity|].
  split; [vm_compute; reflexivity|].
  exists (Response 200 (VRef 2)),
         (final (_createDraft "HT-1000" false renamedCategory)),
         (Response 200 (VRef 0)),
         (final (_mockActivateProduct_response (Encoded "HT-1000")
                   (final (_createDraft "HT-1000" false renamedCategory)))).
  repeat (split; [vm_compute; reflexivity|]). vm_compute; reflexivity.
Qed.
